(** * PCI device assignment: topology codec, class database, device
      metadata and attach/detach handlers of qubes-core-admin

    A shallow embedding of [qubes/utils.py] ([sbdf_to_path],
    [path_to_sbdf], [is_pci_path]), of the migration step of
    [qubes/vm/__init__.py] ([load_extras]) and of [qubes/ext/pci.py]
    ([load_pci_classes], [pcidev_class], [PCIDevice._load_desc], the
    [device-pre-attach:pci] and [device-pre-detach:pci] handlers).

    The second part of the development covers more of the same files:
    [parse_size], [sanitize_stderr_for_log], [match_vm_name_with_special]
    and the durable file operations of [qubes/utils.py]; [validate_name],
    [Tags] and [VMProperty.sanitize] of [qubes/vm/__init__.py]; the
    volume configuration of [qubes/vm/appvm.py]; device listing,
    [on_domain_pre_start] and the device description of
    [qubes/ext/pci.py].

    Python [str] values are [string]s, [dict]s are [gmap]s, Python
    integers are [Z].  Everything the code reads from the host (sysfs,
    libvirt, subprocesses) is a field of an explicit environment record;
    raised exceptions are values of [exn] carried by [outcome]. *)

From Stdlib Require Import ZArith Lia Ascii String Bool List.
From stdpp Require Import base option list strings gmap.

Local Open Scope Z_scope.

(** ** Exceptions and results *)

(** Error numbers of [libvirt.libvirtError.get_error_code()] that the
    code tells apart. *)
Inductive virErrorNumber : Type :=
| VIR_ERR_INTERNAL_ERROR
| VIR_ERR_NO_NODE_DEVICE
| VIR_ERR_other (code : Z).

Inductive exn : Type :=
| ValueError (arg : string)
| AssertionError
| FileNotFoundError (path : string)
| OSError (what : string)
| KeyError (key : string)
| QubesException (msg : string)
| UnsupportedDevice (name : string)
| CalledProcessError (cmd : string)
| libvirtError (code : virErrorNumber)
| OtherError (name : string).

Inductive outcome (A : Type) : Type :=
| Ok (a : A)
| Raise (e : exn).
Arguments Ok {A} a.
Arguments Raise {A} e.

(** ** Python string primitives *)

Module Py.

Definition ascii_eqb (a b : ascii) : bool := Ascii.eqb a b.

Definition code (c : ascii) : Z := Z.of_nat (nat_of_ascii c).

Definition tab : ascii := "009".
Definition newline : ascii := "010".
Definition carriage_return : ascii := "013".

(** What the dot of a regular expression matches. *)
Definition not_newline (c : ascii) : bool := negb (ascii_eqb c newline).

Definition in_range (lo hi c : ascii) : bool :=
  (code lo <=? code c) && (code c <=? code hi).

(** [[0-9]] *)
Definition is_digit (c : ascii) : bool := in_range "0" "9" c.

(** [[0-9a-f]] *)
Definition is_hex (c : ascii) : bool := is_digit c || in_range "a" "f" c.

(** [len(s)] *)
Fixpoint len (s : string) : nat :=
  match s with
  | EmptyString => O
  | String _ r => S (len r)
  end.

(** [s[n:]] *)
Fixpoint drop (n : nat) (s : string) : string :=
  match n, s with
  | O, _ => s
  | S k, EmptyString => EmptyString
  | S k, String _ r => drop k r
  end.

(** [s[:n]] *)
Fixpoint take (n : nat) (s : string) : string :=
  match n, s with
  | O, _ => EmptyString
  | S k, EmptyString => EmptyString
  | S k, String c r => String c (take k r)
  end.

(** [s.startswith(p)] *)
Fixpoint startswith (p s : string) : bool :=
  match p, s with
  | EmptyString, _ => true
  | String a p', String b s' => ascii_eqb a b && startswith p' s'
  | String _ _, EmptyString => false
  end.

(** [s.endswith(p)] *)
Definition endswith (p s : string) : bool :=
  (len p <=? len s)%nat && String.eqb (drop (len s - len p) s) p.

(** [all(p(c) for c in s)] *)
Fixpoint all (p : ascii -> bool) (s : string) : bool :=
  match s with
  | EmptyString => true
  | String c r => p c && all p r
  end.

(** [sep not in s] for a one-character [sep]. *)
Definition no_char (sep : ascii) (s : string) : bool :=
  all (fun c => negb (ascii_eqb c sep)) s.

(** [s.replace(a, b)] for one-character [a] and [b]. *)
Fixpoint replace (a b : ascii) (s : string) : string :=
  match s with
  | EmptyString => EmptyString
  | String c r => String (if ascii_eqb c a then b else c) (replace a b r)
  end.

(** [s.split(sep)] for a one-character separator.  [split] of the empty
    string is the list holding the empty string, as in Python. *)
Fixpoint split (sep : ascii) (s : string) : list string :=
  match s with
  | EmptyString => [EmptyString]
  | String c r =>
      if ascii_eqb c sep then EmptyString :: split sep r
      else match split sep r with
           | piece :: pieces => String c piece :: pieces
           | [] => [String c EmptyString]
           end
  end.

(** [s.split(sep, maxsplit)] for a one-character separator. *)
Fixpoint splitn (sep : ascii) (maxsplit : nat) (s : string) : list string :=
  match s with
  | EmptyString => [EmptyString]
  | String c r =>
      match maxsplit with
      | O => [s]
      | S k =>
          if ascii_eqb c sep then EmptyString :: splitn sep k r
          else match splitn sep maxsplit r with
               | piece :: pieces => String c piece :: pieces
               | [] => [String c EmptyString]
               end
      end
  end.

(** [sep.join(l)] *)
Fixpoint join (sep : string) (l : list string) : string :=
  match l with
  | [] => EmptyString
  | [x] => x
  | x :: r => x +:+ sep +:+ join sep r
  end.

(** [s.partition(sep)]: the text before the first occurrence of [sep],
    whether [sep] was found, and the text after it. *)
Fixpoint partition (sep : string) (s : string) : string * bool * string :=
  if startswith sep s then (EmptyString, true, drop (len sep) s)
  else match s with
       | EmptyString => (EmptyString, false, EmptyString)
       | String c r =>
           let '(before, found, after) := partition sep r in
           (String c before, found, after)
       end.

(** Whitespace of [str.strip()] and of [\s] within ASCII. *)
Definition is_space (c : ascii) : bool :=
  ((9 <=? code c) && (code c <=? 13))
  || ((28 <=? code c) && (code c <=? 32)).

(** Whitespace that [int()] skips around the number in ASCII text. *)
Definition is_int_space (c : ascii) : bool :=
  ((9 <=? code c) && (code c <=? 13)) || (code c =? 32).

Fixpoint lstrip_by (p : ascii -> bool) (s : string) : string :=
  match s with
  | EmptyString => EmptyString
  | String c r => if p c then lstrip_by p r else s
  end.

Definition rstrip_by (p : ascii -> bool) (s : string) : string :=
  String.rev (lstrip_by p (String.rev s)).

(** [s.rstrip()] *)
Definition rstrip (s : string) : string := rstrip_by is_space s.

(** [s.strip()] *)
Definition strip (s : string) : string :=
  rstrip_by is_space (lstrip_by is_space s).

(** Text read with [encoding="ascii"]: every byte is below 128. *)
Definition is_ascii (s : string) : bool := all (fun c => code c <? 128) s.

(** *** Numbers *)

Definition digit_val (c : ascii) : Z := code c - code "0".

Definition hex_val (c : ascii) : Z :=
  if is_digit c then code c - code "0" else code c - code "a" + 10.

(** [int(s, 16)] on a string of [[0-9a-f]] characters. *)
Fixpoint int16_from (acc : Z) (s : string) : Z :=
  match s with
  | EmptyString => acc
  | String c r => int16_from (acc * 16 + hex_val c) r
  end.

Definition int16 (s : string) : Z := int16_from 0 s.

(** Decimal digits with single underscores between digits, as [int()]
    accepts them. *)
Fixpoint dec_digits (acc : Z) (after_digit : bool) (s : string) : option Z :=
  match s with
  | EmptyString => if after_digit then Some acc else None
  | String c r =>
      if is_digit c then dec_digits (acc * 10 + digit_val c) true r
      else if ascii_eqb c "_" && after_digit then dec_digits acc false r
      else None
  end.

(** [int(s)] on ASCII text: surrounding whitespace, an optional sign,
    decimal digits; [None] stands for [ValueError]. *)
Definition int (s : string) : option Z :=
  match rstrip_by is_int_space (lstrip_by is_int_space s) with
  | String "-" r => Z.opp <$> dec_digits 0 false r
  | String "+" r => dec_digits 0 false r
  | r => dec_digits 0 false r
  end.

Definition hex_digit (n : Z) : ascii :=
  if n <? 10 then ascii_of_nat (Z.to_nat (code "0" + n))
  else ascii_of_nat (Z.to_nat (code "a" + (n - 10))).

(** Lower-case hexadecimal digits of a non-negative number, most
    significant first, in front of [acc]. *)
Fixpoint hex_go (fuel : nat) (n : Z) (acc : string) : string :=
  match fuel with
  | O => acc
  | S k =>
      let acc' := String (hex_digit (n mod 16)) acc in
      if n / 16 =? 0 then acc' else hex_go k (n / 16) acc'
  end.

Definition hex (n : Z) : string :=
  hex_go (S (Z.to_nat (Z.log2 n))) n EmptyString.

(** Left padding with ["0"] up to [width] characters. *)
Fixpoint zfill_go (k : nat) (s : string) : string :=
  match k with
  | O => s
  | S k' => String "0" (zfill_go k' s)
  end.

Definition zfill (width : nat) (s : string) : string :=
  zfill_go (width - len s) s.

(** [f"{n:02x}"]: the sign counts in the width. *)
Definition fmt_02x (n : Z) : string :=
  if n <? 0 then String "-" (zfill 1 (hex (- n))) else zfill 2 (hex n).

(** *** [os.path] for POSIX *)

(** [os.path.join(a, b)] *)
Definition path_join (a b : string) : string :=
  if startswith "/" b then b
  else if String.eqb a EmptyString || endswith "/" a then a +:+ b
  else a +:+ "/" +:+ b.

(** The component loop of [os.path.normpath]; [new_comps] is kept
    reversed. *)
Fixpoint normpath_go (initial_slashes : nat) (comps : list string)
    (new_comps : list string) : list string :=
  match comps with
  | [] => List.rev new_comps
  | comp :: rest =>
      if String.eqb comp EmptyString || String.eqb comp "." then
        normpath_go initial_slashes rest new_comps
      else if negb (String.eqb comp "..")
              || ((initial_slashes =? 0)%nat
                  && match new_comps with [] => true | _ => false end)
              || match new_comps with
                 | last :: _ => String.eqb last ".."
                 | [] => false
                 end
      then normpath_go initial_slashes rest (comp :: new_comps)
      else match new_comps with
           | _ :: popped => normpath_go initial_slashes rest popped
           | [] => normpath_go initial_slashes rest new_comps
           end
  end.

(** [os.path.normpath(path)] *)
Definition normpath (path : string) : string :=
  if String.eqb path EmptyString then "." else
  let initial_slashes :=
    if startswith "/" path then
      if startswith "//" path && negb (startswith "///" path)
      then 2%nat else 1%nat
    else 0%nat in
  let comps := normpath_go initial_slashes (split "/" path) [] in
  let path := join "/" comps in
  let path := match initial_slashes with
              | O => path
              | 1%nat => "/" +:+ path
              | _ => "//" +:+ path
              end in
  if String.eqb path EmptyString then "." else path.

(** *** Regular expressions of three hex groups *)

(** Longest prefix of [[0-9a-f]] characters and what follows it. *)
Fixpoint span_hex (s : string) : string * string :=
  match s with
  | EmptyString => (EmptyString, EmptyString)
  | String c r =>
      if is_hex c then let '(h, t) := span_hex r in (String c h, t)
      else (EmptyString, s)
  end.

(** [\A([0-9a-f]+)S1([0-9a-f]+)S2([0-9a-f]+)\Z] for one-character
    separator classes [S1] and [S2] that hold no hex digit, so that each
    group is the longest run of hex digits. *)
Definition match_hex3 (sep1 sep2 : ascii -> bool) (s : string)
  : option (string * string * string) :=
  match span_hex s with
  | (String b0 b, String s1 r1) =>
      if sep1 s1 then
        match span_hex r1 with
        | (String d0 d, String s2 r2) =>
            if sep2 s2 then
              match span_hex r2 with
              | (String f0 f, EmptyString) =>
                  Some (String b0 b, String d0 d, String f0 f)
              | _ => None
              end
            else None
        | _ => None
        end
      else None
  | _ => None
  end.

(** *** Text decoded from UTF-8

    The text of a file that is opened with [encoding='utf-8'] is held as
    the UTF-8 encoding of its characters.  A prefix, a separator, an
    index or a line end of ASCII characters means the same on both. *)

(** A continuation byte of UTF-8. *)
Definition is_cont (c : ascii) : bool := in_range "128" "191" c.

(** Well-formed sequences of two, three and four bytes. *)
Definition utf8_2 (b0 b1 : ascii) : bool :=
  in_range "194" "223" b0 && is_cont b1.

Definition utf8_3 (b0 b1 b2 : ascii) : bool :=
  (ascii_eqb b0 "224" && in_range "160" "191" b1
   || in_range "225" "236" b0 && is_cont b1
   || ascii_eqb b0 "237" && in_range "128" "159" b1
   || in_range "238" "239" b0 && is_cont b1)
  && is_cont b2.

Definition utf8_4 (b0 b1 b2 b3 : ascii) : bool :=
  (ascii_eqb b0 "240" && in_range "144" "191" b1
   || in_range "241" "243" b0 && is_cont b1
   || ascii_eqb b0 "244" && in_range "128" "143" b1)
  && is_cont b2 && is_cont b3.

(** [bytes.decode('utf-8', errors='ignore')]: the well-formed sequences
    stay, every other byte is dropped. *)
Fixpoint decode_utf8_ignore (s : string) : string :=
  match s with
  | EmptyString => EmptyString
  | String b0 r0 =>
      if code b0 <? 128 then String b0 (decode_utf8_ignore r0)
      else
        match r0 with
        | EmptyString => EmptyString
        | String b1 r1 =>
            if utf8_2 b0 b1
            then String b0 (String b1 (decode_utf8_ignore r1))
            else
              match r1 with
              | EmptyString => decode_utf8_ignore r0
              | String b2 r2 =>
                  if utf8_3 b0 b1 b2
                  then String b0 (String b1 (String b2
                                    (decode_utf8_ignore r2)))
                  else
                    match r2 with
                    | EmptyString => decode_utf8_ignore r0
                    | String b3 r3 =>
                        if utf8_4 b0 b1 b2 b3
                        then String b0 (String b1 (String b2 (String b3
                                          (decode_utf8_ignore r3))))
                        else decode_utf8_ignore r0
                    end
              end
        end
  end.

(** The white space of [str.rstrip()] beyond ASCII, in UTF-8: U+0085 and
    U+00A0 in two bytes; U+1680, U+2000 to U+200A, U+2028, U+2029,
    U+202F, U+205F and U+3000 in three. *)
Definition is_space_2 (b0 b1 : ascii) : bool :=
  ascii_eqb b0 "194" && (ascii_eqb b1 "133" || ascii_eqb b1 "160").

Definition is_space_3 (b0 b1 b2 : ascii) : bool :=
  ascii_eqb b0 "225" && ascii_eqb b1 "154" && ascii_eqb b2 "128"
  || ascii_eqb b0 "226" && ascii_eqb b1 "128"
     && (in_range "128" "138" b2 || in_range "168" "169" b2
         || ascii_eqb b2 "175")
  || ascii_eqb b0 "226" && ascii_eqb b1 "129" && ascii_eqb b2 "159"
  || ascii_eqb b0 "227" && ascii_eqb b1 "128" && ascii_eqb b2 "128".

(** White space taken from the front of text that is written last byte
    first. *)
Fixpoint lstrip_rev_utf8 (r : string) : string :=
  match r with
  | EmptyString => EmptyString
  | String c r1 =>
      if is_space c then lstrip_rev_utf8 r1
      else
        match r1 with
        | EmptyString => r
        | String c1 r2 =>
            if is_space_2 c1 c then lstrip_rev_utf8 r2
            else
              match r2 with
              | EmptyString => r
              | String c2 r3 =>
                  if is_space_3 c2 c1 c then lstrip_rev_utf8 r3 else r
              end
        end
  end.

(** [s.rstrip()] for text held as UTF-8. *)
Definition rstrip_utf8 (s : string) : string :=
  String.rev (lstrip_rev_utf8 (String.rev s)).

End Py.

(** ** The host's device tree *)

(** What the code reads from the host's file system (sysfs and
    [/usr/share/hwdata]).  A missing file or link is [None] (the call
    raises [FileNotFoundError]). *)
Record sysfs : Type := {
  listdir : string -> list string;
  readlink : string -> option string;
  read_text : string -> option string;
  path_exists : string -> bool
}.

Definition SYSFS_BASE : string := "/sys".

(** ** Topology codec ([qubes/utils.py]) *)

Module Utils.
Import Py.

(** Groups of a match of the device regex of [sbdf_to_path]. *)
Record dev_match : Type := {
  m_segment : option string;
  m_bus : string;
  m_device : string;
  m_function : string
}.

Definition is_sep_uc (c : ascii) : bool := ascii_eqb c "_" || ascii_eqb c ":".
Definition is_sep_du (c : ascii) : bool := ascii_eqb c "." || ascii_eqb c "_".

(** [(?P<bus>[0-9a-f]{2})[_:](?P<device>[0-9a-f]{2})[._]
     (?P<function>[0-9a-f])\Z] *)
Definition match_bdf (seg : option string) (s : string) : option dev_match :=
  match s with
  | String b1 (String b2 (String s1 (String d1 (String d2
      (String s2 (String f EmptyString)))))) =>
      if is_hex b1 && is_hex b2 && is_sep_uc s1 && is_hex d1 && is_hex d2
         && is_sep_du s2 && is_hex f
      then Some {| m_segment := seg;
                   m_bus := String b1 (String b2 EmptyString);
                   m_device := String d1 (String d2 EmptyString);
                   m_function := String f EmptyString |}
      else None
  | _ => None
  end.

(** [((?P<segment>[0-9a-f]{4})[_:])?] followed by the rest: the group is
    tried first, and skipped when the match fails with it. *)
Definition match_seg_bdf (s : string) : option dev_match :=
  match s with
  | String g1 (String g2 (String g3 (String g4 (String s0 rest)))) =>
      if is_hex g1 && is_hex g2 && is_hex g3 && is_hex g4 && is_sep_uc s0
      then match match_bdf
                   (Some (String g1 (String g2 (String g3
                            (String g4 EmptyString))))) rest with
           | Some m => Some m
           | None => match_bdf None s
           end
      else match_bdf None s
  | _ => match_bdf None s
  end.

(** The regex of [sbdf_to_path]:
    [\A(?:pci_)?((?P<segment>[0-9a-f]{4})[_:])?(?P<bus>[0-9a-f]{2})[_:]
       (?P<device>[0-9a-f]{2})[._](?P<function>[0-9a-f])\Z] *)
Definition sbdf_regex_match (s : string) : option dev_match :=
  if startswith "pci_" s then
    match match_seg_bdf (drop 4 s) with
    | Some m => Some m
    | None => match_seg_bdf s
    end
  else match_seg_bdf s.

(** The [try] block that reads a bridge's secondary bus number:
    the new [bus_offset], [-1] when the file does not exist. *)
Definition read_bus_offset (fs : sysfs) (file : string) : outcome Z :=
  match read_text fs file with
  | None => Ok (-1)
  | Some text =>
      if is_ascii text then
        match int text with
        | Some n => Ok n
        | None => Raise (ValueError text)
        end
      else Raise (ValueError text)
  end.

Definition sysfs_pci_devs_base : string := SYSFS_BASE +:+ "/bus/pci/devices".

(** [root_buses] of [sbdf_to_path] *)
Definition root_buses (fs : sysfs) : list string :=
  map (drop 3)
      (List.filter (startswith "pci") (listdir fs (SYSFS_BASE +:+ "/devices"))).

Definition in_list (x : string) (l : list string) : bool :=
  existsb (String.eqb x) l.

(** The [for path_part in path.split("/")] loop of [sbdf_to_path]. *)
Fixpoint sbdf_to_path_loop (fs : sysfs) (parts : list string)
    (bus_offset : Z) (result_list : list string) : outcome (list string) :=
  match parts with
  | [] => Ok result_list
  | path_part :: rest =>
      if bus_offset =? -1 then Raise AssertionError else
      match sbdf_regex_match path_part with
      | None => Raise (ValueError path_part)
      | Some bridge_match =>
          if int16 (m_bus bridge_match) <? bus_offset
          then Raise AssertionError else
          let bus_num := int16 (m_bus bridge_match) - bus_offset in
          let bridge_str :=
            fmt_02x bus_num +:+ "_" +:+ m_device bridge_match +:+ "."
              +:+ m_function bridge_match in
          match read_bus_offset fs
                  (sysfs_pci_devs_base +:+ "/" +:+ path_part
                     +:+ "/secondary_bus_number") with
          | Raise e => Raise e
          | Ok bus_offset' =>
              sbdf_to_path_loop fs rest bus_offset'
                (result_list ++ [bridge_str])
          end
      end
  end.

(** [sbdf_to_path(device_id)]; [Ok None] is the [None] returned for a
    device that is not found. *)
Definition sbdf_to_path (fs : sysfs) (device_id : string)
  : outcome (option string) :=
  match sbdf_regex_match device_id with
  | None => Raise (ValueError device_id)
  | Some dev_match =>
      let segment := default "0000" (m_segment dev_match) in
      if in_list (segment +:+ ":" +:+ m_bus dev_match) (root_buses fs) then
        Ok (Some ((if String.eqb segment "0000" then EmptyString
                   else segment +:+ "_")
                  +:+ (m_bus dev_match +:+ "_" +:+ m_device dev_match
                       +:+ "." +:+ m_function dev_match)))
      else
        let sbdf := segment +:+ ":" +:+ m_bus dev_match +:+ ":"
                    +:+ m_device dev_match +:+ "." +:+ m_function dev_match in
        match readlink fs (sysfs_pci_devs_base +:+ "/" +:+ sbdf) with
        | None => Ok None
        | Some sysfs_path =>
            let '(rel_links, _, path) :=
              partition ("/pci" +:+ segment +:+ ":") sysfs_path in
            if negb (String.eqb
                       (normpath (path_join sysfs_pci_devs_base rel_links))
                       (normpath (SYSFS_BASE +:+ "/devices")))
            then Raise AssertionError else
            let path := drop 3 path in
            match sbdf_to_path_loop fs (split "/" path) 0 [] with
            | Raise e => Raise e
            | Ok result_list =>
                if String.eqb segment "0000"
                then Ok (Some (join "-" result_list))
                else Ok (Some (segment +:+ "_" +:+ join "-" result_list))
            end
        end
  end.

(** The hop regex of [path_to_sbdf]:
    [\A(?P<bus>[0-9a-f]+)[_:](?P<device>[0-9a-f]+)[._]
       (?P<function>[0-9a-f]+)\Z] *)
Definition hop_regex_match (s : string) : option (string * string * string) :=
  match_hex3 is_sep_uc is_sep_du s.

(** [segment_re] of [path_to_sbdf]:
    [\A(?P<segment>[0-9a-f]{4})[_:]] and then group [rest], any
    characters up to [\Z]; the dot of the regex matches no newline. *)
Definition segment_re_match (s : string) : option (string * string) :=
  match s with
  | String g1 (String g2 (String g3 (String g4 (String s0 rest)))) =>
      if is_hex g1 && is_hex g2 && is_hex g3 && is_hex g4 && is_sep_uc s0
         && all not_newline rest
      then Some (String g1 (String g2 (String g3 (String g4 EmptyString))),
                 rest)
      else None
  | _ => None
  end.

(** The [for path_part in path.split("-")] loop of [path_to_sbdf]. *)
Fixpoint path_to_sbdf_loop (fs : sysfs) (parts : list string)
    (segment : string) (bus_offset : Z) (current_dev : string)
  : outcome string :=
  match parts with
  | [] => Ok current_dev
  | path_part :: rest =>
      if bus_offset =? -1 then Raise AssertionError else
      let '(segment, path_part) :=
        if bus_offset =? 0 then
          match segment_re_match path_part with
          | Some (seg, rest_part) => (seg, rest_part)
          | None => (segment, path_part)
          end
        else (segment, path_part) in
      match hop_regex_match path_part with
      | None => Raise (ValueError path_part)
      | Some (bus, device, function) =>
          let bus_num := int16 bus + bus_offset in
          let current_dev :=
            segment +:+ ":" +:+ fmt_02x bus_num +:+ ":" +:+ device +:+ "."
              +:+ function in
          match read_bus_offset fs
                  (SYSFS_BASE +:+ "/bus/pci/devices/" +:+ current_dev
                     +:+ "/secondary_bus_number") with
          | Raise e => Raise e
          | Ok bus_offset' =>
              path_to_sbdf_loop fs rest segment bus_offset' current_dev
          end
      end
  end.

(** [path_to_sbdf(path)] *)
Definition path_to_sbdf (fs : sysfs) (path : string) : outcome string :=
  path_to_sbdf_loop fs (split "-" path) "0000" 0 EmptyString.

(** [-[0-9a-f]{2}_[0-9a-f]{2}\.[0-9a-f]] repeated, then [\Z]. *)
Fixpoint match_more_hops (s : string) : bool :=
  match s with
  | EmptyString => true
  | String dash (String b1 (String b2 (String u (String d1 (String d2
      (String dot (String f rest))))))) =>
      ascii_eqb dash "-" && is_hex b1 && is_hex b2 && ascii_eqb u "_"
      && is_hex d1 && is_hex d2 && ascii_eqb dot "." && is_hex f
      && match_more_hops rest
  | _ => false
  end.

(** [_[0-9a-f]{2}\.[0-9a-f](-[0-9a-f]{2}_[0-9a-f]{2}\.[0-9a-f])*\Z], what
    follows the root bus in the regex of [is_pci_path]. *)
Definition match_after_root (s : string) : bool :=
  match s with
  | String u (String d1 (String d2 (String dot (String f rest)))) =>
      ascii_eqb u "_" && is_hex d1 && is_hex d2 && ascii_eqb dot "."
      && is_hex f && match_more_hops rest
  | _ => false
  end.

(** [root_buses] of [is_pci_path] *)
Definition root_buses_us (fs : sysfs) : list string :=
  map (fun dev => replace ":" "_" (drop 3 dev))
      (List.filter (startswith "pci") (listdir fs (SYSFS_BASE +:+ "/devices"))).

(** [is_pci_path(device_id)].  The alternation ["|".join(root_buses)] is
    read with every root bus name as literal text, which holds for the
    names sysfs gives to PCI roots (hex digits and one colon); an empty
    list leaves the empty alternative. *)
Definition is_pci_path (fs : sysfs) (device_id : string) : bool :=
  let device_id :=
    if (2 <? len device_id)%nat
       && String.eqb (take 1 (drop 2 device_id)) "_"
    then "0000_" +:+ device_id else device_id in
  let alternatives :=
    match root_buses_us fs with
    | [] => [EmptyString]
    | l => l
    end in
  existsb (fun root =>
             startswith root device_id
             && match_after_root (drop (len root) device_id))
          alternatives.

End Utils.

(** ** Migration of persisted port ids ([qubes/vm/__init__.py]) *)

Module Vm.

(** The port id that [load_extras] gives to the assignment of a
    [<device>] node: [sbdf_to_path(port_id) or port_id] under the guard
    of the migration. *)
Definition load_extras_port_id (fs : sysfs) (devclass port_id : string)
  : outcome string :=
  if String.eqb devclass "pci" && negb (String.eqb port_id "*")
     && negb (Utils.is_pci_path fs port_id)
  then match Utils.sbdf_to_path fs port_id with
       | Raise e => Raise e
       | Ok (Some p) => Ok (if String.eqb p EmptyString then port_id else p)
       | Ok None => Ok port_id
       end
  else Ok port_id.

End Vm.

(** ** Effects of the PCI extension *)

(** Calls that leave the process, in the order they are made.
    [LogError] holds the text of the record; [LogException] is the call
    [vm.log.exception(msg, arg)] with its two arguments. *)
Inductive event : Type :=
| NodeDeviceLookupByName (name : string)
| NodeDettach (name : string)
| AttachDevice (xml : string)
| DetachDevice (xml : string)
| Popen (cmd : list string)
| RunService (service user input : string)
| LogError (msg : string)
| LogException (msg : string) (arg : exn).

(** A computation: the calls it made and how it ended. *)
Definition act (A : Type) : Type := (list event * outcome A)%type.

Definition act_ret {A} (a : A) : act A := ([], Ok a).

Definition act_bind {A B} (m : act A) (k : A -> act B) : act B :=
  match m with
  | (t, Ok a) => let '(t', r) := k a in (t ++ t', r)
  | (t, Raise e) => (t, Raise e)
  end.

Definition raise {A} (e : exn) : act A := ([], Raise e).

(** An external call and the answer that the environment gives. *)
Definition call {A} (ev : event) (answer : outcome A) : act A := ([ev], answer).

(** A computation without calls. *)
Definition lift {A} (r : outcome A) : act A := ([], r).

(** [try: m except ...: h]; [h e] is [None] when no [except] clause
    matches [e]. *)
Definition try_except {A} (m : act A) (h : exn -> option (act A)) : act A :=
  match m with
  | (t, Ok a) => (t, Ok a)
  | (t, Raise e) =>
      match h e with
      | Some k => let '(t', r) := k in (t ++ t', r)
      | None => (t, Raise e)
      end
  end.

Notation "'do' x <- m ; k" := (act_bind m (fun x => k))
  (at level 10, x name, m at level 100, k at level 200).
Notation "'do' ' pat <- m ; k" := (act_bind m (fun x => let 'pat := x in k))
  (at level 10, pat pattern, m at level 100, k at level 200).

(** ** PCI extension ([qubes/ext/pci.py]) *)

Module Pci.
Import Py.

(** Text mode of [open]: a carriage return, alone or before a newline,
    ends a line like a newline. *)
Fixpoint universal_newlines (s : string) : string :=
  match s with
  | EmptyString => EmptyString
  | String c r =>
      if ascii_eqb c carriage_return then
        String newline
          match r with
          | String c' r' =>
              if ascii_eqb c' newline then universal_newlines r'
              else universal_newlines r
          | EmptyString => EmptyString
          end
      else String c (universal_newlines r)
  end.

(** [f.readlines()] on the decoded text, without the line ends, which
    [rstrip] removes. *)
Definition readlines (text : string) : list string :=
  split newline (universal_newlines text).

(** Truth value of a variable that holds [None] or a string. *)
Definition truthy (o : option string) : bool :=
  match o with
  | Some (String _ _) => true
  | _ => false
  end.

Definition pci_ids : string := "/usr/share/hwdata/pci.ids".

(** The [for line in pciids.readlines()] loop of [load_pci_classes];
    the lines are decoded text. *)
Fixpoint load_pci_classes_loop (lines : list string)
    (class_id subclass_id : option string) (result : gmap string string)
  : outcome (gmap string string) :=
  match lines with
  | [] => Ok result
  | line :: rest =>
      let line := rstrip_utf8 line in
      let cid := default EmptyString class_id in
      let sid := default EmptyString subclass_id in
      if startswith (String tab (String tab EmptyString)) line
         && truthy class_id && truthy subclass_id then
        match splitn " " 2 (drop 2 line) with
        | [progif_id; _; class_name] =>
            load_pci_classes_loop rest class_id subclass_id
              (<[cid +:+ sid +:+ progif_id := class_name]> result)
        | _ => Raise (ValueError line)
        end
      else if startswith (String tab EmptyString) line && truthy class_id then
        match splitn " " 2 (drop 1 line) with
        | [subclass_id'; _; class_name] =>
            load_pci_classes_loop rest class_id (Some subclass_id')
              (<[cid +:+ subclass_id' := class_name]>
                 (<[cid +:+ subclass_id' +:+ "00" := class_name]> result))
        | _ => Raise (ValueError line)
        end
      else if startswith "C " line then
        match splitn " " 3 line with
        | [_; class_id'; _; class_name] =>
            load_pci_classes_loop rest (Some class_id') None
              (<[class_id' +:+ "00" := class_name]>
                 (<[class_id' +:+ "0000" := class_name]> result))
        | _ => Raise (ValueError line)
        end
      else load_pci_classes_loop rest class_id subclass_id result
  end.

(** [load_pci_classes()]: the file is opened with [encoding='utf-8',
    errors='ignore']. *)
Definition load_pci_classes (fs : sysfs) : outcome (gmap string string) :=
  match read_text fs pci_ids with
  | None => Raise (FileNotFoundError pci_ids)
  | Some bytes =>
      load_pci_classes_loop (readlines (decode_utf8_ignore bytes))
        None None ∅
  end.

(** [not pci_classes] for the module variable, [None] or a dict. *)
Definition cache_empty (pci_classes : option (gmap string string)) : bool :=
  match pci_classes with
  | None => true
  | Some m => bool_decide (m = ∅)
  end.

(** [pcidev_class(dev_xmldesc)], where [sysfs_path] is what
    [dev_xmldesc.findtext('path')] gives and [pci_classes] is the module
    variable, returned as the call leaves it. *)
Definition pcidev_class (fs : sysfs) (sysfs_path : option string)
    (pci_classes : option (gmap string string))
  : option (gmap string string) * outcome string :=
  match sysfs_path with
  | None | Some EmptyString => (pci_classes, Raise AssertionError)
  | Some sysfs_path =>
      match read_text fs (sysfs_path +:+ "/class") with
      | None => (pci_classes, Ok "unknown")
      | Some text =>
          if negb (is_ascii text) then (pci_classes, Raise (ValueError text))
          else
            let class_id := strip (universal_newlines text) in
            let loaded :=
              if cache_empty pci_classes then load_pci_classes fs
              else Ok (default ∅ pci_classes) in
            match loaded with
            | Raise e => (pci_classes, Raise e)
            | Ok classes =>
                let class_id :=
                  if startswith "0x" class_id then drop 2 class_id
                  else class_id in
                (Some classes,
                 Ok (default "unknown" (classes !! take 4 class_id)))
            end
      end
  end.

(** *** Device objects *)

(** Values held by the metadata fields: [None], a string, or the list
    that an [xpath] query returns. *)
Inductive pyval : Type :=
| PNone
| PStr (s : string)
| PList (l : list string).

(** What the code reads of a node device's XML description. *)
Record xmldesc : Type := {
  xml_capability_vendor : pyval;
  xml_capability_product : pyval;
  xml_vendor_id : list string;
  xml_product_id : list string
}.

(** A [PCIDevice] object.  [_vendor] and [_product] are attributes of
    the base class [DeviceInfo]; they start as [None]. *)
Record PCIDevice : Type := {
  ident : string;
  bus : string;
  device : string;
  function : string;
  _vendor : pyval;
  _vendor_id : pyval;
  _product : pyval;
  _product_id : pyval
}.

(** A domain, as far as the extension asks it. *)
Record qubesvm : Type := {
  is_adminvm : bool;
  virt_mode : string;
  is_running : bool;
  xid : Z
}.

(** Answers of libvirt, of the guest and of subprocesses. *)
Record world : Type := {
  lookup_node : string -> outcome xmldesc;
  dettach_node : string -> outcome unit;
  render_pci_xml : string -> option (gmap string string) -> outcome string;
  attach_device : string -> outcome unit;
  detach_device : string -> outcome unit;
  xl_pci_list : Z -> outcome string;
  run_service : string -> string -> string -> outcome unit
}.

(** [PCIDevice.regex]:
    [\A(?P<bus>[0-9a-f]+)_(?P<device>[0-9a-f]+)\.(?P<function>[0-9a-f]+)\Z] *)
Definition regex_match (s : string) : option (string * string * string) :=
  match_hex3 (ascii_eqb "_") (ascii_eqb ".") s.

(** [PCIDevice._libvirt_regex]:
    [\Apci_0000_(?P<bus>[0-9a-f]+)_(?P<device>[0-9a-f]+)_
       (?P<function>[0-9a-f]+)\Z] *)
Definition libvirt_regex_match (s : string)
  : option (string * string * string) :=
  if startswith "pci_0000_" s
  then match_hex3 (ascii_eqb "_") (ascii_eqb "_") (drop 9 s)
  else None.

(** [PCIDevice.__init__(backend_domain, ident, libvirt_name)] *)
Definition PCIDevice_init (ident : string) (libvirt_name : option string)
  : outcome PCIDevice :=
  let ident' :=
    if truthy libvirt_name then
      match libvirt_regex_match (default EmptyString libvirt_name) with
      | None => Raise (UnsupportedDevice (default EmptyString libvirt_name))
      | Some (b, d, f) => Ok (b +:+ "_" +:+ d +:+ "." +:+ f)
      end
    else Ok ident in
  match ident' with
  | Raise e => Raise e
  | Ok ident =>
      match regex_match ident with
      | None => Raise (ValueError ident)
      | Some (b, d, f) =>
          Ok {| ident := ident; bus := b; device := d; function := f;
                _vendor := PNone; _vendor_id := PNone;
                _product := PNone; _product_id := PNone |}
      end
  end.

(** [_cache_get(vm, ident)]: the memoised [PCIDevice(vm, ident)]. *)
Definition _cache_get (ident : string) : outcome PCIDevice :=
  PCIDevice_init ident None.

(** [PCIDevice.libvirt_name] *)
Definition libvirt_name (self : PCIDevice) : string :=
  "pci_0000_" +:+ bus self +:+ "_" +:+ device self +:+ "_" +:+ function self.

(** The dict that [_load_desc] starts from. *)
Definition unknown_desc : gmap string pyval :=
  <["serial" := PStr "unknown"]>
    (<["name" := PStr "unknown"]>
       (<["manufacturer" := PStr "unknown"]>
          (<["product ID" := PStr "0000"]>
             (<["product" := PStr "unknown"]>
                (<["vendor ID" := PStr "0000"]>
                   (<["vendor" := PStr "unknown"]> ∅)))))).

(** [PCIDevice._load_desc()]: the object after the call, and the dict
    returned. *)
Definition _load_desc (w : world) (backend_domain : qubesvm)
    (self : PCIDevice) : PCIDevice * act (gmap string pyval) :=
  let result := unknown_desc in
  if negb (is_running backend_domain) then (self, act_ret result)
  else
    match lookup_node w (libvirt_name self) with
    | Raise e =>
        (self, call (NodeDeviceLookupByName (libvirt_name self)) (Raise e))
    | Ok hostdev_xml =>
        let result :=
          <["vendor" := xml_capability_vendor hostdev_xml]> result in
        let result :=
          <["vendor ID" := PList (xml_vendor_id hostdev_xml)]> result in
        let result :=
          <["product" := xml_capability_product hostdev_xml]> result in
        let result :=
          <["product ID" := PList (xml_product_id hostdev_xml)]> result in
        ({| ident := ident self; bus := bus self; device := device self;
            function := function self;
            _vendor := xml_capability_vendor hostdev_xml;
            _vendor_id := PList (xml_vendor_id hostdev_xml);
            _product := xml_capability_product hostdev_xml;
            _product_id := PList (xml_product_id hostdev_xml) |},
         call (NodeDeviceLookupByName (libvirt_name self)) (Ok result))
    end.

(** [d[key]] on the dict that [_load_desc] returns. *)
Definition getitem (key : string) (d : gmap string pyval) : outcome pyval :=
  match d !! key with
  | Some v => Ok v
  | None => Raise (KeyError key)
  end.

(** [PCIDevice.vendor] *)
Definition vendor (w : world) (backend_domain : qubesvm) (self : PCIDevice)
  : PCIDevice * act pyval :=
  match _vendor self with
  | PNone =>
      let '(self, r) := _load_desc w backend_domain self in
      (self, act_bind r (fun d => lift (getitem "vendor" d)))
  | v => (self, act_ret v)
  end.

(** [PCIDevice.product] *)
Definition product (w : world) (backend_domain : qubesvm) (self : PCIDevice)
  : PCIDevice * act pyval :=
  match _product self with
  | PNone =>
      let '(self, r) := _load_desc w backend_domain self in
      (self, act_bind r (fun d => lift (getitem "product" d)))
  | v => (self, act_ret v)
  end.

(** [string.digits + string.ascii_letters + '-_.'] *)
Definition is_allowed_char (c : ascii) : bool :=
  is_digit c || in_range "a" "z" c || in_range "A" "Z" c
  || ascii_eqb c "-" || ascii_eqb c "_" || ascii_eqb c ".".

Fixpoint map_chars (f : ascii -> ascii) (s : string) : string :=
  match s with
  | EmptyString => EmptyString
  | String c r => String (f c) (map_chars f r)
  end.

(** [''.join(c if c in set(allowed_chars) else '_' for c in v)]: [v] is
    a string, read character by character, or the list of an [xpath]
    query, whose items are kept when they are one allowed character. *)
Definition join_allowed (v : pyval) : outcome pyval :=
  match v with
  | PNone => Raise (OtherError "TypeError")
  | PStr s => Ok (PStr (map_chars (fun c => if is_allowed_char c then c
                                            else "_"%char) s))
  | PList l =>
      Ok (PStr (join EmptyString
                  (map (fun item =>
                          match item with
                          | String c EmptyString =>
                              if is_allowed_char c then item else "_"
                          | _ => "_"
                          end) l)))
  end.

Definition set_vendor_id (self : PCIDevice) (v : pyval) : PCIDevice :=
  {| ident := ident self; bus := bus self; device := device self;
     function := function self; _vendor := _vendor self; _vendor_id := v;
     _product := _product self; _product_id := _product_id self |}.

Definition set_product_id (self : PCIDevice) (v : pyval) : PCIDevice :=
  {| ident := ident self; bus := bus self; device := device self;
     function := function self; _vendor := _vendor self;
     _vendor_id := _vendor_id self;
     _product := _product self; _product_id := v |}.

(** The two [if] blocks that open [PCIDevice.self_identity]: they fill
    [_vendor_id] and [_product_id] from [_load_desc]. *)
Definition self_identity_ids (w : world) (backend_domain : qubesvm)
    (self : PCIDevice) : PCIDevice * act unit :=
  let '(self, r1) :=
    match _vendor_id self with
    | PNone =>
        let '(self, r) := _load_desc w backend_domain self in
        match act_bind r (fun d => lift (getitem "vendor ID" d)) with
        | (t, Ok vendor_id) =>
            match join_allowed vendor_id with
            | Ok v => (set_vendor_id self v, (t, Ok tt))
            | Raise e => (self, (t, Raise e))
            end
        | (t, Raise e) => (self, (t, Raise e))
        end
    | _ => (self, act_ret tt)
    end in
  match r1 with
  | (t1, Raise e) => (self, (t1, Raise e))
  | (t1, Ok _) =>
      match _product_id self with
      | PNone =>
          let '(self, r) := _load_desc w backend_domain self in
          match act_bind r (fun d => lift (getitem "product ID" d)) with
          | (t, Ok product_id) =>
              match join_allowed product_id with
              | Ok v => (set_product_id self v, (t1 ++ t, Ok tt))
              | Raise e => (self, (t1 ++ t, Raise e))
              end
          | (t, Raise e) => (self, (t1 ++ t, Raise e))
          end
      | _ => (self, (t1, Ok tt))
      end
  end.

(** *** Handlers *)

Definition is_libvirtError (e : exn) : bool :=
  match e with libvirtError _ => true | _ => false end.

Definition is_CalledProcessError (e : exn) : bool :=
  match e with CalledProcessError _ => true | _ => false end.

(** [PCIDeviceExtension.bind_pci_to_pciback(app, device)].  The text of
    [str(device)] comes from [DeviceInfo]; the identifier stands for it
    in the message. *)
Definition bind_pci_to_pciback (w : world) (device : PCIDevice) : act unit :=
  do _ <- try_except
            (call (NodeDeviceLookupByName (libvirt_name device))
                  (lookup_node w (libvirt_name device)))
            (fun e =>
               match e with
               | libvirtError VIR_ERR_NO_NODE_DEVICE =>
                   Some (raise (QubesException
                                  ("PCI device " +:+ ident device
                                     +:+ " does not exist")))
               | libvirtError _ => Some (raise e)
               | _ => None
               end);
  try_except
    (call (NodeDettach (libvirt_name device))
          (dettach_node w (libvirt_name device)))
    (fun e =>
       match e with
       | libvirtError VIR_ERR_INTERNAL_ERROR => Some (act_ret tt)
       | libvirtError _ => Some (raise e)
       | _ => None
       end).

Definition attach_failed_msg (ident : string) : string :=
  "Failed to attach PCI device '" +:+ ident
    +:+ "' on the fly, changes will be seen after VM restart.".

Definition detach_failed_msg (ident : string) : string :=
  "Failed to detach PCI device '" +:+ ident
    +:+ "' on the fly, changes will be seen after VM restart.".

(** [on_device_pre_attached_pci(vm, event, device, options)]; [ident] is
    [device.ident]. *)
Definition on_device_pre_attached_pci (fs : sysfs) (w : world) (vm : qubesvm)
    (ident : string) (options : gmap string string) : act unit :=
  if negb (path_exists fs
             ("/sys/bus/pci/devices/0000:" +:+ replace "_" ":" ident))
  then raise (QubesException ("Invalid PCI device: " +:+ ident))
  else if is_adminvm vm
  then raise (QubesException "Can't attach PCI device to dom0")
  else if String.eqb (virt_mode vm) "pvh"
  then raise (QubesException "Can't attach PCI device to VM in pvh mode")
  else if negb (is_running vm) then act_ret tt
  else
    try_except
      (do device <- lift (_cache_get ident);
       do _ <- bind_pci_to_pciback w device;
       do xml <- lift (render_pci_xml w (Pci.ident device) (Some options));
       call (AttachDevice xml) (attach_device w xml))
      (fun e =>
         if is_CalledProcessError e
         then Some (call (LogException (attach_failed_msg ident) e) (Ok tt))
         else None).

(** A class repeated once or more, as many times as the rest of the
    match allows, longest first. *)
Fixpoint re_plus {A} (p : ascii -> bool) (s : string)
    (k : string -> option A) : option A :=
  match s with
  | EmptyString => None
  | String c r =>
      if p c then
        match re_plus p r k with
        | Some x => Some x
        | None => k r
        end
      else None
  end.

(** The interpolated identifier as a pattern: a dot matches any
    character but a newline, hex digits and colons match themselves. *)
Fixpoint re_ident (pattern : string) (s : string) : option string :=
  match pattern with
  | EmptyString => Some s
  | String pc pr =>
      match s with
      | EmptyString => None
      | String c r =>
          if (if ascii_eqb pc "." then not_newline c else ascii_eqb pc c)
          then re_ident pr r else None
      end
  end.

(** [$] under [re.MULTILINE] *)
Definition at_eol (s : string) : bool :=
  match s with
  | EmptyString => true
  | String c _ => ascii_eqb c newline
  end.

(** A match of [(\d+.\d+)\s+0000:IDENT$] at the start of [s]; the value
    is group 1. *)
Definition xl_match_here (pattern : string) (s : string) : option string :=
  re_plus is_digit s (fun s1 =>
    match s1 with
    | EmptyString => None
    | String c s2 =>
        if not_newline c then
          re_plus is_digit s2 (fun s3 =>
            re_plus is_space s3 (fun s4 =>
              match re_ident ("0000:" +:+ pattern) s4 with
              | Some s5 =>
                  if at_eol s5 then Some (take (len s - len s3) s) else None
              | None => None
              end))
        else None
    end).

(** [re.search(r'^(\d+.\d+)\s+0000:IDENT$', result, flags=re.MULTILINE)]
    on ASCII text: the first position at the start of a line where the
    pattern matches. *)
Fixpoint xl_search (pattern : string) (at_bol : bool) (result : string)
  : option string :=
  match (if at_bol then xl_match_here pattern result else None) with
  | Some vmdev => Some vmdev
  | None =>
      match result with
      | EmptyString => None
      | String c r => xl_search pattern (ascii_eqb c newline) r
      end
  end.

(** Decimal text of [str(n)]. *)
Fixpoint dec_go (fuel : nat) (n : Z) (acc : string) : string :=
  match fuel with
  | O => acc
  | S k =>
      let acc' := String (hex_digit (n mod 10)) acc in
      if n / 10 =? 0 then acc' else dec_go k (n / 10) acc'
  end.

Definition str_of_Z (n : Z) : string :=
  if n <? 0
  then String "-" (dec_go (S (Z.to_nat (Z.log2 (- n)))) (- n) EmptyString)
  else dec_go (S (Z.to_nat (Z.log2 n))) n EmptyString.

(** [on_device_pre_detached_pci(vm, event, device)]; [ident] is
    [device.ident]. *)
Definition on_device_pre_detached_pci (w : world) (vm : qubesvm)
    (ident : string) : act unit :=
  if negb (is_running vm) then act_ret tt
  else
    do device <- lift (_cache_get ident);
    do result <- call (Popen ["xl"; "pci-list"; str_of_Z (xid vm)])
                      (xl_pci_list w (xid vm));
    match xl_search (replace "_" ":" (Pci.ident device)) true result with
    | None =>
        call (LogError ("Device " +:+ Pci.ident device
                          +:+ " already detached")) (Ok tt)
    | Some vmdev =>
        try_except
          (do _ <- call (RunService "qubes.DetachPciDevice" "root"
                                    ("00:" +:+ vmdev))
                        (run_service w "qubes.DetachPciDevice" "root"
                                     ("00:" +:+ vmdev));
           do xml <- lift (render_pci_xml w (Pci.ident device) None);
           call (DetachDevice xml) (detach_device w xml))
          (fun e =>
             if is_CalledProcessError e || is_libvirtError e
             then Some (do _ <- call (LogException
                                        (detach_failed_msg (Pci.ident device))
                                        e)
                                     (Ok tt);
                        raise e)
             else None)
    end.

End Pci.

(** ** Device trees, as the statements about the codec see them *)

Module Topology.
Import Py Utils.

(** Bus, device and function of a PCI address, as hex text. *)
Record bdf : Type := {
  bdf_bus : string;
  bdf_device : string;
  bdf_function : string
}.

Definition hex_of_len (n : nat) (s : string) : bool :=
  (len s =? n)%nat && all is_hex s.

Definition bdf_ok (x : bdf) : bool :=
  hex_of_len 2 (bdf_bus x) && hex_of_len 2 (bdf_device x)
  && hex_of_len 1 (bdf_function x).

Definition segment_ok (segment : string) : bool := hex_of_len 4 segment.

(** The name that sysfs gives to a device, which is also what
    [path_to_sbdf] returns: [ssss:bb:dd.f]. *)
Definition sbdf_name (segment : string) (x : bdf) : string :=
  segment +:+ ":" +:+ bdf_bus x +:+ ":" +:+ bdf_device x +:+ "."
    +:+ bdf_function x.

(** The address that a match of the device regex denotes. *)
Definition bdf_of_match (m : dev_match) : bdf :=
  {| bdf_bus := m_bus m; bdf_device := m_device m;
     bdf_function := m_function m |}.

Definition segment_of_match (m : dev_match) : string :=
  default "0000" (m_segment m).

Definition secondary_bus_number_file (name : string) : string :=
  SYSFS_BASE +:+ "/bus/pci/devices/" +:+ name +:+ "/secondary_bus_number".

(** A chain of devices below a bus offset [o]: every device sits on a
    bus that is not below the offset, and every device with another one
    below it reports a secondary bus number, the offset of the next. *)
Inductive walk (fs : sysfs) (segment : string) : Z -> list bdf -> Prop :=
| walk_nil o : walk fs segment o []
| walk_cons o o' x rest :
    bdf_ok x = true ->
    o <> -1 ->
    o <= int16 (bdf_bus x) ->
    read_bus_offset fs (secondary_bus_number_file (sbdf_name segment x))
      = Ok o' ->
    walk fs segment o' rest ->
    walk fs segment o (x :: rest).

(** One hop of a path. *)
Definition hop_text (bus_num : Z) (x : bdf) : string :=
  fmt_02x bus_num +:+ "_" +:+ bdf_device x +:+ "." +:+ bdf_function x.

Definition offset_below (fs : sysfs) (segment : string) (x : bdf) : Z :=
  match read_bus_offset fs
          (secondary_bus_number_file (sbdf_name segment x)) with
  | Ok o => o
  | Raise _ => -1
  end.

(** The hops that a chain encodes to. *)
Fixpoint encoded_hops (fs : sysfs) (segment : string) (o : Z)
    (chain : list bdf) : list string :=
  match chain with
  | [] => []
  | x :: rest =>
      hop_text (int16 (bdf_bus x) - o) x
        :: encoded_hops fs segment (offset_below fs segment x) rest
  end.

(** The device [x] is not on a root bus, and its sysfs link lists
    [chain], the devices from the root bus down to [x] itself. *)
Definition behind_bridges (fs : sysfs) (segment : string) (x : bdf)
    (chain : list bdf) : Prop :=
  in_list (segment +:+ ":" +:+ bdf_bus x) (root_buses fs) = false
  /\ exists sysfs_path rel_links found path,
      readlink fs (sysfs_pci_devs_base +:+ "/" +:+ sbdf_name segment x)
        = Some sysfs_path
      /\ partition ("/pci" +:+ segment +:+ ":") sysfs_path
         = (rel_links, found, path)
      /\ normpath (path_join sysfs_pci_devs_base rel_links)
         = normpath (SYSFS_BASE +:+ "/devices")
      /\ split "/" (drop 3 path) = map (sbdf_name segment) chain
      /\ last chain = Some x
      /\ walk fs segment 0 chain.

(** The device [x] is on a root bus; its secondary bus number, if it
    has one, is a number. *)
Definition on_root_bus (fs : sysfs) (segment : string) (x : bdf) : Prop :=
  in_list (segment +:+ ":" +:+ bdf_bus x) (root_buses fs) = true
  /\ walk fs segment 0 [x].

(** A device of the live tree, below no bridge or below some. *)
Definition reachable (fs : sysfs) (segment : string) (x : bdf) : Prop :=
  on_root_bus fs segment x \/ exists chain, behind_bridges fs segment x chain.

(** The text of a path: the hops, after the segment when it is not the
    default one. *)
Definition path_text (segment : string) (hops : list string) : string :=
  if String.eqb segment "0000" then join "-" hops
  else segment +:+ "_" +:+ join "-" hops.

(** Two chains with the same slots, in two trees, where the bus of
    every device moved by as much as the secondary bus number of the
    bridge above it. *)
Inductive renumbered (fs fs' : sysfs) (segment : string)
  : Z -> Z -> list bdf -> list bdf -> Prop :=
| renumbered_nil o o' : renumbered fs fs' segment o o' [] []
| renumbered_cons o o' x x' rest rest' :
    bdf_device x' = bdf_device x ->
    bdf_function x' = bdf_function x ->
    int16 (bdf_bus x') - o' = int16 (bdf_bus x) - o ->
    renumbered fs fs' segment
      (offset_below fs segment x) (offset_below fs' segment x') rest rest' ->
    renumbered fs fs' segment o o' (x :: rest) (x' :: rest').

(** Every device of the chain sits on the bus that the bridge above it
    advertises: the first one on bus [o], each other one on the
    secondary bus of the device before it.  This is how PCI numbers
    buses. *)
Inductive seated (fs : sysfs) (segment : string) : Z -> list bdf -> Prop :=
| seated_nil o : seated fs segment o []
| seated_cons o x rest :
    int16 (bdf_bus x) = o ->
    seated fs segment (offset_below fs segment x) rest ->
    seated fs segment o (x :: rest).

(** The same device and function numbers. *)
Definition same_slot (x x' : bdf) : Prop :=
  bdf_device x' = bdf_device x /\ bdf_function x' = bdf_function x.

(** The secondary bus number of [x], if it has one, is a number. *)
Definition number_readable (fs : sysfs) (segment : string) (x : bdf) : Prop :=
  exists o,
    read_bus_offset fs (secondary_bus_number_file (sbdf_name segment x))
    = Ok o.

End Topology.

Module PathForm.
Import Py Utils Topology.

(** A legacy identifier [bb_dd.f]; hops of a path have the same form. *)
Definition flat_id (x : bdf) : string :=
  bdf_bus x +:+ "_" +:+ bdf_device x +:+ "." +:+ bdf_function x.

(** The name of a PCI root in [/sys/devices] after [pci], with the colon
    replaced: [ssss_bb]. *)
Definition is_root_name (r : string) : bool :=
  match r with
  | String g1 (String g2 (String g3 (String g4 (String u
      (String b1 (String b2 EmptyString)))))) =>
      is_hex g1 && is_hex g2 && is_hex g3 && is_hex g4 && ascii_eqb u "_"
      && is_hex b1 && is_hex b2
  | _ => false
  end.

Definition root_names_ok (fs : sysfs) : Prop :=
  Forall (fun r => is_root_name r = true) (root_buses_us fs).

(** The hops after the first one, each after its dash. *)
Fixpoint more_hops (xs : list bdf) : string :=
  match xs with
  | [] => EmptyString
  | x :: xs => "-" +:+ flat_id x +:+ more_hops xs
  end.

End PathForm.

(** ** Sample hosts *)

Module Samples.
Import Py.

Definition nl : string := String newline EmptyString.

(** Root bus [00], bridge [00:03.0] with secondary bus 2, device
    [02:00.0] behind it. *)
Definition one_bridge : sysfs := {|
  listdir := fun p =>
    if String.eqb p "/sys/devices" then ["pci0000:00"; "platform"; "system"]
    else [];
  readlink := fun p =>
    if String.eqb p "/sys/bus/pci/devices/0000:02:00.0"
    then Some "../../../devices/pci0000:00/0000:00:03.0/0000:02:00.0"
    else None;
  read_text := fun p =>
    if String.eqb p "/sys/bus/pci/devices/0000:00:03.0/secondary_bus_number"
    then Some ("2" +:+ nl)
    else if String.eqb p "/sys/devices/pci0000:00/0000:00:03.0/class"
    then Some ("0x060400" +:+ nl)
    else None;
  path_exists := fun p =>
    String.eqb p "/sys/bus/pci/devices/0000:00:03.0"
    || String.eqb p "/sys/bus/pci/devices/0000:02:00.0"
|}.

(** The same machine after the bridge was given secondary bus 5. *)
Definition one_bridge_renumbered : sysfs := {|
  listdir := fun p =>
    if String.eqb p "/sys/devices" then ["pci0000:00"; "platform"; "system"]
    else [];
  readlink := fun p =>
    if String.eqb p "/sys/bus/pci/devices/0000:05:00.0"
    then Some "../../../devices/pci0000:00/0000:00:03.0/0000:05:00.0"
    else None;
  read_text := fun p =>
    if String.eqb p "/sys/bus/pci/devices/0000:00:03.0/secondary_bus_number"
    then Some ("5" +:+ nl)
    else None;
  path_exists := fun p =>
    String.eqb p "/sys/bus/pci/devices/0000:00:03.0"
    || String.eqb p "/sys/bus/pci/devices/0000:05:00.0"
|}.

Definition tb : string := String tab EmptyString.

(** A few lines of [pci.ids]: a vendor block, then class [06]. *)
Definition pci_ids_text : string :=
  "# List of PCI ID's" +:+ nl
  +:+ "8086  Intel Corporation" +:+ nl
  +:+ tb +:+ "1533  I210 Gigabit Network Connection" +:+ nl
  +:+ "C 06  Bridge" +:+ nl
  +:+ tb +:+ "00  Host bridge" +:+ nl
  +:+ tb +:+ "04  PCI bridge" +:+ nl
  +:+ tb +:+ tb +:+ "00  Normal decode" +:+ nl
  +:+ tb +:+ tb +:+ "01  Subtractive decode" +:+ nl.

(** [one_bridge] with [/usr/share/hwdata/pci.ids] in place. *)
Definition one_bridge_hwdata : sysfs := {|
  listdir := listdir one_bridge;
  readlink := readlink one_bridge;
  read_text := fun p =>
    if String.eqb p "/usr/share/hwdata/pci.ids" then Some pci_ids_text
    else read_text one_bridge p;
  path_exists := path_exists one_bridge
|}.

Definition nic_xml : Pci.xmldesc := {|
  Pci.xml_capability_vendor := Pci.PStr "Intel Corporation";
  Pci.xml_capability_product := Pci.PStr "Ethernet Controller";
  Pci.xml_vendor_id := ["0x8086"];
  Pci.xml_product_id := ["0x1533"]
|}.

(** libvirt knows the device and unbinds it, and refuses to attach or
    detach it; the guest lists it in slot [05.0]. *)
Definition refusing : Pci.world := {|
  Pci.lookup_node := fun _ => Ok nic_xml;
  Pci.dettach_node := fun _ => Ok tt;
  Pci.render_pci_xml := fun i _ => Ok ("<hostdev " +:+ i +:+ "/>");
  Pci.attach_device := fun _ => Raise (libvirtError (VIR_ERR_other 55));
  Pci.detach_device := fun _ => Raise (libvirtError (VIR_ERR_other 55));
  Pci.xl_pci_list := fun _ =>
    Ok ("Vdev Device" +:+ nl +:+ "05.0 0000:02:00.0" +:+ nl);
  Pci.run_service := fun _ _ _ => Ok tt
|}.

(** The guest lists no device. *)
Definition nothing_listed : Pci.world := {|
  Pci.lookup_node := fun _ => Ok nic_xml;
  Pci.dettach_node := fun _ => Ok tt;
  Pci.render_pci_xml := fun i _ => Ok ("<hostdev " +:+ i +:+ "/>");
  Pci.attach_device := fun _ => Ok tt;
  Pci.detach_device := fun _ => Ok tt;
  Pci.xl_pci_list := fun _ => Ok ("Vdev Device" +:+ nl);
  Pci.run_service := fun _ _ _ => Ok tt
|}.

(** A class table as [load_pci_classes] would have left it. *)
Definition bridge_classes : gmap string string :=
  <["0604" := "PCI bridge"]> (<["060400" := "PCI bridge"]> ∅).

Definition running_hvm : Pci.qubesvm := {|
  Pci.is_adminvm := false; Pci.virt_mode := "hvm";
  Pci.is_running := true; Pci.xid := 12
|}.

Definition halted_hvm : Pci.qubesvm := {|
  Pci.is_adminvm := false; Pci.virt_mode := "hvm";
  Pci.is_running := false; Pci.xid := -1
|}.

Definition running_pvh : Pci.qubesvm := {|
  Pci.is_adminvm := false; Pci.virt_mode := "pvh";
  Pci.is_running := true; Pci.xid := 13
|}.

Definition dom0 : Pci.qubesvm := {|
  Pci.is_adminvm := true; Pci.virt_mode := "pv";
  Pci.is_running := true; Pci.xid := 0
|}.

Definition bridge_00_03_0 : Topology.bdf := {|
  Topology.bdf_bus := "00"; Topology.bdf_device := "03";
  Topology.bdf_function := "0"
|}.

Definition device_00_00_0 : Topology.bdf := {|
  Topology.bdf_bus := "00"; Topology.bdf_device := "00";
  Topology.bdf_function := "0"
|}.

Definition device_02_00_0 : Topology.bdf := {|
  Topology.bdf_bus := "02"; Topology.bdf_device := "00";
  Topology.bdf_function := "0"
|}.

Definition device_05_00_0 : Topology.bdf := {|
  Topology.bdf_bus := "05"; Topology.bdf_device := "00";
  Topology.bdf_function := "0"
|}.

(** The groups of [0000:02:00.0] and of [05_00.0]. *)
Definition match_02_00_0 : Utils.dev_match := {|
  Utils.m_segment := Some "0000"; Utils.m_bus := "02";
  Utils.m_device := "00"; Utils.m_function := "0"
|}.

Definition match_05_00_0 : Utils.dev_match := {|
  Utils.m_segment := None; Utils.m_bus := "05";
  Utils.m_device := "00"; Utils.m_function := "0"
|}.

Definition chain_before : list Topology.bdf :=
  [bridge_00_03_0; device_02_00_0].

Definition chain_after : list Topology.bdf :=
  [bridge_00_03_0; device_05_00_0].

Definition fresh_device : Pci.PCIDevice := {|
  Pci.ident := "02_00.0"; Pci.bus := "02"; Pci.device := "00";
  Pci.function := "0";
  Pci._vendor := Pci.PNone; Pci._vendor_id := Pci.PNone;
  Pci._product := Pci.PNone; Pci._product_id := Pci.PNone
|}.

End Samples.

(** ** More text primitives *)

Module Text.
Import Py.

(** [c in s] for a character [c] and a string [s]. *)
Fixpoint contains (s : string) (c : ascii) : bool :=
  match s with
  | EmptyString => false
  | String a r => ascii_eqb a c || contains r c
  end.

Definition double_quote : ascii := "034".

(** The constants of the module [string]. *)
Definition ascii_lowercase : string := "abcdefghijklmnopqrstuvwxyz".
Definition ascii_uppercase : string := "ABCDEFGHIJKLMNOPQRSTUVWXYZ".
Definition ascii_letters : string := ascii_lowercase +:+ ascii_uppercase.
Definition digits : string := "0123456789".
Definition punctuation : string :=
  "!" +:+ String double_quote "#$%&'()*+,-./:;<=>?@[\]^_`{|}~".

(** [s.upper()] on ASCII text. *)
Definition upper_char (c : ascii) : ascii :=
  if in_range "a" "z" c then ascii_of_nat (nat_of_ascii c - 32) else c.

Fixpoint upper (s : string) : string :=
  match s with
  | EmptyString => EmptyString
  | String c r => String (upper_char c) (upper r)
  end.

(** [s.isdigit()] on ASCII text. *)
Definition isdigit (s : string) : bool :=
  negb (String.eqb s EmptyString) && all is_digit s.

End Text.

(** ** Other helpers of [qubes/utils.py] *)

Module UtilsMisc.
Import Py Text.

Definition units : list (string * Z) :=
  [("K", 1000); ("KB", 1000);
   ("M", 1000 * 1000); ("MB", 1000 * 1000);
   ("G", 1000 * 1000 * 1000); ("GB", 1000 * 1000 * 1000);
   ("Ki", 1024); ("KiB", 1024);
   ("Mi", 1024 * 1024); ("MiB", 1024 * 1024);
   ("Gi", 1024 * 1024 * 1024); ("GiB", 1024 * 1024 * 1024)].

(** [int(size)], with [ValueError] for text that is no number. *)
Definition int_or_raise (size : string) : outcome Z :=
  match int size with
  | Some n => Ok n
  | None => Raise (ValueError size)
  end.

(** The [for unit, multiplier in units] loop of [parse_size]; [None]
    when the loop ends without [return]. *)
Fixpoint parse_size_loop (units : list (string * Z)) (size : string)
  : option (outcome Z) :=
  match units with
  | [] => None
  | (unit, multiplier) :: rest =>
      if endswith (upper unit) size then
        let size := strip (take (len size - len unit) size) in
        Some match int_or_raise size with
             | Ok n => Ok (n * multiplier)
             | Raise e => Raise e
             end
      else parse_size_loop rest size
  end.

(** [parse_size(size)] on ASCII text. *)
Definition parse_size (size : string) : outcome Z :=
  let size := upper (strip size) in
  if isdigit size then int_or_raise size
  else match parse_size_loop units size with
       | Some r => r
       | None => Raise (QubesException ("Invalid size: " +:+ size +:+ "."))
       end.

(** [sanitize_stderr_for_log(untrusted_stderr)]; the bytes are the
    characters of the string. *)
Definition allowed : string :=
  ascii_letters +:+ digits +:+ punctuation +:+ " ".

Definition sanitize_stderr_for_log (untrusted_stderr : string) : string :=
  let untrusted_stderr := take 4096 untrusted_stderr in
  Pci.map_chars (fun b => if contains allowed b then b else "_"%char)
    untrusted_stderr.

(** What [match_vm_name_with_special] reads of a domain. *)
Record vm_view : Type := {
  vm_name : string;
  vm_tags : gset string;
  vm_class_name : string
}.

(** [match_vm_name_with_special(vm, name)] *)
Definition match_vm_name_with_special (vm : vm_view) (name : string) : bool :=
  if startswith "@tag:" name
  then bool_decide (drop (len "@tag:") name ∈ vm_tags vm)
  else if startswith "@type:" name
  then String.eqb (drop (len "@type:") name) (vm_class_name vm)
  else String.eqb name (vm_name vm).

End UtilsMisc.


(** ** Names, tags and properties of domains ([qubes/vm/__init__.py]) *)

Module VmNames.
Import Py Text.

(** The two classes of [qubes.exc] that [validate_name] raises. *)
Inductive name_error : Type :=
| QubesValueError (msg : string)
| QubesPropertyValueError (prop value msg : string).

(** [[a-zA-Z]] *)
Definition is_letter (c : ascii) : bool :=
  in_range "a" "z" c || in_range "A" "Z" c.

(** [[a-zA-Z0-9_.-]] *)
Definition is_name_char (c : ascii) : bool :=
  is_letter c || is_digit c || contains "_.-" c.

(** [re.match(r"\A[0-9_.-].*\Z", value) is not None]: the dot matches
    any character but a newline. *)
Definition starts_with_digit_or_mark (value : string) : bool :=
  match value with
  | String c r => (is_digit c || contains "_.-" c) && all not_newline r
  | EmptyString => false
  end.

(** [re.match(r"\A[a-zA-Z][a-zA-Z0-9_.-]*\Z", value) is not None] *)
Definition name_regex_match (value : string) : bool :=
  match value with
  | String c r => is_letter c && all is_name_char r
  | EmptyString => false
  end.

(** [validate_name(holder, prop, value)] for a string [value]: [None]
    when the call returns, the exception when it raises.  [holder] says
    whether a holder was given, [prop] is the name of the property, if
    one was given. *)
Definition validate_name (holder : bool) (prop : option string)
    (value : string) : option name_error :=
  let error (about_prop about_name : string) : name_error :=
    match holder, prop with
    | true, Some p => QubesPropertyValueError p value (p +:+ about_prop)
    | _, _ => QubesValueError about_name
    end in
  if (31 <? len value)%nat then
    Some (error " value must be shorter than 32 characters"
                "VM name must be shorter than 32 characters")
  else if starts_with_digit_or_mark value then
    Some (error " cannot start with hyphen, underscore, dot or numbers"
                "VM name cannot start with hyphen, underscore, dot or numbers")
  else if negb (name_regex_match value) then
    Some (error " value contains illegal characters"
                "VM name contains illegal characters")
  else if String.eqb value "Domain-0" then
    Some (QubesValueError "VM name cannot be 'Domain-0'")
  else if String.eqb value "none" || String.eqb value "default" then
    Some (QubesValueError "VM name cannot be 'none' nor 'default'")
  else if endswith "-dm" value then
    Some (QubesValueError "VM name cannot end with -dm")
  else None.

(** [VMProperty.sanitize(untrusted_newvalue=...)]: the bytes are the
    characters of the string; [inl] is the exception raised, [inr] the
    value returned.  [prop] is the name of the property. *)
Definition sanitize (prop : string) (untrusted_newvalue : string)
  : name_error + string :=
  if negb (is_ascii untrusted_newvalue) then inl (QubesValueError EmptyString)
  else
    let untrusted_vmname := untrusted_newvalue in
    if String.eqb untrusted_vmname EmptyString then inr untrusted_vmname
    else match validate_name false (Some prop) untrusted_vmname with
         | Some e => inl e
         | None => inr untrusted_vmname
         end.

End VmNames.

Module Tags.
Import Py Text.

(** [vm.fire_event(name, tag=tag)] *)
Inductive vm_event : Type :=
| FireEvent (name : string) (tag : string).

(** What the handlers of an event answer, given the events fired
    before, and the order in which a set is iterated. *)
Record world : Type := {
  fire_event : list vm_event -> vm_event -> outcome unit;
  tuple_of : gset string -> list string
}.

(** The set, and the events fired so far. *)
Record state : Type := {
  tags : gset string;
  fired : list vm_event
}.

Definition allowed_chars : string := ascii_letters +:+ digits +:+ "_-".

(** [Tags.add(elem)] *)
Definition add (w : world) (elem : string) (st : state)
  : state * outcome unit :=
  if negb (all (contains allowed_chars) elem)
  then (st, Raise (ValueError "Invalid character in tag"))
  else if bool_decide (elem ∈ tags st) then (st, Ok tt)
  else
    let ev := FireEvent ("domain-tag-add:" +:+ elem) elem in
    ({| tags := tags st ∪ {[elem]}; fired := fired st ++ [ev] |},
     fire_event w (fired st) ev).

(** [Tags.remove(elem)] *)
Definition remove (w : world) (elem : string) (st : state)
  : state * outcome unit :=
  if bool_decide (elem ∈ tags st) then
    let ev := FireEvent ("domain-tag-delete:" +:+ elem) elem in
    ({| tags := tags st ∖ {[elem]}; fired := fired st ++ [ev] |},
     fire_event w (fired st) ev)
  else (st, Raise (KeyError elem)).

(** [Tags.discard(elem)] *)
Definition discard (w : world) (elem : string) (st : state)
  : state * outcome unit :=
  if bool_decide (elem ∈ tags st) then remove w elem st else (st, Ok tt).

(** [for elem in other: self.add(elem)] *)
Fixpoint add_each (w : world) (other : list string) (st : state)
  : state * outcome unit :=
  match other with
  | [] => (st, Ok tt)
  | elem :: rest =>
      match add w elem st with
      | (st', Ok _) => add_each w rest st'
      | (st', Raise e) => (st', Raise e)
      end
  end.

(** [Tags.update], called with the iterables [others] *)
Fixpoint update (w : world) (others : list (list string)) (st : state)
  : state * outcome unit :=
  match others with
  | [] => (st, Ok tt)
  | other :: rest =>
      match add_each w other st with
      | (st', Ok _) => update w rest st'
      | (st', Raise e) => (st', Raise e)
      end
  end.

(** [for item in ...: self.remove(item)] *)
Fixpoint remove_each (w : world) (items : list string) (st : state)
  : state * outcome unit :=
  match items with
  | [] => (st, Ok tt)
  | item :: rest =>
      match remove w item st with
      | (st', Ok _) => remove_each w rest st'
      | (st', Raise e) => (st', Raise e)
      end
  end.

(** [Tags.clear()] *)
Definition clear (w : world) (st : state) : state * outcome unit :=
  remove_each w (tuple_of w (tags st)) st.

Definition safe_set : string := ascii_letters +:+ digits +:+ "-_".

(** [Tags.validate_tag(tag)] *)
Definition validate_tag (tag : string) : outcome unit :=
  if negb (all (contains safe_set) tag)
  then Raise (ValueError "disallowed characters")
  else Ok tt.

(** The tags part of [BaseVM.load_extras]: [names] are the [name]
    attributes of the [tag] nodes, in document order. *)
Definition load_extras_tags (w : world) (names : list string) (st : state)
  : state * outcome unit :=
  add_each w names st.

End Tags.

(** ** Tags, as the statements about them see them *)

Module TagsSpec.
Import Py Text Tags.

(** Every tag of the set is made of allowed characters. *)
Definition all_valid (st : state) : Prop :=
  forall t, t ∈ tags st -> all (contains allowed_chars) t = true.

Definition add_event (t : string) : vm_event :=
  FireEvent ("domain-tag-add:" +:+ t) t.

Definition delete_event (t : string) : vm_event :=
  FireEvent ("domain-tag-delete:" +:+ t) t.

(** The elements of [l] that are not in [seen], each at its first
    occurrence. *)
Fixpoint fresh (seen : gset string) (l : list string) : list string :=
  match l with
  | [] => []
  | x :: r =>
      if bool_decide (x ∈ seen) then fresh seen r
      else x :: fresh (seen ∪ {[x]}) r
  end.

(** No handler raises. *)
Definition quiet (w : world) : Prop :=
  forall history ev, fire_event w history ev = Ok tt.

End TagsSpec.

(** ** More of the PCI extension ([qubes/ext/pci.py]) *)

Module PciMore.
Import Py Pci.

(** [pcidev_interface(dev_xmldesc)], where [sysfs_path] is what
    [dev_xmldesc.findtext('path')] gives. *)
Definition pcidev_interface (fs : sysfs) (sysfs_path : option string)
  : outcome string :=
  match sysfs_path with
  | None | Some EmptyString => Raise AssertionError
  | Some sysfs_path =>
      match read_text fs (sysfs_path +:+ "/class") with
      | None => Ok "000000"
      | Some text =>
          if negb (is_ascii text) then Raise (ValueError text)
          else
            let class_id := strip (universal_newlines text) in
            Ok (if startswith "0x" class_id then drop 2 class_id
                else class_id)
      end
  end.

(** [str.format] of a value that is [None] or a string. *)
Definition format_value (o : option string) : string := default "None" o.

(** [_device_desc(hostdev_xml)]: [sysfs_path], [vendor] and [product]
    are what [findtext] gives for [path], [capability/vendor] and
    [capability/product]; the cache of classes is threaded as in
    [pcidev_class]. *)
Definition _device_desc (fs : sysfs) (sysfs_path vendor product : option string)
    (pci_classes : option (gmap string string))
  : option (gmap string string) * outcome string :=
  match pcidev_class fs sysfs_path pci_classes with
  | (cache, Ok devclass) =>
      (cache, Ok (devclass +:+ ": " +:+ format_value vendor +:+ " "
                    +:+ format_value product))
  | (cache, Raise e) => (cache, Raise e)
  end.


(** What a run of [on_device_list_pci] gives out, in order: the devices
    it yields and the warnings it logs. *)
Inductive listed : Type :=
| Yield (device : PCIDevice)
| LogWarning (msg : string).




(** [on_domain_pre_start(vm, event)]; [assigned] are the identifiers of
    the devices that [vm.devices['pci'].get_assigned_devices()] gives. *)
Fixpoint on_domain_pre_start (w : world) (assigned : list string) : act unit :=
  match assigned with
  | [] => act_ret tt
  | ident :: rest =>
      do device <- lift (_cache_get ident);
      do _ <- bind_pci_to_pciback w device;
      on_domain_pre_start w rest
  end.

End PciMore.

(** ** The PCI extension, as the statements about it see it *)

Module PciSpec.
Import Py Pci PciMore.


(** The warnings among what a listing gave out. *)
Definition warnings_of (out : list listed) : list string :=
  omap (fun x => match x with LogWarning m => Some m | Yield _ => None end) out.

(** The two calls that bind a device to pciback. *)
Definition bind_calls (d : PCIDevice) : list event :=
  [NodeDeviceLookupByName (libvirt_name d); NodeDettach (libvirt_name d)].

(** libvirt knows the device and hands it over, or says that it is
    detached already. *)
Definition bindable (w : world) (d : PCIDevice) : Prop :=
  (exists xml, lookup_node w (libvirt_name d) = Ok xml)
  /\ (dettach_node w (libvirt_name d) = Ok tt
      \/ dettach_node w (libvirt_name d)
         = Raise (libvirtError VIR_ERR_INTERNAL_ERROR)).

(** The call is [vm.log.exception(msg, arg)] with a message that holds
    no [%].  For such a call the handler of [logging], which formats
    [msg % (arg,)], gets a [TypeError]; [logging] reports it on [stderr]
    and drops the record, and the call returns. *)
Definition no_placeholder (ev : event) : bool :=
  match ev with
  | LogException msg _ => no_char "%" msg
  | _ => false
  end.

End PciSpec.

(** ** Volumes of an AppVM ([qubes/vm/appvm.py]) *)

Module AppVm.

(** Values of a volume configuration. *)
Inductive value : Type :=
| VNone
| VBool (b : bool)
| VInt (n : Z)
| VStr (s : string).

Definition config : Type := gmap string value.

(** Truth value of a Python value. *)
Definition truthy (v : value) : bool :=
  match v with
  | VNone => false
  | VBool b => b
  | VInt n => negb (n =? 0)
  | VStr s => negb (String.eqb s EmptyString)
  end.

(** [AppVM.default_volume_config], in the order of the class body;
    the two sizes come from [qubes.config.defaults]. *)
Definition default_volume_config (private_img_size root_img_size : value)
  : list (string * config) :=
  [("root",
    <["name" := VStr "root"]> (<["snap_on_start" := VBool true]>
      (<["save_on_stop" := VBool false]> (<["rw" := VBool true]>
        (<["source" := VNone]> ∅)))));
   ("private",
    <["name" := VStr "private"]> (<["snap_on_start" := VBool false]>
      (<["save_on_stop" := VBool true]> (<["rw" := VBool true]>
        (<["size" := private_img_size]> ∅)))));
   ("volatile",
    <["name" := VStr "volatile"]> (<["snap_on_start" := VBool false]>
      (<["save_on_stop" := VBool false]> (<["size" := root_img_size]>
        (<["rw" := VBool true]> ∅)))));
   ("kernel",
    <["name" := VStr "kernel"]> (<["snap_on_start" := VBool false]>
      (<["save_on_stop" := VBool false]> (<["rw" := VBool false]> ∅))))].

(** The loop of [AppVM.__init__] over [template.volume_config.items()]. *)
Fixpoint add_template_volumes (items : list (string * config))
    (volume_config : gmap string config) : gmap string config :=
  match items with
  | [] => volume_config
  | (name, config) :: rest =>
      add_template_volumes rest
        (if bool_decide (volume_config !! name = None)
         then <[name := delete "vid" config]> volume_config
         else volume_config)
  end.

(** [self.volume_config] as [AppVM.__init__] leaves it; [template] is
    [template.volume_config.items()] when a template was passed. *)
Definition init_volume_config (private_img_size root_img_size : value)
    (template : option (list (string * config))) : gmap string config :=
  let volume_config :=
    list_to_map (default_volume_config private_img_size root_img_size) in
  match template with
  | None => volume_config
  | Some items => add_template_volumes items volume_config
  end.

(** [template_changed_update_storage(self)]: [defaults] is
    [self.default_volume_config.items()], [init_volume] what
    [self.storage.init_volume] answers.  The result is the new
    [self.volume_config], the calls made, and how the loop ended. *)
Fixpoint template_changed_update_storage
    (init_volume : string -> config -> outcome unit)
    (defaults : list (string * config)) (volume_config : gmap string config)
  : gmap string config * list (string * config) * outcome unit :=
  match defaults with
  | [] => (volume_config, [], Ok tt)
  | (volume_name, conf) :: rest =>
      if truthy (default (VBool false) (conf !! "snap_on_start"))
         && match default VNone (conf !! "source") with
            | VNone => true
            | _ => false
            end
      then
        let volume_config := <[volume_name := conf]> volume_config in
        match init_volume volume_name conf with
        | Ok _ =>
            let '(volume_config', calls, r) :=
              template_changed_update_storage init_volume rest volume_config in
            (volume_config', (volume_name, conf) :: calls, r)
        | Raise e => (volume_config, [(volume_name, conf)], Raise e)
        end
      else template_changed_update_storage init_volume rest volume_config
  end.

End AppVm.

(** ** The class part of [pci.ids], as the statements about it see it *)

Module PciIds.
Import Py Pci.

(** A subclass with its programming interfaces, and a class with its
    subclasses: identifiers and names. *)
Record subclass : Type := {
  sub_id : string;
  sub_name : string;
  prog_ifs : list (string * string)
}.

Record class : Type := {
  class_id : string;
  class_name : string;
  subclasses : list subclass
}.

(** The lines that [pci.ids] has for them. *)
Definition class_line (c : class) : string :=
  "C " +:+ class_id c +:+ "  " +:+ class_name c.

Definition subclass_line (s : subclass) : string :=
  String tab (sub_id s +:+ "  " +:+ sub_name s).

Definition prog_if_line (p : string * string) : string :=
  String tab (String tab (p.1 +:+ "  " +:+ p.2)).

Definition lines_of_subclass (s : subclass) : list string :=
  subclass_line s :: map prog_if_line (prog_ifs s).

Definition lines_of_class (c : class) : list string :=
  class_line c :: concat (map lines_of_subclass (subclasses c)).

Definition lines_of (classes : list class) : list string :=
  concat (map lines_of_class classes).

(** Two hex digits. *)
Definition id_ok (s : string) : bool := Topology.hex_of_len 2 s.

(** Text of one line. *)
Definition one_line (s : string) : bool :=
  no_char newline s && no_char carriage_return s.

(** A name: ASCII text of one line that does not end with white space,
    and so is not empty. *)
Definition name_ok (s : string) : bool :=
  is_ascii s && one_line s
  && match String.rev s with
     | String c _ => negb (is_space c)
     | EmptyString => false
     end.

Definition subclass_ok (s : subclass) : bool :=
  id_ok (sub_id s) && name_ok (sub_name s)
  && forallb (fun p => id_ok p.1 && name_ok p.2) (prog_ifs s).

Definition class_ok (c : class) : bool :=
  id_ok (class_id c) && name_ok (class_name c)
  && forallb subclass_ok (subclasses c).

(** The entries that the lines of a subclass, of a class and of a list
    of classes add to a table, in the order of the lines. *)
Definition sub_table (cc : string) (s : subclass)
    (result : gmap string string) : gmap string string :=
  foldl (fun r p => <[cc +:+ sub_id s +:+ p.1 := p.2]> r)
    (<[cc +:+ sub_id s := sub_name s]>
       (<[cc +:+ sub_id s +:+ "00" := sub_name s]> result))
    (prog_ifs s).

Definition class_table (c : class) (result : gmap string string)
  : gmap string string :=
  foldl (fun r s => sub_table (class_id c) s r)
    (<[class_id c +:+ "00" := class_name c]>
       (<[class_id c +:+ "0000" := class_name c]> result))
    (subclasses c).

Definition table_of (classes : list class) : gmap string string :=
  foldl (fun r c => class_table c r) ∅ classes.

(** A line that the loop passes over before the first class: it is no
    class line. *)
Definition no_class_line (l : string) : bool :=
  one_line l && negb (startswith "C " (rstrip_utf8 l)).

(** A line that the loop passes over anywhere: it is neither indented
    with a tab nor a class line. *)
Definition passed_over (l : string) : bool :=
  one_line l && negb (startswith (String tab EmptyString) (rstrip_utf8 l))
  && negb (startswith "C " (rstrip_utf8 l)).

(** [s.count(c)] *)
Fixpoint count_char (c : ascii) (s : string) : nat :=
  match s with
  | EmptyString => 0
  | String a r => (if ascii_eqb a c then 1 else 0) + count_char c r
  end.

End PciIds.

(** ** Durable file operations of [qubes/utils.py] *)

Module Files.
Import Py.

(** Calls to [os] and to the logger. *)
Inductive os_call : Type :=
| Remove (path : string)
| Rename (src dst : string)
| Open (path : string)
| Fsync (fd : Z)
| Close (fd : Z)
| Log (format : string) (args : list string).

(** The calls made so far, each with its answer, oldest first. *)
Definition history : Type := list (os_call * outcome Z).

(** The operating system: the answer to a call after a history. *)
Record os : Type := {
  answer : history -> os_call -> outcome Z
}.

(** A computation that makes calls and ends with a value or an
    exception. *)
Definition io (A : Type) : Type := history -> history * outcome A.

Definition io_ret {A} (a : A) : io A := fun h => (h, Ok a).

Definition io_bind {A B} (m : io A) (k : A -> io B) : io B :=
  fun h =>
    match m h with
    | (h', Ok a) => k a h'
    | (h', Raise e) => (h', Raise e)
    end.

Notation "'os_do' x <- m ; k" := (io_bind m (fun x => k))
  (at level 10, x name, m at level 100, k at level 200).

Definition sys (o : os) (c : os_call) : io Z :=
  fun h => let r := answer o h c in (h ++ [(c, r)], r).

(** [logger.log(log_level, format, *args)] *)
Definition log (format : string) (args : list string) : io Z :=
  fun h => (h ++ [(Log format args, Ok 0)], Ok 0).

(** [try: body finally: cleanup] *)
Definition try_finally {A} (body : io A) (cleanup : io Z) : io A :=
  fun h =>
    let '(h1, r) := body h in
    match cleanup h1 with
    | (h2, Ok _) => (h2, r)
    | (h2, Raise e) => (h2, Raise e)
    end.

(** [with suppress(FileNotFoundError): body] and the statements after
    the block. *)
Definition with_suppress {A} (body : io A) (after : io A) : io A :=
  fun h =>
    match body h with
    | (h', Ok a) => (h', Ok a)
    | (h', Raise (FileNotFoundError _)) => after h'
    | (h', Raise e) => (h', Raise e)
    end.

(** [p.rfind(c) + 1] *)
Fixpoint rfind_end (c : ascii) (p : string) : nat :=
  match p with
  | EmptyString => 0
  | String a r =>
      match rfind_end c r with
      | O => if ascii_eqb a c then 1 else 0
      | S i => S (S i)
      end
  end.

(** [c * n] *)
Fixpoint times (c : ascii) (n : nat) : string :=
  match n with
  | O => EmptyString
  | S k => String c (times c k)
  end.

(** [os.path.dirname(p)] of [posixpath] *)
Definition dirname (p : string) : string :=
  let i := rfind_end "/" p in
  let head := take i p in
  if negb (String.eqb head EmptyString)
     && negb (String.eqb head (times "/" (len head)))
  then rstrip_by (fun c => ascii_eqb c "/") head
  else head.

(** [fsync_path(path)] *)
Definition fsync_path (o : os) (path : string) : io Z :=
  os_do fd <- sys o (Open path);
  try_finally (sys o (Fsync fd)) (sys o (Close fd)).

(** [rename_file(src, dst)] *)
Definition rename_file (o : os) (src dst : string) : io Z :=
  os_do _ <- sys o (Rename src dst);
  let dst_dir := dirname dst in
  let src_dir := dirname src in
  os_do _ <- fsync_path o dst_dir;
  os_do _ <- (if negb (String.eqb src_dir dst_dir)
               then fsync_path o src_dir else io_ret 0);
  log "Renamed file: %r -> %r" [src; dst].

(** [remove_file(path)] *)
Definition remove_file (o : os) (path : string) : io bool :=
  with_suppress
    (os_do _ <- sys o (Remove path);
     os_do _ <- fsync_path o (dirname path);
     os_do _ <- log "Removed file: %r" [path];
     io_ret true)
    (io_ret false).

End Files.

(** Vocabulary for the statements about [Files]. *)
Module FilesSpec.
Import Files.

Fixpoint remove_one (fd : Z) (fds : list Z) : list Z :=
  match fds with
  | [] => []
  | x :: r => if Z.eqb x fd then r else x :: remove_one fd r
  end.

(** The descriptors that are open after a history, given the ones open
    before it; a descriptor counts as closed once [os.close] was called
    on it. *)
Fixpoint open_after (h : history) (fds : list Z) : list Z :=
  match h with
  | [] => fds
  | (Open _, Ok fd) :: r => open_after r (fd :: fds)
  | (Close fd, _) :: r => open_after r (remove_one fd fds)
  | _ :: r => open_after r fds
  end.

(** What a computation adds to the history leaves the open descriptors
    as they were. *)
Definition keeps_descriptors {A} (m : io A) : Prop :=
  forall h, exists t,
    fst (m h) = h ++ t /\ forall fds, open_after t fds = fds.

End FilesSpec.

(** ** More sample worlds *)

Module MoreSamples.
Import Py.

(** No handler raises, and a set is iterated in the order of its
    elements. *)
Definition quiet_handlers : Tags.world := {|
  Tags.fire_event := fun _ _ => Ok tt;
  Tags.tuple_of := elements
|}.

Definition tagged : Tags.state := {|
  Tags.tags := {["created-by-dom0"]};
  Tags.fired := []
|}.

Definition work : UtilsMisc.vm_view := {|
  UtilsMisc.vm_name := "work";
  UtilsMisc.vm_tags := {["created-by-dom0"]};
  UtilsMisc.vm_class_name := "AppVM"
|}.

(** libvirt knows the device [02:00.0] and no other. *)
Definition one_device_known : Pci.world := {|
  Pci.lookup_node := fun name =>
    if String.eqb name "pci_0000_02_00_0" then Ok Samples.nic_xml
    else Raise (libvirtError VIR_ERR_NO_NODE_DEVICE);
  Pci.dettach_node := fun _ => Ok tt;
  Pci.render_pci_xml := fun i _ => Ok ("<hostdev " +:+ i +:+ "/>");
  Pci.attach_device := fun _ => Ok tt;
  Pci.detach_device := fun _ => Ok tt;
  Pci.xl_pci_list := fun _ => Ok ("Vdev Device" +:+ Samples.nl);
  Pci.run_service := fun _ _ _ => Ok tt
|}.

Definition absent_device : Pci.PCIDevice := {|
  Pci.ident := "03_00.0"; Pci.bus := "03"; Pci.device := "00";
  Pci.function := "0";
  Pci._vendor := Pci.PNone; Pci._vendor_id := Pci.PNone;
  Pci._product := Pci.PNone; Pci._product_id := Pci.PNone
|}.

(** The guest lists the device in slot [0a.0]. *)
Definition hex_slot_listed : Pci.world := {|
  Pci.lookup_node := fun _ => Ok Samples.nic_xml;
  Pci.dettach_node := fun _ => Ok tt;
  Pci.render_pci_xml := fun i _ => Ok ("<hostdev " +:+ i +:+ "/>");
  Pci.attach_device := fun _ => Ok tt;
  Pci.detach_device := fun _ => Ok tt;
  Pci.xl_pci_list := fun _ =>
    Ok ("Vdev Device" +:+ Samples.nl +:+ "0a.0 0000:02:00.0" +:+ Samples.nl);
  Pci.run_service := fun _ _ _ => Ok tt
|}.

(** Every call succeeds, but the empty path cannot be opened. *)
Definition no_empty_path : Files.os := {|
  Files.answer := fun _ c =>
    match c with
    | Files.Open EmptyString => Raise (FileNotFoundError EmptyString)
    | _ => Ok 3
    end
|}.

End MoreSamples.

(** ** Spellings of an address *)

Module Spellings.
Import Py Topology.

(** The seven characters of an address, with any of the separators that
    the device regex allows. *)
Definition spelled_bdf (s1 s2 : ascii) (x : bdf) : string :=
  bdf_bus x +:+ String s1 (bdf_device x +:+ String s2 (bdf_function x)).

End Spellings.

(** * Results *)

(** ** The code on the sample hosts *)

Section Runs.
Import Py Utils Pci.

Example run_sbdf_to_path :
  sbdf_to_path Samples.one_bridge "0000:02:00.0"
  = Ok (Some "00_03.0-00_00.0")
  /\ sbdf_to_path Samples.one_bridge "pci_0000_02_00_0"
     = Ok (Some "00_03.0-00_00.0")
  /\ sbdf_to_path Samples.one_bridge "00_03.0" = Ok (Some "00_03.0")
  /\ sbdf_to_path Samples.one_bridge "0001:00:03.0" = Ok None
  /\ sbdf_to_path Samples.one_bridge "usb_1_2" = Raise (ValueError "usb_1_2").
Proof. repeat split; reflexivity. Qed.

Example run_path_to_sbdf :
  path_to_sbdf Samples.one_bridge "00_03.0-00_00.0" = Ok "0000:02:00.0"
  /\ path_to_sbdf Samples.one_bridge_renumbered "00_03.0-00_00.0"
     = Ok "0000:05:00.0"
  /\ path_to_sbdf Samples.one_bridge "0001_00_03.0" = Ok "0001:00:03.0"
  /\ path_to_sbdf Samples.one_bridge "00_03.0-zz"
     = Raise (ValueError "zz").
Proof. repeat split; reflexivity. Qed.

Example run_int :
  int ("2" +:+ Samples.nl) = Some 2 /\ int " -12 " = Some (-12)
  /\ int "1_0" = Some 10 /\ int "0x1" = None /\ int EmptyString = None.
Proof. repeat split; reflexivity. Qed.

Example run_fmt_02x :
  fmt_02x 0 = "00" /\ fmt_02x 26 = "1a" /\ fmt_02x 256 = "100"
  /\ fmt_02x (-1) = "-1".
Proof. repeat split; reflexivity. Qed.

Example run_normpath :
  normpath (path_join "/sys/bus/pci/devices" "../../../devices")
  = "/sys/devices".
Proof. reflexivity. Qed.

Example run_PCIDevice_init :
  (exists device,
      PCIDevice_init EmptyString (Some "pci_0000_02_00_0") = Ok device
      /\ ident device = "02_00.0" /\ bus device = "02"
      /\ device.(Pci.device) = "00" /\ function device = "0")
  /\ PCIDevice_init EmptyString (Some "usb_1_2")
     = Raise (UnsupportedDevice "usb_1_2").
Proof. split; [eexists; repeat split|]; reflexivity. Qed.

Example run_load_pci_classes :
  (fun r => match r with
            | Ok classes =>
                (classes !! "0600", classes !! "0604", classes !! "060400",
                 classes !! "060401", classes !! "06", classes !! "0605")
            | Raise _ => (None, None, None, None, None, None)
            end) (load_pci_classes Samples.one_bridge_hwdata)
  = (Some "Host bridge", Some "PCI bridge", Some "Normal decode",
     Some "Subtractive decode", None, None).
Proof. vm_compute. reflexivity. Qed.

Example run_pcidev_class :
  snd (pcidev_class Samples.one_bridge_hwdata
         (Some "/sys/devices/pci0000:00/0000:00:03.0") None)
  = Ok "PCI bridge"
  /\ snd (pcidev_class Samples.one_bridge_hwdata (Some "/nowhere") None)
     = Ok "unknown".
Proof. split; vm_compute; reflexivity. Qed.

Example run_xl_search :
  xl_search "02:00.0" true
    ("Vdev Device" +:+ Samples.nl +:+ "05.0 0000:02:00.0" +:+ Samples.nl)
  = Some "05.0"
  /\ xl_search "03:00.0" true
       ("Vdev Device" +:+ Samples.nl +:+ "05.0 0000:02:00.0" +:+ Samples.nl)
     = None.
Proof. split; reflexivity. Qed.

End Runs.

(** ** Strings, hex digits and numbers *)

Section StringFacts.
Import Py.

Lemma str_app_cons c s t : String c s +:+ t = String c (s +:+ t).
Proof. reflexivity. Qed.

Lemma str_app_nil_l s : EmptyString +:+ s = s.
Proof. reflexivity. Qed.

Lemma str_app_nil_r s : s +:+ EmptyString = s.
Proof.
  induction s as [|c s IH]; [reflexivity|]. by rewrite str_app_cons, IH.
Qed.

Lemma str_app_assoc s t u : (s +:+ t) +:+ u = s +:+ t +:+ u.
Proof.
  induction s as [|c s IH]; [reflexivity|]. by rewrite !str_app_cons, IH.
Qed.

Lemma all_app p s t : all p (s +:+ t) = all p s && all p t.
Proof.
  induction s as [|c s IH]; [reflexivity|].
  rewrite str_app_cons. simpl. rewrite IH. by rewrite andb_assoc.
Qed.

Lemma all_impl (p q : ascii -> bool) s :
  (forall c, p c = true -> q c = true) -> all p s = true -> all q s = true.
Proof.
  intros Hpq. induction s as [|c s IH]; [reflexivity|]. simpl.
  rewrite !andb_true_iff. intros [Hc Hs]. auto.
Qed.

Lemma ascii_eqb_eq a b : ascii_eqb a b = true <-> a = b.
Proof. apply Ascii.eqb_eq. Qed.

(** A hex digit differs from every character that is none. *)
Lemma hex_differs c k :
  is_hex k = false -> is_hex c = true -> ascii_eqb c k = false.
Proof.
  intros Hk Hc. destruct (ascii_eqb c k) eqn:E; [|reflexivity].
  apply ascii_eqb_eq in E. congruence.
Qed.

Lemma hex_differs' c k :
  is_hex k = false -> is_hex c = true -> ascii_eqb k c = false.
Proof.
  intros Hk Hc. destruct (ascii_eqb k c) eqn:E; [|reflexivity].
  apply ascii_eqb_eq in E. congruence.
Qed.

Lemma hex_cases c :
  is_hex c = true ->
  In c ["0"; "1"; "2"; "3"; "4"; "5"; "6"; "7"; "8"; "9";
        "a"; "b"; "c"; "d"; "e"; "f"]%char.
Proof.
  destruct c as [[] [] [] [] [] [] [] []]; vm_compute; intros H;
    try discriminate H; tauto.
Qed.

Lemma hex_val_digit n :
  0 <= n < 16 -> hex_val (hex_digit n) = n /\ is_hex (hex_digit n) = true.
Proof.
  intros Hn.
  assert (exists k, n = Z.of_nat k /\ (k < 16)%nat) as (k & -> & Hk)
    by (exists (Z.to_nat n); lia).
  do 16 (destruct k as [|k]; [vm_compute; auto|]). lia.
Qed.

Lemma hex_digit_val c :
  is_hex c = true -> hex_digit (hex_val c) = c /\ 0 <= hex_val c < 16.
Proof.
  intros H. apply hex_cases in H. simpl in H.
  repeat (destruct H as [<-|H]; [vm_compute; intuition congruence|]).
  contradiction.
Qed.

Lemma int16_from_hex_go fuel : forall n sfx,
  0 <= n < 16 ^ Z.of_nat fuel -> (0 < fuel)%nat ->
  int16_from 0 (hex_go fuel n sfx) = int16_from n sfx.
Proof.
  induction fuel as [|k IH]; intros n sfx Hn Hk; [lia|].
  simpl hex_go.
  assert (Hmod : 0 <= n mod 16 < 16) by (apply Z.mod_pos_bound; lia).
  destruct (hex_val_digit _ Hmod) as [Hval _].
  pose proof (Z.div_mod n 16 ltac:(lia)) as Hdm.
  destruct (Z.eqb_spec (n / 16) 0) as [Hz|Hz].
  - simpl. rewrite Hval. f_equal. lia.
  - assert (0 < n / 16) by (pose proof (Z.div_pos n 16); lia).
    destruct k as [|k'].
    + exfalso. change (16 ^ Z.of_nat 1) with 16 in Hn.
      assert (n / 16 = 0) by (apply Z.div_small; lia). lia.
    + rewrite IH.
      * simpl. rewrite Hval. f_equal. lia.
      * split; [lia|].
        apply Z.div_lt_upper_bound; [lia|].
        replace (Z.of_nat (S (S k'))) with (Z.succ (Z.of_nat (S k'))) in Hn
          by lia.
        rewrite Z.pow_succ_r in Hn by lia. lia.
      * lia.
Qed.

Lemma all_hex_go fuel : forall n sfx,
  0 <= n -> all is_hex sfx = true -> all is_hex (hex_go fuel n sfx) = true.
Proof.
  induction fuel as [|k IH]; intros n sfx Hn Hs; [exact Hs|].
  simpl hex_go.
  assert (Hmod : 0 <= n mod 16 < 16) by (apply Z.mod_pos_bound; lia).
  destruct (hex_val_digit _ Hmod) as [_ Hhex].
  destruct (n / 16 =? 0).
  - simpl. by rewrite Hhex, Hs.
  - apply IH; [apply Z.div_pos; lia|]. simpl. by rewrite Hhex, Hs.
Qed.

Lemma hex_go_nonempty fuel : forall n sfx,
  (0 < fuel)%nat -> hex_go fuel n sfx <> EmptyString .
Proof.
  induction fuel as [|k IH]; intros n sfx Hk; [lia|].
  simpl hex_go. destruct (n / 16 =? 0); [discriminate|].
  destruct k as [|k']; [discriminate|]. apply IH. lia.
Qed.

Lemma pow16_log2 n : 0 <= n -> n < 16 ^ Z.of_nat (S (Z.to_nat (Z.log2 n))).
Proof.
  intros Hn.
  destruct (Z.eq_dec n 0) as [->|Hnz]; [reflexivity|].
  pose proof (Z.log2_spec n ltac:(lia)) as [_ Hlt].
  pose proof (Z.log2_nonneg n) as Hl.
  rewrite Nat2Z.inj_succ, Z2Nat.id by lia.
  eapply Z.lt_le_trans; [exact Hlt|].
  change 16 with (2 ^ 4). rewrite <- Z.pow_mul_r by lia.
  apply Z.pow_le_mono_r; lia.
Qed.

Lemma int16_hex n : 0 <= n -> int16 (hex n) = n.
Proof.
  intros Hn. unfold int16, hex. rewrite int16_from_hex_go.
  - reflexivity.
  - split; [lia|]. by apply pow16_log2.
  - lia.
Qed.

Lemma all_hex_hex n : 0 <= n -> all is_hex (hex n) = true.
Proof. intros Hn. unfold hex. by apply all_hex_go. Qed.

Lemma hex_nonempty n : hex n <> EmptyString.
Proof. unfold hex. apply hex_go_nonempty. lia. Qed.

Lemma int16_from_zfill_go k acc s :
  int16_from acc (zfill_go k s) = int16_from (acc * 16 ^ Z.of_nat k) s.
Proof.
  revert acc. induction k as [|k IH]; intros acc.
  - simpl. f_equal. lia.
  - cbn [zfill_go int16_from]. change (hex_val "0") with 0. rewrite IH. f_equal.
    rewrite Nat2Z.inj_succ, Z.pow_succ_r by lia. lia.
Qed.

Lemma all_hex_zfill_go k s : all is_hex (zfill_go k s) = all is_hex s.
Proof. induction k as [|k IH]; [reflexivity|]. simpl. exact IH. Qed.

Lemma zfill_go_nonempty k s : s <> EmptyString -> zfill_go k s <> EmptyString.
Proof. destruct k; [auto|discriminate]. Qed.

(** [f"{n:02x}"] of a number that is not negative: hex digits that read
    back as the number. *)
Lemma fmt_02x_nonneg n :
  0 <= n ->
  int16 (fmt_02x n) = n /\ all is_hex (fmt_02x n) = true
  /\ fmt_02x n <> EmptyString.
Proof.
  intros Hn. unfold fmt_02x. destruct (Z.ltb_spec n 0) as [?|_]; [lia|].
  unfold zfill. repeat split.
  - unfold int16. rewrite int16_from_zfill_go. simpl. by apply int16_hex.
  - rewrite all_hex_zfill_go. by apply all_hex_hex.
  - apply zfill_go_nonempty, hex_nonempty.
Qed.

(** Two hex digits are what [f"{n:02x}"] gives for their value. *)
Lemma fmt_02x_int16 b1 b2 :
  is_hex b1 = true -> is_hex b2 = true ->
  fmt_02x (int16 (String b1 (String b2 EmptyString)))
  = String b1 (String b2 EmptyString).
Proof.
  intros H1 H2. apply hex_cases in H1, H2. simpl in H1, H2.
  repeat (destruct H1 as [<-|H1];
          [repeat (destruct H2 as [<-|H2]; [vm_compute; reflexivity|]);
           contradiction|]).
  contradiction.
Qed.

(** *** Matching built strings *)

Lemma span_hex_all h : all is_hex h = true -> span_hex h = (h, EmptyString).
Proof.
  induction h as [|c h IH]; [reflexivity|]. simpl.
  rewrite andb_true_iff. intros [-> Hh]. by rewrite IH.
Qed.

Lemma span_hex_app h c r :
  all is_hex h = true -> is_hex c = false ->
  span_hex (h +:+ String c r) = (h, String c r).
Proof.
  intros Hh Hc. induction h as [|a h IH].
  - rewrite str_app_nil_l. simpl. by rewrite Hc.
  - simpl in Hh. apply andb_true_iff in Hh as [Ha Hh].
    rewrite str_app_cons. simpl. rewrite Ha, IH by done. reflexivity.
Qed.

Lemma match_hex3_built (sep1 sep2 : ascii -> bool) s1 s2 B D F :
  all is_hex B = true -> B <> EmptyString ->
  all is_hex D = true -> D <> EmptyString ->
  all is_hex F = true -> F <> EmptyString ->
  is_hex s1 = false -> is_hex s2 = false ->
  sep1 s1 = true -> sep2 s2 = true ->
  match_hex3 sep1 sep2 (B +:+ String s1 (D +:+ String s2 F)) = Some (B, D, F).
Proof.
  intros HB HBn HD HDn HF HFn Hs1 Hs2 Hp1 Hp2. unfold match_hex3.
  rewrite span_hex_app by done.
  destruct B as [|b0 B]; [done|]. rewrite Hp1.
  rewrite span_hex_app by done.
  destruct D as [|d0 D]; [done|]. rewrite Hp2.
  rewrite span_hex_all by done.
  destruct F as [|f0 F]; [done|]. reflexivity.
Qed.

(** *** Splitting and joining *)

Lemma split_nonempty sep s : split sep s <> [].
Proof.
  induction s as [|c s IH]; [discriminate|]. simpl.
  destruct (ascii_eqb c sep); [discriminate|].
  destruct (split sep s); discriminate.
Qed.

Lemma split_app_no_char sep p s piece pieces :
  no_char sep p = true ->
  split sep s = piece :: pieces ->
  split sep (p +:+ s) = (p +:+ piece) :: pieces.
Proof.
  intros Hp Hs. induction p as [|c p IH].
  - by rewrite !str_app_nil_l.
  - unfold no_char in Hp. simpl in Hp. apply andb_true_iff in Hp as [Hc Hp].
    rewrite !str_app_cons. simpl. apply negb_true_iff in Hc. rewrite Hc.
    by rewrite IH.
Qed.

Lemma split_no_char sep p : no_char sep p = true -> split sep p = [p].
Proof.
  intros Hp. rewrite <- (str_app_nil_r p) at 1.
  erewrite split_app_no_char; [|done|reflexivity]. by rewrite str_app_nil_r.
Qed.

Lemma split_join sep l :
  Forall (fun s => no_char sep s = true) l -> l <> [] ->
  split sep (join (String sep EmptyString) l) = l.
Proof.
  induction 1 as [|x l Hx Hl IH]; [done|]. intros _.
  destruct l as [|y l].
  - simpl. by apply split_no_char.
  - change (join (String sep EmptyString) (x :: y :: l))
      with (x +:+ String sep EmptyString
              +:+ join (String sep EmptyString) (y :: l)).
    erewrite split_app_no_char; [|done|].
    + by rewrite str_app_nil_r.
    + rewrite str_app_cons, str_app_nil_l. simpl split at 1.
      rewrite (proj2 (ascii_eqb_eq sep sep) eq_refl).
      f_equal. by apply IH.
Qed.

Lemma split_prefix_join sep p x l :
  no_char sep p = true ->
  Forall (fun s => no_char sep s = true) (x :: l) ->
  split sep (p +:+ join (String sep EmptyString) (x :: l)) = (p +:+ x) :: l.
Proof.
  intros Hp Hl. erewrite split_app_no_char; [reflexivity|done|].
  by apply split_join.
Qed.

End StringFacts.

Ltac strs := repeat (rewrite ?str_app_cons, ?str_app_nil_l).

Ltac hexes :=
  repeat match goal with
         | H : Py.is_hex ?c = true |- context [Py.is_hex ?c] => rewrite H
         end.

(** ** The topology codec *)

Section CodecFacts.
Import Py Utils Topology PathForm.

Lemma hex_of_len_1 s :
  hex_of_len 1 s = true ->
  exists a, s = String a EmptyString /\ is_hex a = true.
Proof.
  unfold hex_of_len. destruct s as [|a [|]]; simpl; try discriminate.
  rewrite andb_true_r. eauto.
Qed.

Lemma hex_of_len_2 s :
  hex_of_len 2 s = true ->
  exists a b,
    s = String a (String b EmptyString) /\ is_hex a = true /\ is_hex b = true.
Proof.
  unfold hex_of_len. destruct s as [|a [|b [|]]]; simpl; try discriminate.
  rewrite andb_true_r, andb_true_iff. intros []. eauto 6.
Qed.

Lemma hex_of_len_4 s :
  hex_of_len 4 s = true ->
  exists a b c d, s = String a (String b (String c (String d EmptyString)))
    /\ is_hex a = true /\ is_hex b = true /\ is_hex c = true /\ is_hex d = true.
Proof.
  unfold hex_of_len.
  destruct s as [|a [|b [|c [|d [|]]]]]; simpl; try discriminate.
  rewrite andb_true_r, !andb_true_iff. intros (? & ? & ? & ?). eauto 10.
Qed.

Lemma bdf_ok_inv x :
  bdf_ok x = true ->
  exists b1 b2 d1 d2 f,
    x = {| bdf_bus := String b1 (String b2 EmptyString);
           bdf_device := String d1 (String d2 EmptyString);
           bdf_function := String f EmptyString |}
    /\ is_hex b1 = true /\ is_hex b2 = true /\ is_hex d1 = true
    /\ is_hex d2 = true /\ is_hex f = true.
Proof.
  unfold bdf_ok. rewrite !andb_true_iff. intros [[Hb Hd] Hf].
  apply hex_of_len_2 in Hb as (b1 & b2 & Eb & ? & ?).
  apply hex_of_len_2 in Hd as (d1 & d2 & Ed & ? & ?).
  apply hex_of_len_1 in Hf as (f & Ef & ?).
  exists b1, b2, d1, d2, f. destruct x; simpl in *; subst. auto 10.
Qed.

Lemma match_bdf_name seg b1 b2 d1 d2 f :
  is_hex b1 = true -> is_hex b2 = true -> is_hex d1 = true ->
  is_hex d2 = true -> is_hex f = true ->
  match_bdf seg (String b1 (String b2 (String ":" (String d1 (String d2
                   (String "." (String f EmptyString))))))) 
  = Some {| m_segment := seg; m_bus := String b1 (String b2 EmptyString);
            m_device := String d1 (String d2 EmptyString);
            m_function := String f EmptyString |}.
Proof. intros. unfold match_bdf. hexes. reflexivity. Qed.

(** The device regex reads a sysfs name back into its fields. *)
Lemma sbdf_regex_match_name segment x :
  segment_ok segment = true -> bdf_ok x = true ->
  sbdf_regex_match (sbdf_name segment x)
  = Some {| m_segment := Some segment; m_bus := bdf_bus x;
            m_device := bdf_device x; m_function := bdf_function x |}.
Proof.
  intros Hs Hx.
  apply hex_of_len_4 in Hs as (g1 & g2 & g3 & g4 & -> & H1 & H2 & H3 & H4).
  apply bdf_ok_inv in Hx as (b1 & b2 & d1 & d2 & f & -> & ? & ? & ? & ? & ?).
  unfold sbdf_name, sbdf_regex_match. simpl bdf_bus. simpl bdf_device.
  simpl bdf_function. strs.
  cbn [startswith]. rewrite (hex_differs' g1 "p") by done. cbn [andb].
  unfold match_seg_bdf. hexes. cbn [andb is_sep_uc ascii_eqb Ascii.eqb orb].
  change (is_sep_uc ":") with true. cbv iota.
  rewrite match_bdf_name by done. reflexivity.
Qed.

Lemma match_bdf_inv seg s m :
  match_bdf seg s = Some m ->
  m_segment m = seg /\ bdf_ok (bdf_of_match m) = true.
Proof.
  unfold match_bdf.
  destruct s as [|b1 [|b2 [|s1 [|d1 [|d2 [|s2 [|f [|]]]]]]]]; try discriminate.
  destruct (is_hex b1) eqn:?, (is_hex b2) eqn:?, (is_sep_uc s1),
    (is_hex d1) eqn:?, (is_hex d2) eqn:?, (is_sep_du s2), (is_hex f) eqn:?;
    simpl; try discriminate.
  intros [= <-]. split; [reflexivity|].
  unfold bdf_ok, hex_of_len. simpl. hexes. reflexivity.
Qed.

Lemma match_seg_bdf_inv s m :
  match_seg_bdf s = Some m ->
  segment_ok (segment_of_match m) = true /\ bdf_ok (bdf_of_match m) = true.
Proof.
  assert (Hnone : match_bdf None s = Some m ->
            segment_ok (segment_of_match m) = true
            /\ bdf_ok (bdf_of_match m) = true).
  { intros H. apply match_bdf_inv in H as [Hs Hb]. split; [|done].
    unfold segment_of_match. rewrite Hs. reflexivity. }
  unfold match_seg_bdf.
  destruct s as [|g1 [|g2 [|g3 [|g4 [|s0 rest]]]]]; try exact Hnone.
  destruct (is_hex g1 && is_hex g2 && is_hex g3 && is_hex g4 && is_sep_uc s0)
    eqn:Hg; [|exact Hnone].
  destruct (match_bdf (Some _) rest) as [m'|] eqn:Hm; [|exact Hnone].
  intros [= ->]. apply match_bdf_inv in Hm as [Hs Hb]. split; [|done].
  unfold segment_of_match. rewrite Hs. simpl.
  rewrite !andb_true_iff in Hg. destruct Hg as [[[[? ?] ?] ?] _].
  unfold segment_ok, hex_of_len. simpl. hexes. reflexivity.
Qed.

(** Whatever text the device regex accepts, it denotes a segment of
    four and an address of two, two and one hex digits. *)
Lemma sbdf_regex_match_inv s m :
  sbdf_regex_match s = Some m ->
  segment_ok (segment_of_match m) = true /\ bdf_ok (bdf_of_match m) = true.
Proof.
  unfold sbdf_regex_match. destruct (startswith "pci_" s).
  - destruct (match_seg_bdf (drop 4 s)) as [m'|] eqn:Hm.
    + intros [= ->]. by apply match_seg_bdf_inv in Hm.
    + apply match_seg_bdf_inv.
  - apply match_seg_bdf_inv.
Qed.

Lemma file_of_part name :
  sysfs_pci_devs_base +:+ "/" +:+ name +:+ "/secondary_bus_number"
  = secondary_bus_number_file name.
Proof. reflexivity. Qed.

(** On the names of a chain, the loop of [sbdf_to_path] appends the
    hops of the chain. *)
Lemma sbdf_to_path_loop_walk fs segment o chain :
  segment_ok segment = true ->
  walk fs segment o chain ->
  forall acc,
    sbdf_to_path_loop fs (map (sbdf_name segment) chain) o acc
    = Ok (acc ++ encoded_hops fs segment o chain).
Proof.
  intros Hseg. induction 1 as [o|o o' x rest Hx Ho Hle Hread Hwalk IH];
    intros acc.
  - simpl. by rewrite List.app_nil_r.
  - cbn [map sbdf_to_path_loop].
    destruct (Z.eqb_spec o (-1)) as [?|_]; [done|].
    rewrite sbdf_regex_match_name by done. cbn [m_bus m_device m_function].
    destruct (Z.ltb_spec (int16 (bdf_bus x)) o) as [?|_]; [lia|].
    rewrite file_of_part, Hread, IH.
    cbn [encoded_hops]. unfold offset_below. rewrite Hread.
    rewrite <- List.app_assoc. reflexivity.
Qed.

Lemma hop_regex_match_hop n x :
  0 <= n -> bdf_ok x = true ->
  hop_regex_match (hop_text n x)
  = Some (fmt_02x n, bdf_device x, bdf_function x).
Proof.
  intros Hn Hx. destruct (fmt_02x_nonneg n Hn) as (_ & Hhex & Hne).
  apply bdf_ok_inv in Hx as (b1 & b2 & d1 & d2 & f & -> & ? & ? & ? & ? & ?).
  unfold hop_text, hop_regex_match. cbn [bdf_device bdf_function].
  change (fmt_02x n +:+ "_" +:+ String d1 (String d2 EmptyString) +:+ "."
            +:+ String f EmptyString)
    with (fmt_02x n
            +:+ String "_" (String d1 (String d2 EmptyString)
                              +:+ String "." (String f EmptyString))).
  apply match_hex3_built; try done; simpl; hexes; reflexivity.
Qed.

Lemma segment_re_match_hop x :
  bdf_ok x = true ->
  segment_re_match (hop_text (int16 (bdf_bus x) - 0) x) = None.
Proof.
  intros Hx.
  apply bdf_ok_inv in Hx as (b1 & b2 & d1 & d2 & f & -> & ? & ? & ? & ? & ?).
  unfold hop_text. cbn [bdf_bus bdf_device bdf_function].
  rewrite Z.sub_0_r, fmt_02x_int16 by done.
  strs. unfold segment_re_match.
  hexes. reflexivity.
Qed.

Lemma sbdf_name_fmt segment x :
  bdf_ok x = true ->
  segment +:+ ":" +:+ fmt_02x (int16 (bdf_bus x)) +:+ ":" +:+ bdf_device x
    +:+ "." +:+ bdf_function x
  = sbdf_name segment x.
Proof.
  intros Hx.
  apply bdf_ok_inv in Hx as (b1 & b2 & d1 & d2 & f & -> & ? & ? & ? & ? & ?).
  cbn [bdf_bus]. rewrite fmt_02x_int16 by done. reflexivity.
Qed.

(** One turn of the loop of [path_to_sbdf] on a hop of a chain. *)
Lemma path_to_sbdf_loop_hop fs segment o o' x hops cur :
  bdf_ok x = true -> o <> -1 -> o <= int16 (bdf_bus x) ->
  read_bus_offset fs (secondary_bus_number_file (sbdf_name segment x))
    = Ok o' ->
  path_to_sbdf_loop fs (hop_text (int16 (bdf_bus x) - o) x :: hops)
    segment o cur
  = path_to_sbdf_loop fs hops segment o' (sbdf_name segment x).
Proof.
  intros Hx Ho Hle Hread. cbn [path_to_sbdf_loop].
  destruct (Z.eqb_spec o (-1)) as [?|_]; [done|].
  assert (Hsame :
    (if o =? 0
     then match segment_re_match (hop_text (int16 (bdf_bus x) - o) x) with
          | Some (seg, rest_part) => (seg, rest_part)
          | None => (segment, hop_text (int16 (bdf_bus x) - o) x)
          end
     else (segment, hop_text (int16 (bdf_bus x) - o) x))
    = (segment, hop_text (int16 (bdf_bus x) - o) x)).
  { destruct (Z.eqb_spec o 0) as [->|_]; [|reflexivity].
    by rewrite segment_re_match_hop. }
  rewrite Hsame. rewrite hop_regex_match_hop; [|lia|done].
  destruct (fmt_02x_nonneg (int16 (bdf_bus x) - o) ltac:(lia))
    as (Hint & _ & _).
  rewrite Hint.
  replace (int16 (bdf_bus x) - o + o) with (int16 (bdf_bus x)) by lia.
  rewrite sbdf_name_fmt by done.
  change (SYSFS_BASE +:+ "/bus/pci/devices/" +:+ sbdf_name segment x
            +:+ "/secondary_bus_number")
    with (secondary_bus_number_file (sbdf_name segment x)).
  by rewrite Hread.
Qed.

(** On the hops of a chain, the loop of [path_to_sbdf] ends at the name
    of the last device of the chain. *)
Lemma path_to_sbdf_loop_walk fs segment o chain :
  walk fs segment o chain ->
  forall cur,
    path_to_sbdf_loop fs (encoded_hops fs segment o chain) segment o cur
    = Ok (default cur (sbdf_name segment <$> last chain)).
Proof.
  induction 1 as [o|o o' x rest Hx Ho Hle Hread Hwalk IH]; intros cur.
  - reflexivity.
  - cbn [encoded_hops]. unfold offset_below. rewrite Hread.
    erewrite path_to_sbdf_loop_hop by done. rewrite IH.
    rewrite last_cons. by destruct (last rest).
Qed.

Lemma hex_no_dash s : all is_hex s = true -> no_char "-" s = true.
Proof.
  apply all_impl. intros c Hc. by rewrite (hex_differs c "-").
Qed.

Lemma hop_text_no_dash n x :
  0 <= n -> bdf_ok x = true -> no_char "-" (hop_text n x) = true.
Proof.
  intros Hn Hx. destruct (fmt_02x_nonneg n Hn) as (_ & Hhex & _).
  apply bdf_ok_inv in Hx as (b1 & b2 & d1 & d2 & f & -> & ? & ? & ? & ? & ?).
  unfold hop_text, no_char. rewrite all_app. fold (no_char "-" (fmt_02x n)).
  rewrite (hex_no_dash (fmt_02x n)) by done. cbn [bdf_device bdf_function].
  strs. cbn [all andb].
  rewrite (hex_differs d1 "-"), (hex_differs d2 "-"), (hex_differs f "-")
    by done.
  reflexivity.
Qed.

Lemma encoded_hops_no_dash fs segment o chain :
  walk fs segment o chain ->
  Forall (fun s => no_char "-" s = true) (encoded_hops fs segment o chain).
Proof.
  induction 1 as [o|o o' x rest Hx Ho Hle Hread Hwalk IH]; [constructor|].
  cbn [encoded_hops]. constructor.
  - apply hop_text_no_dash; [lia|done].
  - unfold offset_below. by rewrite Hread.
Qed.

Lemma segment_re_match_prefixed segment x :
  segment_ok segment = true -> bdf_ok x = true ->
  segment_re_match
    ((segment +:+ "_") +:+ hop_text (int16 (bdf_bus x) - 0) x)
  = Some (segment, hop_text (int16 (bdf_bus x) - 0) x).
Proof.
  intros Hs Hx.
  apply hex_of_len_4 in Hs as (g1 & g2 & g3 & g4 & -> & ? & ? & ? & ?).
  apply bdf_ok_inv in Hx as (b1 & b2 & d1 & d2 & f & -> & ? & ? & ? & ? & ?).
  unfold hop_text. cbn [bdf_bus bdf_device bdf_function].
  rewrite Z.sub_0_r, fmt_02x_int16 by done.
  strs. unfold segment_re_match.
  hexes. cbn [all andb]. unfold not_newline.
  rewrite (hex_differs b1 newline), (hex_differs b2 newline),
    (hex_differs d1 newline), (hex_differs d2 newline),
    (hex_differs f newline) by done.
  reflexivity.
Qed.

Lemma path_to_sbdf_loop_prefixed fs p segment hop hops segment0 cur :
  segment_re_match p = Some (segment, hop) ->
  segment_re_match hop = None ->
  path_to_sbdf_loop fs (p :: hops) segment0 0 cur
  = path_to_sbdf_loop fs (hop :: hops) segment 0 cur.
Proof.
  intros Hp Hhop. cbn [path_to_sbdf_loop].
  change (0 =? -1) with false. change (0 =? 0) with true. cbv iota.
  by rewrite Hp, Hhop.
Qed.

(** The path of a chain decodes to the name of its last device. *)
Lemma path_to_sbdf_path_text fs segment chain x :
  segment_ok segment = true ->
  walk fs segment 0 chain ->
  last chain = Some x ->
  path_to_sbdf fs (path_text segment (encoded_hops fs segment 0 chain))
  = Ok (sbdf_name segment x).
Proof.
  intros Hs Hwalk Hlast.
  pose proof (path_to_sbdf_loop_walk fs segment 0 chain Hwalk) as Hloop.
  rewrite Hlast in Hloop. simpl in Hloop.
  pose proof (encoded_hops_no_dash _ _ _ _ Hwalk) as Hdash.
  destruct chain as [|y rest]; [discriminate|].
  inversion Hwalk as [|? o' ? ? Hy Ho Hle Hread Hwalk']; subst.
  cbn [encoded_hops] in *. unfold path_to_sbdf, path_text.
  destruct (String.eqb_spec segment "0000") as [->|Hne].
  - rewrite split_join by done. apply Hloop.
  - rewrite <- str_app_assoc. rewrite split_prefix_join; [|..|done].
    + erewrite path_to_sbdf_loop_prefixed;
        [apply Hloop|by apply segment_re_match_prefixed
                    |by apply segment_re_match_hop].
    + unfold no_char. rewrite all_app. fold (no_char "-" segment).
      unfold segment_ok, hex_of_len in Hs. apply andb_true_iff in Hs as [_ Hs].
      by rewrite (hex_no_dash segment).
Qed.

Lemma renumbered_hops fs fs' segment o o' chain chain' :
  renumbered fs fs' segment o o' chain chain' ->
  encoded_hops fs' segment o' chain' = encoded_hops fs segment o chain.
Proof.
  induction 1 as [|o o' x x' rest rest' Hd Hf Hb Hrest IH]; [reflexivity|].
  cbn [encoded_hops]. rewrite IH. unfold hop_text. by rewrite Hd, Hf, Hb.
Qed.

Lemma walk_single_hops fs segment x :
  bdf_ok x = true ->
  encoded_hops fs segment 0 [x]
  = [bdf_bus x +:+ "_" +:+ bdf_device x +:+ "." +:+ bdf_function x].
Proof.
  intros Hx. cbn [encoded_hops]. unfold hop_text.
  apply bdf_ok_inv in Hx as (b1 & b2 & d1 & d2 & f & -> & ? & ? & ? & ? & ?).
  cbn [bdf_bus]. by rewrite Z.sub_0_r, fmt_02x_int16.
Qed.

(** What [sbdf_to_path] returns for a device on a root bus. *)
Lemma sbdf_to_path_root fs device_id m :
  sbdf_regex_match device_id = Some m ->
  in_list (segment_of_match m +:+ ":" +:+ bdf_bus (bdf_of_match m))
    (root_buses fs) = true ->
  sbdf_to_path fs device_id
  = Ok (Some (path_text (segment_of_match m)
                (encoded_hops fs (segment_of_match m) 0 [bdf_of_match m]))).
Proof.
  intros Hm Hroot. destruct (sbdf_regex_match_inv _ _ Hm) as [Hs Hx].
  unfold sbdf_to_path. rewrite Hm.
  fold (segment_of_match m). change (m_bus m) with (bdf_bus (bdf_of_match m)).
  rewrite Hroot. rewrite walk_single_hops by done. unfold path_text.
  destruct (String.eqb (segment_of_match m) "0000"); [reflexivity|].
  by rewrite str_app_assoc.
Qed.

(** What [sbdf_to_path] returns for a device behind bridges. *)
Lemma sbdf_to_path_chain fs device_id m chain :
  sbdf_regex_match device_id = Some m ->
  behind_bridges fs (segment_of_match m) (bdf_of_match m) chain ->
  sbdf_to_path fs device_id
  = Ok (Some (path_text (segment_of_match m)
                (encoded_hops fs (segment_of_match m) 0 chain))).
Proof.
  intros Hm (Hroot & sysfs_path & rel_links & found & path & Hlink & Hpart
             & Hnorm & Hsplit & Hlast & Hwalk).
  destruct (sbdf_regex_match_inv _ _ Hm) as [Hs Hx].
  unfold sbdf_to_path. rewrite Hm.
  fold (segment_of_match m). change (m_bus m) with (bdf_bus (bdf_of_match m)).
  rewrite Hroot.
  change (segment_of_match m +:+ ":" +:+ bdf_bus (bdf_of_match m) +:+ ":"
            +:+ m_device m +:+ "." +:+ m_function m)
    with (sbdf_name (segment_of_match m) (bdf_of_match m)).
  rewrite Hlink, Hpart, Hnorm, String.eqb_refl. cbn [negb].
  rewrite Hsplit, sbdf_to_path_loop_walk by done. unfold path_text.
  cbn [app]. by destruct (String.eqb (segment_of_match m) "0000").
Qed.

(** Chains numbered the way PCI numbers buses are chains that the codec
    walks, and two such chains with the same slots are renumberings of
    each other. *)
Lemma int16_nonneg x : bdf_ok x = true -> 0 <= int16 (bdf_bus x).
Proof.
  intros Hx.
  apply bdf_ok_inv in Hx as (b1 & b2 & d1 & d2 & f & -> & Hb1 & Hb2 & _).
  unfold int16. simpl.
  destruct (hex_digit_val _ Hb1) as [_ ?], (hex_digit_val _ Hb2) as [_ ?].
  lia.
Qed.

Lemma seated_walk fs segment o chain :
  Forall (fun x => bdf_ok x = true) chain ->
  Forall (number_readable fs segment) chain ->
  seated fs segment o chain ->
  walk fs segment o chain.
Proof.
  intros Hok Hread Hseated. revert Hok Hread.
  induction Hseated as [o|o x rest Hbus Hrest IH]; intros Hok Hread;
    [constructor|].
  apply Forall_cons in Hok as [Hx Hok].
  apply Forall_cons in Hread as [[o' Ho'] Hread].
  pose proof (int16_nonneg x Hx) as Hnonneg.
  apply walk_cons with (o' := o'); [done|lia|lia|done|].
  unfold offset_below in IH. rewrite Ho' in IH. by apply IH.
Qed.

Lemma first_seated_walk fs segment x rest :
  Forall (fun y => bdf_ok y = true) (x :: rest) ->
  Forall (number_readable fs segment) (x :: rest) ->
  seated fs segment (offset_below fs segment x) rest ->
  walk fs segment 0 (x :: rest).
Proof.
  intros Hok Hread Hseated.
  apply Forall_cons in Hok as [Hx Hok].
  apply Forall_cons in Hread as [[o' Ho'] Hread].
  pose proof (int16_nonneg x Hx) as Hnonneg.
  apply walk_cons with (o' := o'); [done|lia|lia|done|].
  unfold offset_below in Hseated. rewrite Ho' in Hseated.
  by apply seated_walk.
Qed.

Lemma seated_renumbered fs fs' segment o o' chain chain' :
  Forall2 same_slot chain chain' ->
  seated fs segment o chain ->
  seated fs' segment o' chain' ->
  renumbered fs fs' segment o o' chain chain'.
Proof.
  intros Hslots. revert o o'.
  induction Hslots as [|x x' rest rest' [Hd Hf] _ IH]; intros o o' Hs Hs';
    [constructor|].
  inversion Hs as [|? ? ? Hbus Hrest]; subst.
  inversion Hs' as [|? ? ? Hbus' Hrest']; subst.
  apply renumbered_cons; [done|done|lia|]. by apply IH.
Qed.

Lemma first_seated_renumbered fs fs' segment x x' rest rest' :
  bdf_bus x' = bdf_bus x ->
  Forall2 same_slot (x :: rest) (x' :: rest') ->
  seated fs segment (offset_below fs segment x) rest ->
  seated fs' segment (offset_below fs' segment x') rest' ->
  renumbered fs fs' segment 0 0 (x :: rest) (x' :: rest').
Proof.
  intros Hbus Hslots Hs Hs'.
  apply Forall2_cons in Hslots as [[Hd Hf] Hslots].
  apply renumbered_cons; [done|done|by rewrite Hbus|].
  by apply seated_renumbered.
Qed.

(** C1: round trip of the topology codec.  For every device of the live
    tree, on a root bus or behind one or more bridges, and for every
    spelling [device_id] of its address that [sbdf_to_path] accepts
    ([0000:02:03.0], [02_03.0], [pci_0000_02_03_0], ...), [sbdf_to_path]
    returns a path, and [path_to_sbdf] maps this path, read against the
    same tree, to the address of the device, written [ssss:bb:dd.f]. *)
Theorem sbdf_path_roundtrip (fs : sysfs) (device_id : string) (m : dev_match) :
  sbdf_regex_match device_id = Some m ->
  reachable fs (segment_of_match m) (bdf_of_match m) ->
  exists path,
    sbdf_to_path fs device_id = Ok (Some path)
    /\ path_to_sbdf fs path
       = Ok (sbdf_name (segment_of_match m) (bdf_of_match m)).
Proof.
  intros Hm Hreach. destruct (sbdf_regex_match_inv _ _ Hm) as [Hs Hx].
  destruct Hreach as [[Hroot Hwalk]|[chain Hchain]].
  - eexists. split; [by apply sbdf_to_path_root|].
    by apply path_to_sbdf_path_text.
  - eexists. split; [by eapply sbdf_to_path_chain|].
    destruct Hchain as (_ & _ & _ & _ & _ & _ & _ & _ & _ & Hlast & Hwalk).
    by apply path_to_sbdf_path_text.
Qed.

(** C2: stability under renumbering.  Take a device behind a chain of
    bridges in a tree [fs], and the same device in a tree [fs'] where
    secondary bus numbers changed: the chain has the same device and
    function slots, and the bus of every device moved with the secondary
    bus number of the bridge above it.  Then [sbdf_to_path] gives the
    same path before and after (the two paths differ in no slot and in
    no bus field), and [path_to_sbdf] maps the path computed before the
    change, read against the renumbered tree, to the new address of the
    device. *)
Theorem path_stable_under_renumbering (fs fs' : sysfs)
    (device_id device_id' : string) (m m' : dev_match)
    (chain chain' : list bdf) :
  sbdf_regex_match device_id = Some m ->
  sbdf_regex_match device_id' = Some m' ->
  segment_of_match m' = segment_of_match m ->
  behind_bridges fs (segment_of_match m) (bdf_of_match m) chain ->
  behind_bridges fs' (segment_of_match m) (bdf_of_match m') chain' ->
  renumbered fs fs' (segment_of_match m) 0 0 chain chain' ->
  exists path,
    sbdf_to_path fs device_id = Ok (Some path)
    /\ sbdf_to_path fs' device_id' = Ok (Some path)
    /\ path_to_sbdf fs' path
       = Ok (sbdf_name (segment_of_match m) (bdf_of_match m')).
Proof.
  intros Hm Hm' Hseg Hchain Hchain' Hren.
  destruct (sbdf_regex_match_inv _ _ Hm) as [Hs Hx].
  pose proof (sbdf_to_path_chain fs' device_id' m' chain' Hm') as Hpath'.
  rewrite Hseg in Hpath'. specialize (Hpath' Hchain').
  exists (path_text (segment_of_match m)
            (encoded_hops fs (segment_of_match m) 0 chain)).
  split; [by eapply sbdf_to_path_chain|].
  rewrite <- (renumbered_hops _ _ _ _ _ _ _ Hren).
  split; [exact Hpath'|].
  destruct Hchain' as (_ & _ & _ & _ & _ & _ & _ & _ & _ & Hlast & Hwalk).
  by apply path_to_sbdf_path_text.
Qed.

(** C10: a well-formed identifier of a device that is on no root bus and
    has no link in [/sys/bus/pci/devices] makes [sbdf_to_path] return
    [None] without raising, and [load_extras] then keeps the identifier
    it read as the port id. *)
Theorem absent_device_keeps_legacy_id (fs : sysfs) (port_id : string)
    (m : dev_match) :
  sbdf_regex_match port_id = Some m ->
  in_list (segment_of_match m +:+ ":" +:+ m_bus m) (root_buses fs) = false ->
  readlink fs (sysfs_pci_devs_base +:+ "/"
                 +:+ sbdf_name (segment_of_match m) (bdf_of_match m)) = None ->
  sbdf_to_path fs port_id = Ok None
  /\ Vm.load_extras_port_id fs "pci" port_id = Ok port_id.
Proof.
  intros Hm Hroot Hlink.
  assert (Hpath : sbdf_to_path fs port_id = Ok None).
  { unfold sbdf_to_path. rewrite Hm. fold (segment_of_match m).
    rewrite Hroot.
    change (segment_of_match m +:+ ":" +:+ m_bus m +:+ ":" +:+ m_device m
              +:+ "." +:+ m_function m)
      with (sbdf_name (segment_of_match m) (bdf_of_match m)).
    by rewrite Hlink. }
  split; [exact Hpath|].
  unfold Vm.load_extras_port_id. rewrite Hpath.
  by destruct (_ && _).
Qed.

(** One turn of the loop of [path_to_sbdf], whatever follows. *)
Lemma path_to_sbdf_loop_more fs hops : forall segment o cur more last_dev,
  hops <> [] ->
  path_to_sbdf_loop fs hops segment o cur = Ok last_dev ->
  read_text fs (secondary_bus_number_file last_dev) = None ->
  path_to_sbdf_loop fs (hops ++ more) segment o cur
  = match more with
    | [] => Ok last_dev
    | _ :: _ => Raise AssertionError
    end.
Proof.
  induction hops as [|part hops IH];
    intros segment o cur more last_dev Hne Hrun Habsent; [done|].
  cbn [app path_to_sbdf_loop] in *.
  destruct (o =? -1); [discriminate|].
  destruct (if o =? 0 then _ else _) as [segment' part'].
  destruct (hop_regex_match part') as [[[b d] f]|]; [|discriminate].
  set (current_dev := segment' +:+ ":" +:+ _ +:+ ":" +:+ d +:+ "." +:+ f) in *.
  destruct (read_bus_offset fs _) as [o'|e] eqn:Hread; [|discriminate].
  destruct hops as [|part2 hops].
  - cbn [app path_to_sbdf_loop] in *. injection Hrun as <-.
    change (SYSFS_BASE +:+ "/bus/pci/devices/" +:+ current_dev
              +:+ "/secondary_bus_number")
      with (secondary_bus_number_file current_dev) in Hread.
    unfold read_bus_offset in Hread. rewrite Habsent in Hread.
    injection Hread as <-. destruct more; reflexivity.
  - by apply IH.
Qed.

(** C6, as the code has it: let [head] be the path up to some hop, [dev]
    the live address that [path_to_sbdf] finds for this hop, and let
    [dev] report no secondary bus number.  When the hop is the last one
    of the path, [path_to_sbdf] returns [dev]; when hops remain, it
    fails with [AssertionError]. *)
Theorem path_to_sbdf_terminal_hop (fs : sysfs) (path head : string)
    (more : list string) (dev : string) :
  split "-" path = split "-" head ++ more ->
  path_to_sbdf fs head = Ok dev ->
  read_text fs (secondary_bus_number_file dev) = None ->
  path_to_sbdf fs path
  = match more with
    | [] => Ok dev
    | _ :: _ => Raise AssertionError
    end.
Proof.
  unfold path_to_sbdf. intros -> Hhead Habsent.
  apply path_to_sbdf_loop_more; [apply split_nonempty|done..].
Qed.

Lemma startswith_same_len r p rest :
  len r = len p -> startswith r (p +:+ rest) = String.eqb r p.
Proof.
  revert p. induction r as [|a r IH]; intros [|b p] Hlen; try discriminate.
  - reflexivity.
  - rewrite str_app_cons. simpl in *. rewrite IH by lia.
    unfold ascii_eqb. by destruct (Ascii.eqb a b).
Qed.

Lemma drop_len_app r p rest : len r = len p -> drop (len r) (p +:+ rest) = rest.
Proof.
  revert p. induction r as [|a r IH]; intros [|b p] Hlen; try discriminate.
  - reflexivity.
  - rewrite str_app_cons. simpl in *. apply IH. lia.
Qed.

Lemma is_root_name_len r : is_root_name r = true -> len r = 7%nat.
Proof.
  unfold is_root_name.
  destruct r as [|g1 [|g2 [|g3 [|g4 [|u [|b1 [|b2 [|]]]]]]]]; done.
Qed.

Lemma join_flat_ids x xs :
  join "-" (map flat_id (x :: xs)) = flat_id x +:+ more_hops xs.
Proof.
  revert x. induction xs as [|y xs IH]; intros x.
  - simpl. by rewrite str_app_nil_r.
  - change (join "-" (map flat_id (x :: y :: xs)))
      with (flat_id x +:+ "-" +:+ join "-" (map flat_id (y :: xs))).
    rewrite IH. cbn [more_hops]. reflexivity.
Qed.

Lemma match_more_hops_flat xs :
  Forall (fun x => bdf_ok x = true) xs -> match_more_hops (more_hops xs) = true.
Proof.
  induction 1 as [|x xs Hx _ IH]; [reflexivity|].
  apply bdf_ok_inv in Hx as (b1 & b2 & d1 & d2 & f & -> & ? & ? & ? & ? & ?).
  cbn [more_hops]. unfold flat_id. cbn [bdf_bus bdf_device bdf_function].
  strs. cbn [match_more_hops]. hexes. by rewrite IH.
Qed.

(** What [is_pci_path] decides on an identifier that starts with the
    seven characters [p] of a root name and goes on with hops. *)
Lemma existsb_root_alternatives roots p x0 xs :
  Forall (fun r => is_root_name r = true) roots ->
  is_root_name p = true ->
  bdf_ok x0 = true -> Forall (fun x => bdf_ok x = true) xs ->
  let device_id :=
    p +:+ "_" +:+ bdf_device x0 +:+ "." +:+ bdf_function x0 +:+ more_hops xs in
  existsb (fun root => startswith root device_id
                       && match_after_root (drop (len root) device_id))
    (match roots with [] => [EmptyString] | r :: l => r :: l end)
  = in_list p roots.
Proof.
  intros Hroots Hp Hx0 Hxs device_id.
  assert (Hafter : match_after_root
            ("_" +:+ bdf_device x0 +:+ "." +:+ bdf_function x0
               +:+ more_hops xs) = true).
  { apply bdf_ok_inv in Hx0 as (b1 & b2 & d1 & d2 & f & -> & ? & ? & ? & ? & ?).
    cbn [bdf_device bdf_function]. strs. unfold match_after_root. hexes.
    by rewrite match_more_hops_flat. }
  destruct roots as [|r0 roots].
  - cbn [existsb in_list]. subst device_id.
    unfold is_root_name in Hp.
    destruct p as [|g1 [|g2 [|g3 [|g4 [|u [|b1 [|b2 [|]]]]]]]]; try done.
    destruct (is_hex g1) eqn:Hg1; [|done].
    strs. cbn [startswith len drop andb orb]. unfold match_after_root.
    by rewrite (hex_differs g1 "_").
  - unfold in_list. generalize dependent (r0 :: roots). clear r0 roots.
    intros roots Hroots. induction Hroots as [|r roots Hr _ IH]; [reflexivity|].
    cbn [existsb]. rewrite IH. f_equal. subst device_id.
    apply is_root_name_len in Hr, Hp.
    rewrite startswith_same_len, drop_len_app by congruence.
    rewrite Hafter, andb_true_r. apply String.eqb_sym.
Qed.

(** C7, as the code has it: on a tree whose PCI roots have names of the
    form [pciSSSS:BB], an identifier made of one hop [bb_dd.f] (a legacy
    flat identifier) or of several hops joined by dashes is a path for
    [is_pci_path] exactly when segment and bus of its first hop name a
    root bus: segment [0000] when the identifier has no prefix, the
    segment of the prefix otherwise. *)
Theorem is_pci_path_iff_root_bus (fs : sysfs) (segment : string) (x : bdf)
    (xs : list bdf) :
  root_names_ok fs ->
  segment_ok segment = true ->
  Forall (fun y => bdf_ok y = true) (x :: xs) ->
  let hops := join "-" (map flat_id (x :: xs)) in
  is_pci_path fs hops = in_list ("0000_" +:+ bdf_bus x) (root_buses_us fs)
  /\ is_pci_path fs (segment +:+ "_" +:+ hops)
     = in_list (segment +:+ "_" +:+ bdf_bus x) (root_buses_us fs).
Proof.
  intros Hroots Hs Hall hops. subst hops.
  apply Forall_cons in Hall as [Hx Hxs].
  rewrite join_flat_ids.
  assert (Hname : forall seg, segment_ok seg = true ->
            is_root_name (seg +:+ "_" +:+ bdf_bus x) = true).
  { intros seg Hseg.
    apply hex_of_len_4 in Hseg as (g1 & g2 & g3 & g4 & -> & ? & ? & ? & ?).
    pose proof Hx as Hx'.
    apply bdf_ok_inv in Hx' as (b1 & b2 & d1 & d2 & f & -> & ? & ? & ? & ? & ?).
    cbn [bdf_bus]. strs. unfold is_root_name. hexes. reflexivity. }
  assert (Hflat : forall seg,
            (seg +:+ "_" +:+ bdf_bus x) +:+ "_" +:+ bdf_device x +:+ "."
              +:+ bdf_function x +:+ more_hops xs
            = seg +:+ "_" +:+ flat_id x +:+ more_hops xs).
  { intros seg. unfold flat_id. by rewrite !str_app_assoc. }
  split.
  - unfold is_pci_path.
    assert (Hthird : (2 <? len (flat_id x +:+ more_hops xs))%nat
              && String.eqb (take 1 (drop 2 (flat_id x +:+ more_hops xs))) "_"
              = true).
    { pose proof Hx as Hx'.
      apply bdf_ok_inv in Hx' as (b1 & b2 & d1 & d2 & f & -> & _).
      unfold flat_id. cbn [bdf_bus bdf_device bdf_function]. strs.
      reflexivity. }
    rewrite Hthird.
    change ("0000_" +:+ flat_id x +:+ more_hops xs)
      with ("0000" +:+ "_" +:+ flat_id x +:+ more_hops xs).
    rewrite <- Hflat.
    exact (existsb_root_alternatives (root_buses_us fs)
             ("0000" +:+ "_" +:+ bdf_bus x) x xs Hroots (Hname "0000" eq_refl)
             Hx Hxs).
  - unfold is_pci_path.
    assert (Hthird :
              (2 <? len (segment +:+ "_" +:+ flat_id x +:+ more_hops xs))%nat
              && String.eqb
                   (take 1 (drop 2 (segment +:+ "_" +:+ flat_id x
                                      +:+ more_hops xs))) "_"
              = false).
    { apply hex_of_len_4 in Hs as (g1 & g2 & g3 & g4 & -> & _ & _ & Hg3 & _).
      strs. cbn [len drop take Nat.ltb Nat.leb andb].
      destruct (String.eqb_spec (String g3 EmptyString) "_") as [E|]; [|done].
      injection E as ->. vm_compute in Hg3. discriminate Hg3. }
    rewrite Hthird. rewrite <- Hflat.
    exact (existsb_root_alternatives (root_buses_us fs)
             (segment +:+ "_" +:+ bdf_bus x) x xs Hroots (Hname segment Hs)
             Hx Hxs).
Qed.

Lemma one_bridge_behind :
  behind_bridges Samples.one_bridge "0000" Samples.device_02_00_0
    Samples.chain_before.
Proof.
  split; [reflexivity|].
  exists "../../../devices/pci0000:00/0000:00:03.0/0000:02:00.0",
    "../../../devices", true, "00/0000:00:03.0/0000:02:00.0".
  repeat split; try reflexivity.
  apply walk_cons with (o' := 2);
    [reflexivity|lia|vm_compute; discriminate|reflexivity|].
  apply walk_cons with (o' := -1);
    [reflexivity|lia|vm_compute; discriminate|reflexivity|].
  apply walk_nil.
Qed.

Lemma one_bridge_renumbered_behind :
  behind_bridges Samples.one_bridge_renumbered "0000" Samples.device_05_00_0
    Samples.chain_after.
Proof.
  split; [reflexivity|].
  exists "../../../devices/pci0000:00/0000:00:03.0/0000:05:00.0",
    "../../../devices", true, "00/0000:00:03.0/0000:05:00.0".
  repeat split; try reflexivity.
  apply walk_cons with (o' := 5);
    [reflexivity|lia|vm_compute; discriminate|reflexivity|].
  apply walk_cons with (o' := -1);
    [reflexivity|lia|vm_compute; discriminate|reflexivity|].
  apply walk_nil.
Qed.

Lemma one_bridge_renumbering :
  renumbered Samples.one_bridge Samples.one_bridge_renumbered "0000" 0 0
    Samples.chain_before Samples.chain_after.
Proof.
  apply renumbered_cons; [reflexivity..|].
  apply renumbered_cons; [reflexivity..|].
  apply renumbered_nil.
Qed.

Lemma sbdf_path_roundtrip_witness :
  exists path,
    sbdf_to_path Samples.one_bridge "pci_0000_02_00_0" = Ok (Some path)
    /\ path_to_sbdf Samples.one_bridge path = Ok "0000:02:00.0".
Proof.
  apply (sbdf_path_roundtrip Samples.one_bridge "pci_0000_02_00_0"
           Samples.match_02_00_0).
  - reflexivity.
  - right. eexists. exact one_bridge_behind.
Defined.

Lemma path_stable_under_renumbering_witness :
  exists path,
    sbdf_to_path Samples.one_bridge "0000:02:00.0" = Ok (Some path)
    /\ sbdf_to_path Samples.one_bridge_renumbered "05_00.0" = Ok (Some path)
    /\ path_to_sbdf Samples.one_bridge_renumbered path = Ok "0000:05:00.0".
Proof.
  apply (path_stable_under_renumbering Samples.one_bridge
           Samples.one_bridge_renumbered "0000:02:00.0" "05_00.0"
           Samples.match_02_00_0 Samples.match_05_00_0
           Samples.chain_before Samples.chain_after).
  - reflexivity.
  - reflexivity.
  - reflexivity.
  - exact one_bridge_behind.
  - exact one_bridge_renumbered_behind.
  - exact one_bridge_renumbering.
Defined.

Lemma absent_device_keeps_legacy_id_witness :
  sbdf_to_path Samples.one_bridge "03_00.0" = Ok None
  /\ Vm.load_extras_port_id Samples.one_bridge "pci" "03_00.0" = Ok "03_00.0".
Proof.
  exact (absent_device_keeps_legacy_id Samples.one_bridge "03_00.0"
           {| m_segment := None; m_bus := "03"; m_device := "00";
              m_function := "0" |} eq_refl eq_refl eq_refl).
Defined.

Lemma path_to_sbdf_terminal_hop_witness :
  path_to_sbdf Samples.one_bridge "00_03.0-00_00.0" = Ok "0000:02:00.0"
  /\ path_to_sbdf Samples.one_bridge "02_00.0-00_00.0" = Raise AssertionError.
Proof.
  split.
  - exact (path_to_sbdf_terminal_hop Samples.one_bridge "00_03.0-00_00.0"
             "00_03.0-00_00.0" [] "0000:02:00.0" eq_refl eq_refl eq_refl).
  - exact (path_to_sbdf_terminal_hop Samples.one_bridge "02_00.0-00_00.0"
             "02_00.0" ["00_00.0"] "0000:02:00.0" eq_refl eq_refl eq_refl).
Defined.

(** C6, as the specification has it, fails: device [02:00.0] reports no
    secondary bus number, and a path with a hop after it is not decoded
    to [0000:02:00.0]; the assertion of the loop stops the call. *)
Lemma path_to_sbdf_missing_number_fails :
  read_text Samples.one_bridge (secondary_bus_number_file "0000:02:00.0") = None
  /\ path_to_sbdf Samples.one_bridge "02_00.0" = Ok "0000:02:00.0"
  /\ path_to_sbdf Samples.one_bridge "02_00.0-00_00.0" = Raise AssertionError.
Proof. repeat split; reflexivity. Qed.

Lemma one_bridge_root_names : root_names_ok Samples.one_bridge.
Proof. repeat constructor. Qed.

Lemma is_pci_path_iff_root_bus_witness :
  is_pci_path Samples.one_bridge "00_03.0-00_00.0" = true
  /\ is_pci_path Samples.one_bridge "0001_00_03.0-00_00.0" = false.
Proof.
  exact (is_pci_path_iff_root_bus Samples.one_bridge "0001"
           Samples.bridge_00_03_0 [Samples.device_00_00_0]
           one_bridge_root_names eq_refl ltac:(repeat constructor)).
Defined.

(** C7, as the specification has it, fails twice: the flat identifier
    of a device on a root bus is taken for a path, and a path with
    several hops whose segment names no root of the tree is not. *)
Lemma is_pci_path_flat_root_bus_id :
  is_pci_path Samples.one_bridge "00_03.0" = true
  /\ is_pci_path Samples.one_bridge "0001_00_03.0-00_00.0" = false.
Proof. split; reflexivity. Qed.

End CodecFacts.

(** ** The class database *)

Section ClassDatabase.
Import Py Pci.

Lemma cache_empty_false_some pci_classes :
  cache_empty pci_classes = false ->
  exists m, pci_classes = Some m /\ m <> ∅.
Proof.
  destruct pci_classes as [m|]; simpl; [|discriminate].
  intros H. exists m. split; [reflexivity|].
  intros ->. rewrite bool_decide_eq_false in H. by apply H.
Qed.

(** C3, as the code has it: without [/usr/share/hwdata/pci.ids],
    [pcidev_class] answers ["unknown"] when the class attribute of the
    device cannot be read, answers from the table (["unknown"] on a
    miss) when a table is already loaded, and otherwise lets the
    [FileNotFoundError] of [load_pci_classes] reach the caller. *)
Theorem pcidev_class_without_pci_ids (fs : sysfs) (c : ascii) (p : string)
    (pci_classes : option (gmap string string)) :
  read_text fs pci_ids = None ->
  let sysfs_path := String c p in
  let r := pcidev_class fs (Some sysfs_path) pci_classes in
  match read_text fs (sysfs_path +:+ "/class") with
  | None => r = (pci_classes, Ok "unknown")
  | Some text =>
      is_ascii text = true ->
      if cache_empty pci_classes
      then r = (pci_classes, Raise (FileNotFoundError pci_ids))
      else exists classes,
          pci_classes = Some classes
          /\ let class_id := strip (universal_newlines text) in
             let class_id :=
               if startswith "0x" class_id then drop 2 class_id
               else class_id in
             r = (pci_classes,
                  Ok (default "unknown" (classes !! take 4 class_id)))
  end.
Proof.
  intros Hids sysfs_path r. subst r sysfs_path. unfold pcidev_class.
  cbv beta iota.
  destruct (read_text fs (String c p +:+ "/class")) as [text|] eqn:Hclass;
    [|reflexivity].
  intros ->. cbv beta iota delta [negb].
  destruct (cache_empty pci_classes) eqn:Hempty.
  - unfold load_pci_classes. rewrite Hids. reflexivity.
  - destruct (cache_empty_false_some _ Hempty) as (classes & -> & _).
    exists classes. split; reflexivity.
Qed.

Lemma pcidev_class_without_pci_ids_witness :
  pcidev_class Samples.one_bridge (Some "/nowhere") None
  = (None, Ok "unknown")
  /\ pcidev_class Samples.one_bridge
       (Some "/sys/devices/pci0000:00/0000:00:03.0") None
     = (None, Raise (FileNotFoundError pci_ids))
  /\ exists classes,
      Some Samples.bridge_classes = Some classes
      /\ pcidev_class Samples.one_bridge
           (Some "/sys/devices/pci0000:00/0000:00:03.0")
           (Some Samples.bridge_classes)
         = (Some Samples.bridge_classes,
            Ok (default "unknown" (classes !! "0604"))).
Proof.
  split; [|split].
  - exact (pcidev_class_without_pci_ids Samples.one_bridge "/" "nowhere"
             None eq_refl).
  - exact (pcidev_class_without_pci_ids Samples.one_bridge "/"
             "sys/devices/pci0000:00/0000:00:03.0" None eq_refl eq_refl).
  - exact (pcidev_class_without_pci_ids Samples.one_bridge "/"
             "sys/devices/pci0000:00/0000:00:03.0"
             (Some Samples.bridge_classes) eq_refl eq_refl).
Defined.

(** C3, as the specification has it, fails: with a readable class
    attribute and no table loaded yet, the missing file makes
    [pcidev_class] raise. *)
Lemma pcidev_class_missing_pci_ids_raises :
  read_text Samples.one_bridge pci_ids = None
  /\ pcidev_class Samples.one_bridge
       (Some "/sys/devices/pci0000:00/0000:00:03.0") None
     = (None, Raise (FileNotFoundError pci_ids))
  /\ ~ (forall sysfs_path pci_classes,
          snd (pcidev_class Samples.one_bridge sysfs_path pci_classes)
          = Ok "unknown").
Proof.
  split; [reflexivity|]. split; [reflexivity|].
  intros H.
  specialize (H (Some "/sys/devices/pci0000:00/0000:00:03.0") None).
  vm_compute in H. discriminate H.
Qed.

End ClassDatabase.

(** ** Device metadata *)

Section Metadata.
Import Py Pci.

Lemma unknown_desc_values :
  unknown_desc !! "vendor" = Some (PStr "unknown")
  /\ unknown_desc !! "product" = Some (PStr "unknown")
  /\ unknown_desc !! "vendor ID" = Some (PStr "0000")
  /\ unknown_desc !! "product ID" = Some (PStr "0000").
Proof. repeat split; vm_compute; reflexivity. Qed.

(** Whatever [_load_desc] does, a changed object means that the domain
    was running and that libvirt answered. *)
Lemma load_desc_writes_only_on_success w backend_domain self self' r :
  _load_desc w backend_domain self = (self', r) ->
  self' <> self ->
  is_running backend_domain = true
  /\ exists xml,
      lookup_node w (libvirt_name self) = Ok xml
      /\ _vendor self' = xml_capability_vendor xml
      /\ _vendor_id self' = PList (xml_vendor_id xml)
      /\ _product self' = xml_capability_product xml
      /\ _product_id self' = PList (xml_product_id xml).
Proof.
  unfold _load_desc. intros Hload Hchanged.
  destruct (is_running backend_domain); simpl in Hload.
  - split; [reflexivity|].
    destruct (lookup_node w (libvirt_name self)) as [xml|e].
    + exists xml. inversion Hload; subst. simpl. auto.
    + inversion Hload; subst. contradiction.
  - inversion Hload; subst. contradiction.
Qed.

(** The loader's half of C8 holds: while the backend domain is not
    running, [_load_desc] returns the default dict (["unknown"] for
    vendor and product, ["0000"] for the ids), makes no call and leaves
    the object, hence its fields [_vendor], [_vendor_id], [_product] and
    [_product_id], as it was; the [vendor] and [product] accessors then
    answer ["unknown"] without storing it, so that an access made once
    the domain runs asks libvirt afresh; and [_load_desc] changes the
    object only when the domain runs and the query succeeds. *)
Lemma load_desc_not_running_no_cache (w : world) (backend_domain : qubesvm)
    (self : PCIDevice) :
  is_running backend_domain = false ->
  _load_desc w backend_domain self = (self, ([], Ok unknown_desc))
  /\ unknown_desc !! "vendor" = Some (PStr "unknown")
  /\ unknown_desc !! "product" = Some (PStr "unknown")
  /\ unknown_desc !! "vendor ID" = Some (PStr "0000")
  /\ unknown_desc !! "product ID" = Some (PStr "0000")
  /\ (_vendor self = PNone ->
      vendor w backend_domain self = (self, ([], Ok (PStr "unknown"))))
  /\ (_product self = PNone ->
      product w backend_domain self = (self, ([], Ok (PStr "unknown"))))
  /\ (forall w' started xml,
        is_running started = true ->
        _vendor self = PNone ->
        lookup_node w' (libvirt_name self) = Ok xml ->
        let self1 := fst (vendor w backend_domain self) in
        let '(self2, (calls, answer)) := vendor w' started self1 in
        calls = [NodeDeviceLookupByName (libvirt_name self)]
        /\ answer = Ok (xml_capability_vendor xml)
        /\ _vendor self2 = xml_capability_vendor xml)
  /\ (forall w' any self' r,
        _load_desc w' any self = (self', r) ->
        self' <> self ->
        is_running any = true
        /\ exists xml, lookup_node w' (libvirt_name self) = Ok xml).
Proof.
  intros Hhalted.
  assert (Hload : _load_desc w backend_domain self
                  = (self, ([], Ok unknown_desc))).
  { unfold _load_desc. rewrite Hhalted. reflexivity. }
  destruct unknown_desc_values as (Hv & Hp & Hvi & Hpi).
  assert (Hvendor : _vendor self = PNone ->
            vendor w backend_domain self = (self, ([], Ok (PStr "unknown")))).
  { intros Hnone. unfold vendor. rewrite Hnone, Hload. reflexivity. }
  repeat split; try assumption.
  - intros Hnone. unfold product. rewrite Hnone, Hload. reflexivity.
  - intros w' started xml Hrun Hnone Hxml. rewrite (Hvendor Hnone). simpl.
    unfold vendor. rewrite Hnone. unfold _load_desc. rewrite Hrun, Hxml.
    simpl. repeat split; reflexivity.
  - eapply load_desc_writes_only_on_success; eauto.
  - edestruct load_desc_writes_only_on_success as (_ & xml & Hxml & _); eauto.
Qed.

Lemma default_ids_read :
  getitem "vendor ID" unknown_desc = Ok (PStr "0000")
  /\ getitem "product ID" unknown_desc = Ok (PStr "0000")
  /\ join_allowed (PStr "0000") = Ok (PStr "0000").
Proof. repeat split; vm_compute; reflexivity. Qed.

(** C8 fails for the two id fields.  [self_identity] stores the
    defaults that [_load_desc] returns while the backend domain is not
    running, the values of which [_load_desc] says [don't cache these
    values]: [_vendor_id] and [_product_id] become ["0000"].  Once the
    domain runs, [self_identity] finds the two fields set and asks
    libvirt nothing, where the same access on the device as it was
    before asks libvirt for the ids. *)
Theorem self_identity_caches_defaults (w w' : world)
    (halted started : qubesvm) (self : PCIDevice) (xml : xmldesc) :
  is_running halted = false ->
  is_running started = true ->
  _vendor_id self = PNone -> _product_id self = PNone ->
  lookup_node w' (libvirt_name self) = Ok xml ->
  let self1 := fst (self_identity_ids w halted self) in
  self_identity_ids w halted self
  = (set_product_id (set_vendor_id self (PStr "0000")) (PStr "0000"),
     ([], Ok tt))
  /\ _vendor_id self1 = PStr "0000" /\ _product_id self1 = PStr "0000"
  /\ self_identity_ids w' started self1 = (self1, ([], Ok tt))
  /\ fst (snd (self_identity_ids w' started self))
     = [NodeDeviceLookupByName (libvirt_name self)].
Proof.
  intros Hhalted Hstarted Hvid Hpid Hxml self1.
  assert (E : self_identity_ids w halted self
              = (set_product_id (set_vendor_id self (PStr "0000"))
                   (PStr "0000"), ([], Ok tt))).
  { destruct default_ids_read as (Hv & Hp & Hjoin).
    unfold self_identity_ids, _load_desc. rewrite Hvid, Hhalted.
    cbn [negb]. cbv iota. cbn [act_ret act_bind lift app].
    rewrite Hv, Hjoin.
    change (_product_id (set_vendor_id self (PStr "0000")))
      with (_product_id self).
    rewrite Hpid. cbn [act_ret act_bind lift app].
    rewrite Hp, Hjoin. reflexivity. }
  split; [exact E|]. subst self1. rewrite E. cbn [fst].
  split; [reflexivity|]. split; [reflexivity|]. split.
  - reflexivity.
  - unfold self_identity_ids, _load_desc. rewrite Hvid, Hstarted, Hxml.
    reflexivity.
Qed.

Lemma self_identity_caches_defaults_witness :
  self_identity_ids Samples.refusing Samples.halted_hvm Samples.fresh_device
  = (set_product_id (set_vendor_id Samples.fresh_device (PStr "0000"))
       (PStr "0000"), ([], Ok tt))
  /\ self_identity_ids Samples.refusing Samples.running_hvm
       (set_product_id (set_vendor_id Samples.fresh_device (PStr "0000"))
          (PStr "0000"))
     = (set_product_id (set_vendor_id Samples.fresh_device (PStr "0000"))
          (PStr "0000"), ([], Ok tt))
  /\ fst (snd (self_identity_ids Samples.refusing Samples.running_hvm
                 Samples.fresh_device))
     = [NodeDeviceLookupByName "pci_0000_02_00_0"].
Proof.
  destruct (self_identity_caches_defaults Samples.refusing Samples.refusing
              Samples.halted_hvm Samples.running_hvm Samples.fresh_device
              Samples.nic_xml eq_refl eq_refl eq_refl eq_refl eq_refl)
    as (H1 & _ & _ & H2 & H3).
  split; [exact H1|]. split; [exact H2|exact H3].
Defined.

Lemma load_desc_not_running_no_cache_witness :
  _load_desc Samples.refusing Samples.halted_hvm Samples.fresh_device
  = (Samples.fresh_device, ([], Ok unknown_desc)).
Proof.
  exact (proj1 (load_desc_not_running_no_cache Samples.refusing
                  Samples.halted_hvm Samples.fresh_device eq_refl)).
Defined.

End Metadata.

(** ** Attach and detach handlers *)

Section Handlers.
Import Py Pci.

Lemma cache_get_ident ident device :
  _cache_get ident = Ok device -> Pci.ident device = ident.
Proof.
  unfold _cache_get, PCIDevice_init. simpl.
  destruct (regex_match ident) as [[[b d] f]|]; [|discriminate].
  intros H. inversion H. reflexivity.
Qed.

(** C5: validation comes first.  A device that is missing from sysfs, a
    target that is dom0 and a guest in pvh mode each end the handler
    with a [QubesException] before any call is made; for a guest that is
    not running the handler makes no call either, and returns normally
    when the validation passed. *)
Theorem pre_attach_validation_first (fs : sysfs) (w : world) (vm : qubesvm)
    (ident : string) (options : gmap string string) :
  let run := on_device_pre_attached_pci fs w vm ident options in
  let node := "/sys/bus/pci/devices/0000:" +:+ replace "_" ":" ident in
  (path_exists fs node = false ->
   run = ([], Raise (QubesException ("Invalid PCI device: " +:+ ident))))
  /\ (is_adminvm vm = true \/ virt_mode vm = "pvh" ->
      exists msg, run = ([], Raise (QubesException msg)))
  /\ (is_running vm = false ->
      fst run = []
      /\ (path_exists fs node = true ->
          is_adminvm vm = false -> virt_mode vm <> "pvh" ->
          run = ([], Ok tt))).
Proof.
  intros run node; subst run node. unfold on_device_pre_attached_pci.
  destruct (path_exists fs _) eqn:Hexists; simpl negb; cbv iota.
  - split; [discriminate|].
    destruct (is_adminvm vm) eqn:Hadmin.
    + split; [eauto|]. intros _. split; [reflexivity|]. discriminate.
    + destruct (String.eqb_spec (virt_mode vm) "pvh") as [Hpvh|Hpvh].
      * split; [eauto|]. intros _. split; [reflexivity|]. contradiction.
      * split; [intros [?|?]; [discriminate|contradiction]|].
        intros ->. simpl. split; [reflexivity|]. reflexivity.
  - split; [reflexivity|]. split; [eauto|].
    intros _. split; [reflexivity|]. discriminate.
Qed.

Lemma pre_attach_validation_first_witness :
  on_device_pre_attached_pci Samples.one_bridge Samples.refusing
    Samples.running_hvm "03_00.0" ∅
  = ([], Raise (QubesException "Invalid PCI device: 03_00.0"))
  /\ (exists msg,
        on_device_pre_attached_pci Samples.one_bridge Samples.refusing
          Samples.dom0 "02_00.0" ∅ = ([], Raise (QubesException msg)))
  /\ (exists msg,
        on_device_pre_attached_pci Samples.one_bridge Samples.refusing
          Samples.running_pvh "02_00.0" ∅ = ([], Raise (QubesException msg)))
  /\ on_device_pre_attached_pci Samples.one_bridge Samples.refusing
       Samples.halted_hvm "02_00.0" ∅ = ([], Ok tt).
Proof.
  split.
  { exact (proj1 (pre_attach_validation_first Samples.one_bridge
                    Samples.refusing Samples.running_hvm "03_00.0" ∅)
                 eq_refl). }
  split.
  { exact (proj1 (proj2 (pre_attach_validation_first Samples.one_bridge
                    Samples.refusing Samples.dom0 "02_00.0" ∅))
                 (or_introl eq_refl)). }
  split.
  { exact (proj1 (proj2 (pre_attach_validation_first Samples.one_bridge
                    Samples.refusing Samples.running_pvh "02_00.0" ∅))
                 (or_intror eq_refl)). }
  refine (proj2 (proj2 (proj2 (pre_attach_validation_first Samples.one_bridge
                    Samples.refusing Samples.halted_hvm "02_00.0" ∅))
                 eq_refl) eq_refl eq_refl _).
  discriminate.
Defined.

(** C9: for a running guest whose device list holds no line for the
    device, the handler asks [xl pci-list], logs that the device is
    already detached and returns normally; neither the detach service of
    the guest nor the detach call of libvirt is made. *)
Theorem pre_detach_already_detached (w : world) (vm : qubesvm)
    (ident : string) (device : PCIDevice) (result : string) :
  is_running vm = true ->
  _cache_get ident = Ok device ->
  xl_pci_list w (xid vm) = Ok result ->
  xl_search (replace "_" ":" ident) true result = None ->
  on_device_pre_detached_pci w vm ident
  = ([Popen ["xl"; "pci-list"; str_of_Z (xid vm)];
      LogError ("Device " +:+ ident +:+ " already detached")],
     Ok tt).
Proof.
  intros Hrun Hdev Hlist Hsearch. unfold on_device_pre_detached_pci.
  rewrite Hrun. simpl negb. cbv iota.
  rewrite Hdev. unfold lift, call. simpl act_bind.
  rewrite Hlist, (cache_get_ident _ _ Hdev), Hsearch. reflexivity.
Qed.

Lemma pre_detach_already_detached_witness :
  on_device_pre_detached_pci Samples.nothing_listed Samples.running_hvm
    "02_00.0"
  = ([Popen ["xl"; "pci-list"; "12"];
      LogError "Device 02_00.0 already detached"], Ok tt).
Proof.
  exact (pre_detach_already_detached Samples.nothing_listed
           Samples.running_hvm "02_00.0" Samples.fresh_device
           ("Vdev Device" +:+ Samples.nl) eq_refl eq_refl eq_refl eq_refl).
Defined.

(** Whatever the [try] block of the attach handler raises, if it is no
    [CalledProcessError] it reaches the caller, with nothing logged. *)
Lemma pre_attach_only_catches_CalledProcessError (fs : sysfs) (w : world)
    (vm : qubesvm) (ident : string) (options : gmap string string)
    (device : PCIDevice) (calls : list event) (xml : string) (e : exn) :
  path_exists fs ("/sys/bus/pci/devices/0000:" +:+ replace "_" ":" ident)
    = true ->
  is_adminvm vm = false -> virt_mode vm <> "pvh" -> is_running vm = true ->
  _cache_get ident = Ok device ->
  bind_pci_to_pciback w device = (calls, Ok tt) ->
  render_pci_xml w ident (Some options) = Ok xml ->
  attach_device w xml = Raise e ->
  is_CalledProcessError e = false ->
  on_device_pre_attached_pci fs w vm ident options
  = (calls ++ [AttachDevice xml], Raise e).
Proof.
  intros Hexists Hadmin Hpvh Hrun Hdev Hbind Hxml Hattach Hclass.
  unfold on_device_pre_attached_pci.
  rewrite Hexists, Hadmin, Hrun. simpl negb. cbv iota.
  destruct (String.eqb_spec (virt_mode vm) "pvh") as [?|_]; [done|].
  rewrite Hdev. unfold lift. simpl act_bind.
  rewrite Hbind, (cache_get_ident _ _ Hdev), Hxml. simpl.
  rewrite Hattach. simpl. rewrite Hclass. reflexivity.
Qed.

(** C4, the attach half, on a sample: libvirt refuses the attach call for
    a running guest; the handler logs nothing and the [libvirtError]
    reaches the caller, because its [except] clause names
    [subprocess.CalledProcessError] only. *)
Theorem pre_attach_libvirt_error_escapes :
  on_device_pre_attached_pci Samples.one_bridge Samples.refusing
    Samples.running_hvm "02_00.0" ∅
  = ([NodeDeviceLookupByName "pci_0000_02_00_0";
      NodeDettach "pci_0000_02_00_0";
      AttachDevice "<hostdev 02_00.0/>"],
     Raise (libvirtError (VIR_ERR_other 55))).
Proof. vm_compute. reflexivity. Qed.

End Handlers.

(** * Further results *)

(** ** Sizes with units *)

Section TextFacts.
Import Py Text.

Lemma rev_app_spec s t : String.rev_app s t = String.rev s +:+ t.
Proof.
  unfold String.rev. revert t.
  induction s as [|c s IH]; intros t; [reflexivity|].
  cbn [String.rev_app]. rewrite IH, (IH (String c EmptyString)).
  by rewrite str_app_assoc.
Qed.

Lemma rev_cons c s : String.rev (String c s) = String.rev s +:+ String c EmptyString.
Proof. unfold String.rev at 1. cbn [String.rev_app]. apply rev_app_spec. Qed.

Lemma rev_app s t : String.rev (s +:+ t) = String.rev t +:+ String.rev s.
Proof.
  induction s as [|c s IH].
  - by rewrite str_app_nil_l, str_app_nil_r.
  - by rewrite str_app_cons, !rev_cons, IH, str_app_assoc.
Qed.

Lemma rev_involutive s : String.rev (String.rev s) = s.
Proof.
  induction s as [|c s IH]; [reflexivity|].
  rewrite rev_cons, rev_app, IH. reflexivity.
Qed.

Lemma all_rev p s : all p (String.rev s) = all p s.
Proof.
  induction s as [|c s IH]; [reflexivity|].
  rewrite rev_cons, all_app, IH. cbn [all].
  by rewrite andb_true_r, andb_comm.
Qed.

Lemma len_app s t : len (s +:+ t) = (len s + len t)%nat.
Proof.
  induction s as [|c s IH]; [reflexivity|].
  rewrite str_app_cons. cbn [len]. by rewrite IH.
Qed.

Lemma drop_add s t : drop (len s) (s +:+ t) = t.
Proof. induction s as [|c s IH]; [reflexivity|]. by rewrite str_app_cons. Qed.

Lemma startswith_app p s : startswith p (p +:+ s) = true.
Proof.
  induction p as [|a p IH]; [reflexivity|].
  rewrite str_app_cons. cbn [startswith]. rewrite IH.
  unfold ascii_eqb. by rewrite Ascii.eqb_refl.
Qed.

Lemma startswith_split p s :
  startswith p s = true -> s = p +:+ drop (len p) s.
Proof.
  revert s. induction p as [|a p IH]; intros s H; [reflexivity|].
  destruct s as [|b s]; [discriminate|]. cbn [startswith] in H.
  apply andb_true_iff in H as [Hab H]. apply ascii_eqb_eq in Hab as ->.
  rewrite str_app_cons. cbn [len drop]. f_equal. by apply IH.
Qed.

Lemma take_add s t : take (len s) (s +:+ t) = s.
Proof.
  induction s as [|c s IH]; [by destruct t|].
  rewrite str_app_cons. cbn [len take]. by rewrite IH.
Qed.

Lemma take_drop n s : take n s +:+ drop n s = s.
Proof.
  revert s. induction n as [|n IH]; intros [|c s]; try reflexivity.
  cbn [take drop]. by rewrite str_app_cons, IH.
Qed.

Lemma len_take n s : (n <= len s)%nat -> len (take n s) = n.
Proof.
  revert s. induction n as [|n IH]; intros [|c s] H; simpl in *; try lia.
  rewrite IH; lia.
Qed.

Lemma app_inv_len a b c d :
  len a = len c -> a +:+ b = c +:+ d -> a = c /\ b = d.
Proof.
  revert c. induction a as [|x a IH]; intros [|y c] Hlen H; try discriminate.
  - done.
  - rewrite !str_app_cons in H. injection H as -> H.
    destruct (IH c) as [-> ->]; [simpl in Hlen; lia|done|done].
Qed.

(** [s.endswith(p)] says that [s] is some text followed by [p]. *)
Lemma endswith_spec p s :
  endswith p s = true <-> exists x, s = x +:+ p.
Proof.
  unfold endswith. split.
  - intros H. apply andb_true_iff in H as [Hle Heq].
    apply Nat.leb_le in Hle. apply String.eqb_eq in Heq.
    exists (take (len s - len p) s).
    rewrite <- Heq at 2. by rewrite take_drop.
  - intros [x ->]. rewrite len_app.
    replace (len x + len p - len p)%nat with (len x) by lia.
    rewrite drop_add, String.eqb_refl, andb_true_r.
    apply Nat.leb_le. lia.
Qed.

(** Whether [x + u] ends with [v], read off [u] alone: when [v] is not
    longer than [u], or when [u] is not the end of [v]. *)
Lemma endswith_app_decide v x u :
  (len v <=? len u)%nat || negb (endswith u v) = true ->
  endswith v (x +:+ u) = endswith v u.
Proof.
  intros H. apply orb_true_iff in H as [H|H].
  - apply Nat.leb_le in H. apply eq_true_iff_eq.
    rewrite !endswith_spec. split.
    + intros [y Hy].
      exists (drop (len x) y).
      assert (Hlen : len (x +:+ u) = len (y +:+ v)) by by rewrite Hy.
      rewrite !len_app in Hlen.
      rewrite <- (take_drop (len x) y) in Hy. rewrite str_app_assoc in Hy.
      apply app_inv_len in Hy as [_ Hy]; [done|].
      rewrite len_take; lia.
    + intros [y ->]. exists (x +:+ y). by rewrite str_app_assoc.
  - apply negb_true_iff in H.
    destruct (endswith v u) eqn:Hvu.
    + apply endswith_spec. apply endswith_spec in Hvu as [y ->].
      exists (x +:+ y). by rewrite str_app_assoc.
    + apply not_true_is_false. intros Hv.
      apply endswith_spec in Hv as [y Hy].
      destruct (Nat.le_gt_cases (len v) (len u)) as [Hle|Hgt].
      * assert (Hlen : len (x +:+ u) = len (y +:+ v)) by by rewrite Hy.
        rewrite !len_app in Hlen.
        rewrite <- (take_drop (len x) y) in Hy. rewrite str_app_assoc in Hy.
        apply app_inv_len in Hy as [_ Hy]; [|rewrite len_take; lia].
        assert (endswith v u = true) by (apply endswith_spec; eauto).
        congruence.
      * assert (Hlen : len (x +:+ u) = len (y +:+ v)) by by rewrite Hy.
        rewrite !len_app in Hlen.
        rewrite <- (take_drop (len y) x) in Hy. rewrite str_app_assoc in Hy.
        symmetry in Hy.
        apply app_inv_len in Hy as [_ Hy]; [|rewrite len_take; lia].
        assert (endswith u v = true) by (apply endswith_spec; eauto).
        congruence.
Qed.

Lemma lstrip_by_first p c s :
  p c = false -> lstrip_by p (String c s) = String c s.
Proof. intros H. cbn [lstrip_by]. by rewrite H. Qed.

Lemma lstrip_by_all p s t :
  all p s = true -> lstrip_by p (s +:+ t) = lstrip_by p t.
Proof.
  induction s as [|c s IH]; [done|]. cbn [all]. intros H.
  apply andb_true_iff in H as [Hc Hs].
  rewrite str_app_cons. cbn [lstrip_by]. rewrite Hc. by apply IH.
Qed.

(** Text that ends with a character outside the class keeps its end. *)
Lemma rstrip_by_last p s c :
  p c = false ->
  rstrip_by p (s +:+ String c EmptyString) = s +:+ String c EmptyString.
Proof.
  intros H. unfold rstrip_by. rewrite rev_app.
  change (String.rev (String c EmptyString)) with (String c EmptyString).
  rewrite str_app_cons, str_app_nil_l, lstrip_by_first by done.
  rewrite <- (rev_involutive (s +:+ String c EmptyString)).
  f_equal. by rewrite rev_app.
Qed.

Lemma rstrip_by_pad p s pad :
  all p pad = true -> rstrip_by p (s +:+ pad) = rstrip_by p s.
Proof.
  intros H. unfold rstrip_by. rewrite rev_app.
  by rewrite lstrip_by_all by by rewrite all_rev.
Qed.

Lemma upper_app s t : upper (s +:+ t) = upper s +:+ upper t.
Proof.
  induction s as [|c s IH]; [reflexivity|].
  rewrite str_app_cons. cbn [upper]. by rewrite IH.
Qed.

Lemma upper_fixed s :
  all (fun c => negb (in_range "a" "z" c)) s = true -> upper s = s.
Proof.
  induction s as [|c s IH]; [reflexivity|]. cbn [all]. intros H.
  apply andb_true_iff in H as [Hc Hs]. apply negb_true_iff in Hc.
  cbn [upper]. unfold upper_char. by rewrite Hc, IH.
Qed.

Lemma len_upper s : len (upper s) = len s.
Proof. induction s as [|c s IH]; [reflexivity|]. cbn. by rewrite IH. Qed.

Lemma digit_cases c :
  is_digit c = true ->
  In c ["0"; "1"; "2"; "3"; "4"; "5"; "6"; "7"; "8"; "9"]%char.
Proof.
  destruct c as [[] [] [] [] [] [] [] []]; intros H; try discriminate H;
    simpl; tauto.
Qed.

Lemma space_cases c :
  is_space c = true ->
  In c ["009"; "010"; "011"; "012"; "013"; "028"; "029"; "030"; "031";
        " "]%char.
Proof.
  destruct c as [[] [] [] [] [] [] [] []]; intros H; try discriminate H;
    simpl; tauto.
Qed.

Lemma digit_not_lower c : is_digit c = true -> in_range "a" "z" c = false.
Proof.
  intros H. apply digit_cases in H. simpl in H.
  repeat (destruct H as [<-|H]; [reflexivity|]). contradiction.
Qed.

Lemma space_not_lower c : is_space c = true -> in_range "a" "z" c = false.
Proof.
  intros H. apply space_cases in H. simpl in H.
  repeat (destruct H as [<-|H]; [reflexivity|]). contradiction.
Qed.

Lemma digit_not_space c : is_digit c = true -> is_space c = false.
Proof.
  intros H. apply digit_cases in H. simpl in H.
  repeat (destruct H as [<-|H]; [reflexivity|]). contradiction.
Qed.

Lemma digit_not_int_space c : is_digit c = true -> is_int_space c = false.
Proof.
  intros H. apply digit_cases in H. simpl in H.
  repeat (destruct H as [<-|H]; [reflexivity|]). contradiction.
Qed.

(** *** Decimal text *)

Lemma dec_digit n :
  0 <= n < 10 ->
  is_digit (hex_digit n) = true /\ digit_val (hex_digit n) = n.
Proof.
  intros Hn.
  assert (exists k, n = Z.of_nat k /\ (k < 10)%nat) as (k & -> & Hk)
    by (exists (Z.to_nat n); lia).
  do 10 (destruct k as [|k]; [vm_compute; auto|]). lia.
Qed.

Lemma dec_go_app fuel : forall n acc,
  Pci.dec_go fuel n acc = Pci.dec_go fuel n EmptyString +:+ acc.
Proof.
  induction fuel as [|k IH]; intros n acc; [reflexivity|].
  cbn [Pci.dec_go]. destruct (n / 10 =? 0); [reflexivity|].
  rewrite IH, (IH _ (String _ EmptyString)). by rewrite str_app_assoc.
Qed.

(** The digits of a number, then its last digit. *)
Lemma dec_go_last k n :
  0 <= n ->
  exists front d,
    Pci.dec_go (S k) n EmptyString = front +:+ String d EmptyString
    /\ is_digit d = true /\ all is_digit front = true.
Proof.
  intros Hn.
  assert (Hall : forall fuel m acc, 0 <= m -> all is_digit acc = true ->
            all is_digit (Pci.dec_go fuel m acc) = true).
  { induction fuel as [|f IH]; intros m acc Hm Hacc; [done|].
    cbn [Pci.dec_go].
    destruct (dec_digit (m mod 10)) as [Hd _];
      [apply Z.mod_pos_bound; lia|].
    destruct (m / 10 =? 0).
    - cbn [all]. by rewrite Hd.
    - apply IH; [apply Z.div_pos; lia|]. cbn [all]. by rewrite Hd. }
  destruct (dec_digit (n mod 10)) as [Hd _]; [apply Z.mod_pos_bound; lia|].
  cbn [Pci.dec_go]. destruct (n / 10 =? 0).
  - exists EmptyString, (hex_digit (n mod 10)). by rewrite str_app_nil_l.
  - rewrite dec_go_app. eexists _, _. split; [reflexivity|].
    split; [done|]. apply Hall; [apply Z.div_pos; lia|done].
Qed.

Lemma dec_digits_dec_go fuel : forall n b sfx,
  0 <= n < 10 ^ Z.of_nat fuel -> (0 < fuel)%nat ->
  dec_digits 0 b (Pci.dec_go fuel n sfx) = dec_digits n true sfx.
Proof.
  induction fuel as [|k IH]; intros n b sfx Hn Hk; [lia|].
  cbn [Pci.dec_go].
  assert (Hmod : 0 <= n mod 10 < 10) by (apply Z.mod_pos_bound; lia).
  destruct (dec_digit _ Hmod) as [Hdig Hval].
  pose proof (Z.div_mod n 10 ltac:(lia)) as Hdm.
  destruct (Z.eqb_spec (n / 10) 0) as [Hz|Hz].
  - cbn [dec_digits]. rewrite Hdig, Hval. f_equal. lia.
  - assert (0 < n / 10) by (pose proof (Z.div_pos n 10); lia).
    destruct k as [|k'].
    + exfalso. change (10 ^ Z.of_nat 1) with 10 in Hn.
      assert (n / 10 = 0) by (apply Z.div_small; lia). lia.
    + rewrite IH.
      * cbn [dec_digits]. rewrite Hdig, Hval. f_equal. lia.
      * split; [lia|].
        apply Z.div_lt_upper_bound; [lia|].
        replace (Z.of_nat (S (S k'))) with (Z.succ (Z.of_nat (S k'))) in Hn
          by lia.
        rewrite Z.pow_succ_r in Hn by lia. lia.
      * lia.
Qed.

Lemma pow10_log2 n : 0 <= n -> n < 10 ^ Z.of_nat (S (Z.to_nat (Z.log2 n))).
Proof.
  intros Hn.
  destruct (Z.eq_dec n 0) as [->|Hnz]; [reflexivity|].
  pose proof (Z.log2_spec n ltac:(lia)) as [_ Hlt].
  pose proof (Z.log2_nonneg n) as Hl.
  rewrite Nat2Z.inj_succ, Z2Nat.id by lia.
  eapply Z.lt_le_trans; [exact Hlt|].
  apply Z.pow_le_mono_l. lia.
Qed.

(** The decimal text of a number that is not negative: digits, and at
    least one. *)
Lemma str_of_Z_nonneg n :
  0 <= n ->
  exists front d,
    Pci.str_of_Z n = front +:+ String d EmptyString
    /\ is_digit d = true /\ all is_digit front = true
    /\ dec_digits 0 false (Pci.str_of_Z n) = Some n.
Proof.
  intros Hn. unfold Pci.str_of_Z.
  destruct (Z.ltb_spec n 0) as [?|_]; [lia|].
  destruct (dec_go_last (Z.to_nat (Z.log2 n)) n Hn) as (front & d & E & Hd & Hf).
  exists front, d. repeat split; try done.
  rewrite dec_digits_dec_go; [reflexivity| |lia].
  split; [lia|]. by apply pow10_log2.
Qed.

Lemma all_digits_text front d :
  is_digit d = true -> all is_digit front = true ->
  all is_digit (front +:+ String d EmptyString) = true.
Proof. intros Hd Hf. rewrite all_app, Hf. cbn [all]. by rewrite Hd. Qed.

Lemma first_char_app front d :
  exists c r, front +:+ String d EmptyString = String c r
    /\ (all is_digit front = true -> is_digit d = true -> is_digit c = true).
Proof.
  destruct front as [|c r].
  - exists d, EmptyString. by rewrite str_app_nil_l.
  - exists c, (r +:+ String d EmptyString). rewrite str_app_cons.
    split; [done|]. cbn [all]. intros H _. by apply andb_true_iff in H as [? _].
Qed.

(** [int(str(n))] is [n]. *)
Lemma int_str_of_Z n : int (Pci.str_of_Z n) = Some n.
Proof.
  assert (Hpos : forall m, 0 <= m -> int (Pci.str_of_Z m) = Some m
                  /\ exists c r, Pci.str_of_Z m = String c r
                       /\ is_digit c = true).
  { intros m Hm.
    destruct (str_of_Z_nonneg m Hm) as (front & d & E & Hd & Hf & Hdec).
    destruct (first_char_app front d) as (c & r & Ec & Hc).
    specialize (Hc Hf Hd). rewrite E, Ec in *. split; [|eauto].
    unfold int. rewrite lstrip_by_first by by apply digit_not_int_space.
    rewrite <- Ec. rewrite rstrip_by_last by by apply digit_not_int_space.
    rewrite Ec.
    apply digit_cases in Hc. simpl in Hc.
    repeat (destruct Hc as [<-|Hc]; [exact Hdec|]). contradiction. }
  destruct (Z.ltb_spec n 0) as [Hneg|Hnn]; [|by apply Hpos].
  destruct (Hpos (- n) ltac:(lia)) as [_ (c & r & E & Hc)].
  destruct (str_of_Z_nonneg (- n) ltac:(lia)) as (front & d & E' & Hd & Hf & Hdec).
  assert (Estr : Pci.str_of_Z n = String "-" (Pci.str_of_Z (- n))).
  { unfold Pci.str_of_Z. destruct (Z.ltb_spec n 0); [|lia].
    destruct (Z.ltb_spec (- n) 0); [lia|]. reflexivity. }
  rewrite Estr. unfold int. rewrite lstrip_by_first by reflexivity.
  rewrite E'.
  change (String "-" (front +:+ String d EmptyString))
    with (String "-" front +:+ String d EmptyString).
  rewrite rstrip_by_last by by apply digit_not_int_space.
  rewrite str_app_cons. rewrite <- E', Hdec. simpl. f_equal. lia.
Qed.

End TextFacts.

Section SizeFacts.
Import Py Text UtilsMisc.

Lemma take_app_sub x u : take (len (x +:+ u) - len u) (x +:+ u) = x.
Proof.
  rewrite len_app. replace (len x + len u - len u)%nat with (len x) by lia.
  apply take_add.
Qed.

Lemma space_upper c : is_space c = true -> upper_char c = c.
Proof. intros H. unfold upper_char. by rewrite space_not_lower. Qed.

(** The shape of [str(n)]: a first character that is no white space, a
    last one that is a digit, no lower-case letter. *)
Lemma str_of_Z_shape n :
  (exists c r, Pci.str_of_Z n = String c r /\ is_space c = false)
  /\ (exists front d, Pci.str_of_Z n = front +:+ String d EmptyString
        /\ is_digit d = true)
  /\ all (fun c => negb (in_range "a" "z" c)) (Pci.str_of_Z n) = true
  /\ isdigit (Pci.str_of_Z n) = negb (n <? 0).
Proof.
  assert (Hpos : forall m, 0 <= m ->
            (exists c r, Pci.str_of_Z m = String c r /\ is_digit c = true)
            /\ (exists front d, Pci.str_of_Z m = front +:+ String d EmptyString
                  /\ is_digit d = true)
            /\ all is_digit (Pci.str_of_Z m) = true).
  { intros m Hm.
    destruct (str_of_Z_nonneg m Hm) as (front & d & E & Hd & Hf & _).
    destruct (first_char_app front d) as (c & r & Ec & Hc).
    rewrite E. split; [rewrite Ec; eauto|]. split; [eauto|].
    by apply all_digits_text. }
  assert (Hlow : forall s, all is_digit s = true ->
            all (fun c => negb (in_range "a" "z" c)) s = true).
  { intros s. apply all_impl. intros c Hc. by rewrite digit_not_lower. }
  destruct (Z.ltb_spec n 0) as [Hneg|Hnn].
  - destruct (Hpos (- n) ltac:(lia)) as (_ & (front & d & E & Hd) & Hall).
    assert (Estr : Pci.str_of_Z n = String "-" (Pci.str_of_Z (- n))).
    { unfold Pci.str_of_Z. destruct (Z.ltb_spec n 0); [|lia].
      destruct (Z.ltb_spec (- n) 0); [lia|]. reflexivity. }
    rewrite Estr. repeat split.
    + by exists "-"%char, (Pci.str_of_Z (- n)).
    + exists (String "-" front), d. by rewrite E, str_app_cons.
    + cbn [all]. by rewrite Hlow.
  - destruct (Hpos n Hnn) as ((c & r & E & Hc) & Hlast & Hall).
    repeat split.
    + exists c, r. split; [done|]. by apply digit_not_space.
    + done.
    + by apply Hlow.
    + unfold isdigit. rewrite Hall, E. reflexivity.
Qed.

Lemma strip_number_pad n pad :
  all is_space pad = true -> strip (Pci.str_of_Z n +:+ pad) = Pci.str_of_Z n.
Proof.
  intros Hpad.
  destruct (str_of_Z_shape n) as ((c & r & E & Hc) & (front & d & E' & Hd) & _).
  unfold strip. rewrite E, str_app_cons, lstrip_by_first by done.
  rewrite <- str_app_cons, <- E, rstrip_by_pad by done.
  rewrite E'. apply rstrip_by_last. by apply digit_not_space.
Qed.

Lemma int_or_raise_str n : int_or_raise (Pci.str_of_Z n) = Ok n.
Proof. unfold int_or_raise. by rewrite int_str_of_Z. Qed.

(** What [size.strip().upper()] gives for a number, white space and
    a spelling [u] of a unit. *)
Lemma normalised_size n pad u front last :
  all is_space pad = true ->
  u = front +:+ String last EmptyString -> is_space last = false ->
  upper (strip (Pci.str_of_Z n +:+ pad +:+ u))
  = (Pci.str_of_Z n +:+ pad) +:+ upper u.
Proof.
  intros Hpad -> Hlast.
  destruct (str_of_Z_shape n) as ((c & r & E & Hc) & _ & Hlow & _).
  unfold strip. rewrite E at 1. rewrite str_app_cons.
  rewrite lstrip_by_first by done. rewrite <- str_app_cons, <- E.
  rewrite <- !str_app_assoc. rewrite rstrip_by_last by done.
  rewrite !upper_app. rewrite (upper_fixed _ Hlow).
  rewrite (upper_fixed pad); [by rewrite !str_app_assoc|].
  revert Hpad. apply all_impl. intros a Ha. by rewrite space_not_lower.
Qed.

Ltac skip_unit :=
  match goal with
  | |- context [endswith (upper ?v) (?x +:+ ?u)] =>
      rewrite (endswith_app_decide (upper v) x u) by (vm_compute; reflexivity);
      let b := eval vm_compute in (endswith (upper v) u) in
      change (endswith (upper v) u) with b; cbv iota
  end.

(** X5: for the decimal text of a number, white space or none, and one
    of the twelve units in any case, [parse_size] returns the number
    times the multiplier of the unit. *)
Theorem parse_size_with_unit (n : Z) (pad u unit : string) (multiplier : Z) :
  In (unit, multiplier) units ->
  upper u = upper unit ->
  all is_space pad = true ->
  parse_size (Pci.str_of_Z n +:+ pad +:+ u) = Ok (n * multiplier).
Proof.
  intros Hunit Hu Hpad.
  assert (Hdone : forall U k, upper u = U ->
            (exists front last, u = front +:+ String last EmptyString
                                /\ is_space last = false) ->
            all is_digit U = false ->
            parse_size_loop units ((Pci.str_of_Z n +:+ pad) +:+ U)
            = Some (Ok (n * k)) ->
            parse_size (Pci.str_of_Z n +:+ pad +:+ u) = Ok (n * k)).
  { intros U k HU (front & last & E & Hlast) Hnodigit Hloop.
    unfold parse_size.
    rewrite (normalised_size n pad u front last Hpad E Hlast), HU.
    unfold isdigit. rewrite all_app, Hnodigit, !andb_false_r.
    by rewrite Hloop. }
  assert (Hlast : forall a front L,
            upper_char a = L -> is_space L = false ->
            exists f l, front +:+ String a EmptyString
                        = f +:+ String l EmptyString /\ is_space l = false).
  { intros a front L Ha HL. exists front, a. split; [done|].
    destruct (is_space a) eqn:Hsp; [|done].
    rewrite space_upper in Ha by done. congruence. }
  unfold units in Hunit. cbn [In] in Hunit.
  repeat (destruct Hunit as [[= <- <-]|Hunit];
    [match type of Hu with
     | _ = ?R => let U := eval vm_compute in R in change R with U in Hu
     end|]); try contradiction.
  all: apply (Hdone _ _ Hu); [| reflexivity |].
  all: try (unfold units; cbn [parse_size_loop]; repeat skip_unit;
            match goal with
            | |- context [take (len (?x +:+ ?V) - len ?U) _] =>
                change (len U) with (len V)
            end;
            rewrite take_app_sub, strip_number_pad, int_or_raise_str by done;
            reflexivity).
  all: match type of Hu with
       | _ = String _ EmptyString =>
           destruct u as [|a [|]]; try discriminate Hu;
           injection Hu as Ha; apply (Hlast a EmptyString _ Ha); reflexivity
       | _ = String _ (String _ EmptyString) =>
           destruct u as [|a0 [|a [|]]]; try discriminate Hu;
           injection Hu as _ Ha;
           apply (Hlast a (String a0 EmptyString) _ Ha); reflexivity
       | _ = String _ (String _ (String _ EmptyString)) =>
           destruct u as [|a0 [|a1 [|a [|]]]]; try discriminate Hu;
           injection Hu as _ _ Ha;
           apply (Hlast a (String a0 (String a1 EmptyString)) _ Ha);
           reflexivity
       end.
Qed.

Lemma parse_size_with_unit_witness : parse_size "10 kib" = Ok 10240.
Proof.
  exact (parse_size_with_unit 10 " " "kib" "KiB" 1024
           ltac:(vm_compute; tauto) eq_refl eq_refl).
Defined.

(** X6: for the decimal text of a number without a unit, [parse_size]
    returns the number when it is not negative, and raises
    [QubesException] with the message [Invalid size: <text>.] when it
    is. *)
Theorem parse_size_without_unit (n : Z) :
  parse_size (Pci.str_of_Z n)
  = if n <? 0
    then Raise (QubesException
                  ("Invalid size: " +:+ Pci.str_of_Z n +:+ "."))
    else Ok n.
Proof.
  destruct (str_of_Z_shape n)
    as ((c & r & E & Hc) & (front & d & E' & Hd) & Hlow & Hdig).
  assert (Hstrip : strip (Pci.str_of_Z n) = Pci.str_of_Z n).
  { rewrite <- (str_app_nil_r (Pci.str_of_Z n)) at 1.
    by apply strip_number_pad. }
  unfold parse_size. rewrite Hstrip, (upper_fixed _ Hlow), Hdig.
  destruct (n <? 0); cbn [negb]; [|apply int_or_raise_str].
  replace (parse_size_loop units (Pci.str_of_Z n)) with (@None (outcome Z));
    [reflexivity|].
  rewrite E'. apply digit_cases in Hd. cbn [In] in Hd.
  unfold units. cbn [parse_size_loop].
  repeat (destruct Hd as [<-|Hd]; [by repeat skip_unit|]).
  contradiction.
Qed.

End SizeFacts.

Section CodecSpellings.
Import Py Utils Topology PathForm Spellings.

Lemma sep_uc_not_hex c : is_sep_uc c = true -> is_hex c = false.
Proof.
  unfold is_sep_uc. intros H. apply orb_true_iff in H as [H|H];
    apply ascii_eqb_eq in H; subst; reflexivity.
Qed.

Lemma match_bdf_spelled seg s1 s2 x :
  bdf_ok x = true -> is_sep_uc s1 = true -> is_sep_du s2 = true ->
  match_bdf seg (spelled_bdf s1 s2 x)
  = Some {| m_segment := seg; m_bus := bdf_bus x; m_device := bdf_device x;
            m_function := bdf_function x |}.
Proof.
  intros Hx H1 H2.
  apply bdf_ok_inv in Hx as (b1 & b2 & d1 & d2 & f & -> & ? & ? & ? & ? & ?).
  unfold spelled_bdf. cbn [bdf_bus bdf_device bdf_function]. strs.
  unfold match_bdf. hexes. rewrite H1, H2. reflexivity.
Qed.

Lemma match_seg_bdf_flat s1 s2 x :
  bdf_ok x = true -> is_sep_uc s1 = true -> is_sep_du s2 = true ->
  match_seg_bdf (spelled_bdf s1 s2 x)
  = Some {| m_segment := None; m_bus := bdf_bus x; m_device := bdf_device x;
            m_function := bdf_function x |}.
Proof.
  intros Hx H1 H2. rewrite <- (match_bdf_spelled None s1 s2 x) by done.
  apply bdf_ok_inv in Hx as (b1 & b2 & d1 & d2 & f & -> & ? & ? & ? & ? & ?).
  unfold spelled_bdf. cbn [bdf_bus bdf_device bdf_function]. strs.
  unfold match_seg_bdf. rewrite (sep_uc_not_hex s1 H1).
  by rewrite !andb_false_r.
Qed.

Lemma match_seg_bdf_full segment s0 s1 s2 x :
  segment_ok segment = true -> bdf_ok x = true ->
  is_sep_uc s0 = true -> is_sep_uc s1 = true -> is_sep_du s2 = true ->
  match_seg_bdf (segment +:+ String s0 (spelled_bdf s1 s2 x))
  = Some {| m_segment := Some segment; m_bus := bdf_bus x;
            m_device := bdf_device x; m_function := bdf_function x |}.
Proof.
  intros Hs Hx H0 H1 H2.
  pose proof (match_bdf_spelled (Some segment) s1 s2 x Hx H1 H2) as Hm.
  apply hex_of_len_4 in Hs as (g1 & g2 & g3 & g4 & -> & ? & ? & ? & ?).
  strs. unfold match_seg_bdf. hexes. rewrite H0. cbn [andb].
  by rewrite Hm.
Qed.

(** The device regex on every spelling of an address: with or without
    the [pci_] prefix of libvirt, with the segment or, for segment
    [0000], without it, with any of the allowed separators. *)
Lemma sbdf_regex_match_spelled (prefix : bool) segment s0 s1 s2 x :
  segment_ok segment = true -> bdf_ok x = true ->
  is_sep_uc s0 = true -> is_sep_uc s1 = true -> is_sep_du s2 = true ->
  let pre := if prefix then "pci_" else EmptyString in
  sbdf_regex_match (pre +:+ segment +:+ String s0 (spelled_bdf s1 s2 x))
  = Some {| m_segment := Some segment; m_bus := bdf_bus x;
            m_device := bdf_device x; m_function := bdf_function x |}
  /\ sbdf_regex_match (pre +:+ spelled_bdf s1 s2 x)
     = Some {| m_segment := None; m_bus := bdf_bus x;
               m_device := bdf_device x; m_function := bdf_function x |}.
Proof.
  intros Hs Hx H0 H1 H2 pre.
  pose proof (match_seg_bdf_full segment s0 s1 s2 x Hs Hx H0 H1 H2) as Hfull.
  pose proof (match_seg_bdf_flat s1 s2 x Hx H1 H2) as Hflat.
  destruct prefix; subst pre.
  - unfold sbdf_regex_match. rewrite !startswith_app.
    change 4%nat with (len "pci_"). rewrite !drop_add.
    by rewrite Hfull, Hflat.
  - rewrite !str_app_nil_l. unfold sbdf_regex_match.
    rewrite Hfull, Hflat.
    pose proof Hs as Hs'. pose proof Hx as Hx'.
    apply hex_of_len_4 in Hs' as (g1 & g2 & g3 & g4 & -> & Hg1 & _).
    apply bdf_ok_inv in Hx' as (b1 & b2 & d1 & d2 & f & -> & Hb1 & _).
    unfold spelled_bdf. cbn [bdf_bus bdf_device bdf_function]. strs.
    cbn [startswith].
    by rewrite (hex_differs' g1 "p"), (hex_differs' b1 "p").
Qed.

(** The result of [sbdf_to_path] depends on the segment and on the
    address that the identifier denotes, not on how it is spelled. *)
Lemma sbdf_to_path_same_address fs a b m m' :
  sbdf_regex_match a = Some m -> sbdf_regex_match b = Some m' ->
  segment_of_match m = segment_of_match m' ->
  bdf_of_match m = bdf_of_match m' ->
  sbdf_to_path fs a = sbdf_to_path fs b.
Proof.
  intros Ha Hb Hseg Hbdf. unfold sbdf_to_path. rewrite Ha, Hb.
  unfold segment_of_match in Hseg. rewrite Hseg.
  destruct m, m'. unfold bdf_of_match in Hbdf. simpl in *.
  by injection Hbdf as -> -> ->.
Qed.

(** X1: [sbdf_to_path] gives the same result for every spelling of an
    address that its regex accepts: with or without the prefix [pci_],
    with [_] or [:] after the segment and after the bus, with [.] or [_]
    before the function and, for segment [0000], with the segment left
    out. *)
Theorem sbdf_to_path_accepts_all_spellings (fs : sysfs) (prefix : bool)
    (segment : string) (s0 s1 s2 : ascii) (x : bdf) :
  segment_ok segment = true -> bdf_ok x = true ->
  is_sep_uc s0 = true -> is_sep_uc s1 = true -> is_sep_du s2 = true ->
  let pre := if prefix then "pci_" else EmptyString in
  sbdf_to_path fs (pre +:+ segment +:+ String s0 (spelled_bdf s1 s2 x))
  = sbdf_to_path fs (sbdf_name segment x)
  /\ (segment = "0000" ->
      sbdf_to_path fs (pre +:+ spelled_bdf s1 s2 x)
      = sbdf_to_path fs (sbdf_name segment x)).
Proof.
  intros Hs Hx H0 H1 H2 pre.
  destruct (sbdf_regex_match_spelled prefix segment s0 s1 s2 x Hs Hx H0 H1 H2)
    as [Hfull Hflat].
  pose proof (sbdf_regex_match_name segment x Hs Hx) as Hname.
  split.
  - by eapply sbdf_to_path_same_address.
  - intros ->. by eapply sbdf_to_path_same_address.
Qed.

Lemma sbdf_to_path_accepts_all_spellings_witness :
  sbdf_to_path Samples.one_bridge "pci_0000_02_00_0"
  = sbdf_to_path Samples.one_bridge "0000:02:00.0"
  /\ sbdf_to_path Samples.one_bridge "pci_02_00_0"
     = sbdf_to_path Samples.one_bridge "0000:02:00.0".
Proof.
  destruct (sbdf_to_path_accepts_all_spellings Samples.one_bridge true "0000"
              "_" "_" "_" Samples.device_02_00_0
              eq_refl eq_refl eq_refl eq_refl eq_refl) as [Hfull Hflat].
  split; [exact Hfull|exact (Hflat eq_refl)].
Defined.

End CodecSpellings.

Section CodecMigration.
Import Py Utils Topology PathForm.

Lemma reachable_path fs device_id m :
  sbdf_regex_match device_id = Some m ->
  reachable fs (segment_of_match m) (bdf_of_match m) ->
  exists hops,
    sbdf_to_path fs device_id
    = Ok (Some (path_text (segment_of_match m) hops))
    /\ path_to_sbdf fs (path_text (segment_of_match m) hops)
       = Ok (sbdf_name (segment_of_match m) (bdf_of_match m)).
Proof.
  intros Hm Hreach. destruct (sbdf_regex_match_inv _ _ Hm) as [Hs Hx].
  destruct Hreach as [[Hroot Hwalk]|[chain Hchain]].
  - eexists. split; [by apply sbdf_to_path_root|].
    by apply path_to_sbdf_path_text.
  - eexists. split; [by eapply sbdf_to_path_chain|].
    destruct Hchain as (_ & _ & _ & _ & _ & _ & _ & _ & _ & Hlast & Hwalk).
    by apply path_to_sbdf_path_text.
Qed.

(** X2: two identifiers of devices of the live tree that [sbdf_to_path]
    maps to the same path name the same segment, bus, device and
    function. *)
Theorem sbdf_to_path_injective (fs : sysfs) (a b : string)
    (m m' : dev_match) (path : string) :
  sbdf_regex_match a = Some m -> sbdf_regex_match b = Some m' ->
  reachable fs (segment_of_match m) (bdf_of_match m) ->
  reachable fs (segment_of_match m') (bdf_of_match m') ->
  sbdf_to_path fs a = Ok (Some path) ->
  sbdf_to_path fs b = Ok (Some path) ->
  sbdf_name (segment_of_match m) (bdf_of_match m)
  = sbdf_name (segment_of_match m') (bdf_of_match m').
Proof.
  intros Ha Hb Hra Hrb Hpa Hpb.
  destruct (reachable_path fs a m Ha Hra) as (ha & Ha1 & Ha2).
  destruct (reachable_path fs b m' Hb Hrb) as (hb & Hb1 & Hb2).
  rewrite Hpa in Ha1. rewrite Hpb in Hb1.
  injection Ha1 as Ea. injection Hb1 as Eb.
  rewrite <- Ea in Ha2. rewrite <- Eb in Hb2. rewrite Ha2 in Hb2.
  by injection Hb2.
Qed.

Lemma sbdf_to_path_injective_witness :
  sbdf_name "0000" Samples.device_02_00_0
  = sbdf_name "0000" Samples.device_02_00_0.
Proof.
  apply (sbdf_to_path_injective Samples.one_bridge
           "0000:02:00.0" "pci_02_00_0"
           Samples.match_02_00_0
           {| m_segment := None; m_bus := "02"; m_device := "00";
              m_function := "0" |}
           "00_03.0-00_00.0");
    try reflexivity;
    right; exists Samples.chain_before; exact one_bridge_behind.
Defined.

Lemma in_list_map (f : string -> string) x l :
  in_list x l = true -> in_list (f x) (map f l) = true.
Proof.
  unfold in_list. induction l as [|y l IH]; [done|].
  cbn [existsb map]. intros H. apply orb_true_iff in H as [H|H].
  - apply String.eqb_eq in H as ->. by rewrite String.eqb_refl.
  - by rewrite IH, orb_true_r.
Qed.

Lemma root_buses_us_map fs :
  root_buses_us fs = map (replace ":" "_") (root_buses fs).
Proof. unfold root_buses_us, root_buses. by rewrite List.map_map. Qed.

Lemma root_bus_listed fs segment x :
  segment_ok segment = true -> bdf_ok x = true ->
  in_list (segment +:+ ":" +:+ bdf_bus x) (root_buses fs) = true ->
  in_list (segment +:+ "_" +:+ bdf_bus x) (root_buses_us fs) = true.
Proof.
  intros Hs Hx Hin. rewrite root_buses_us_map.
  apply (in_list_map (replace ":" "_")) in Hin.
  apply hex_of_len_4 in Hs as (g1 & g2 & g3 & g4 & -> & ? & ? & ? & ?).
  apply bdf_ok_inv in Hx as (b1 & b2 & d1 & d2 & f & -> & ? & ? & ? & ? & ?).
  cbn [bdf_bus] in *. revert Hin. strs. cbn [replace].
  rewrite (hex_differs g1 ":"), (hex_differs g2 ":"), (hex_differs g3 ":"),
    (hex_differs g4 ":"), (hex_differs b1 ":"), (hex_differs b2 ":") by done.
  done.
Qed.

Lemma walk_all_ok fs segment o chain :
  walk fs segment o chain -> Forall (fun x => bdf_ok x = true) chain.
Proof. induction 1; by constructor. Qed.

(** The hops of a chain whose devices sit on the bus that the bridge
    above advertises all have bus number [00]. *)
Lemma seated_hops_flat fs segment o chain :
  walk fs segment o chain -> seated fs segment o chain ->
  exists xs,
    Forall (fun x => bdf_ok x = true) xs
    /\ encoded_hops fs segment o chain = map flat_id xs.
Proof.
  induction 1 as [o|o o' x rest Hx Ho Hle Hread Hwalk IH]; intros Hseat.
  - by exists [].
  - inversion Hseat as [|? ? ? Hbus Hrest]; subst.
    unfold offset_below in Hrest. rewrite Hread in Hrest.
    destruct (IH Hrest) as (xs & Hxs & Hhops).
    exists ({| bdf_bus := "00"; bdf_device := bdf_device x;
               bdf_function := bdf_function x |} :: xs).
    split.
    + constructor; [|done].
      apply bdf_ok_inv in Hx as (b1 & b2 & d1 & d2 & f & -> & ? & ? & ? & ? & ?).
      unfold bdf_ok, hex_of_len. simpl. hexes. reflexivity.
    + cbn [encoded_hops map]. unfold offset_below. rewrite Hread, Hhops.
      by rewrite Z.sub_diag.
Qed.

Lemma is_pci_path_path_text fs segment x xs :
  root_names_ok fs -> segment_ok segment = true ->
  Forall (fun y => bdf_ok y = true) (x :: xs) ->
  is_pci_path fs (path_text segment (map flat_id (x :: xs)))
  = in_list (segment +:+ "_" +:+ bdf_bus x) (root_buses_us fs).
Proof.
  intros Hroots Hs Hall. apply Forall_cons in Hall as [Hx Hxs].
  unfold path_text. rewrite join_flat_ids.
  assert (Hname : is_root_name (segment +:+ "_" +:+ bdf_bus x) = true).
  { pose proof Hs as Hs'.
    apply hex_of_len_4 in Hs' as (g1 & g2 & g3 & g4 & -> & ? & ? & ? & ?).
    pose proof Hx as Hx'.
    apply bdf_ok_inv in Hx' as (b1 & b2 & d1 & d2 & f & -> & ? & ? & ? & ? & ?).
    cbn [bdf_bus]. strs. unfold is_root_name. hexes. reflexivity. }
  assert (Hflat : (segment +:+ "_" +:+ bdf_bus x) +:+ "_" +:+ bdf_device x
                    +:+ "." +:+ bdf_function x +:+ more_hops xs
                  = segment +:+ "_" +:+ flat_id x +:+ more_hops xs).
  { unfold flat_id. by rewrite !str_app_assoc. }
  pose proof (existsb_root_alternatives (root_buses_us fs)
                (segment +:+ "_" +:+ bdf_bus x) x xs Hroots Hname Hx Hxs)
    as Hdecide.
  cbv zeta in Hdecide. rewrite Hflat in Hdecide.
  destruct (String.eqb_spec segment "0000") as [->|Hne].
  - unfold is_pci_path.
    assert (Hthird : (2 <? len (flat_id x +:+ more_hops xs))%nat
              && String.eqb (take 1 (drop 2 (flat_id x +:+ more_hops xs))) "_"
              = true).
    { pose proof Hx as Hx'.
      apply bdf_ok_inv in Hx' as (b1 & b2 & d1 & d2 & f & -> & _).
      unfold flat_id. cbn [bdf_bus bdf_device bdf_function]. strs.
      reflexivity. }
    rewrite Hthird. exact Hdecide.
  - unfold is_pci_path.
    assert (Hthird :
              (2 <? len (segment +:+ "_" +:+ flat_id x +:+ more_hops xs))%nat
              && String.eqb
                   (take 1 (drop 2 (segment +:+ "_" +:+ flat_id x
                                      +:+ more_hops xs))) "_"
              = false).
    { pose proof Hs as Hs'.
      apply hex_of_len_4 in Hs' as (g1 & g2 & g3 & g4 & -> & _ & _ & Hg3 & _).
      strs. cbn [len drop take Nat.ltb Nat.leb andb].
      destruct (String.eqb_spec (String g3 EmptyString) "_") as [E|]; [|done].
      injection E as ->. vm_compute in Hg3. discriminate Hg3. }
    rewrite Hthird. exact Hdecide.
Qed.

Lemma is_pci_path_empty fs : is_pci_path fs EmptyString = false.
Proof.
  unfold is_pci_path. cbn [len Nat.ltb Nat.leb andb].
  induction (match root_buses_us fs with [] => [EmptyString] | r :: l => r :: l
             end) as [|r l IH]; [reflexivity|].
  cbn [existsb]. rewrite IH.
  replace (drop (len r) EmptyString) with EmptyString by (by destruct (len r)).
  cbn [match_after_root]. by rewrite andb_false_r.
Qed.

Lemma load_extras_port_id_path fs p :
  is_pci_path fs p = true -> Vm.load_extras_port_id fs "pci" p = Ok p.
Proof.
  intros Hp. unfold Vm.load_extras_port_id. rewrite Hp.
  by rewrite andb_false_r.
Qed.

(** X3: the migration of [load_extras] is idempotent.  For a device on
    a root bus, or behind bridges below a root bus where every device
    sits on the secondary bus of the bridge above it, the migrated port
    id is a path that [is_pci_path] accepts, and loading that path again
    leaves it as it is. *)
Theorem migration_idempotent (fs : sysfs) (port_id : string) (m : dev_match) :
  root_names_ok fs ->
  sbdf_regex_match port_id = Some m ->
  (on_root_bus fs (segment_of_match m) (bdf_of_match m)
   \/ exists first rest,
        behind_bridges fs (segment_of_match m) (bdf_of_match m)
          (first :: rest)
        /\ in_list (segment_of_match m +:+ ":" +:+ bdf_bus first)
             (root_buses fs) = true
        /\ seated fs (segment_of_match m)
             (offset_below fs (segment_of_match m) first) rest) ->
  exists p,
    Vm.load_extras_port_id fs "pci" port_id = Ok p
    /\ is_pci_path fs p = true
    /\ Vm.load_extras_port_id fs "pci" p = Ok p.
Proof.
  intros Hroots Hm Hwhere.
  destruct (sbdf_regex_match_inv _ _ Hm) as [Hs Hx].
  assert (Hpath : exists p,
             sbdf_to_path fs port_id = Ok (Some p) /\ is_pci_path fs p = true).
  { destruct Hwhere as [[Hroot Hwalk]|(first & rest & Hchain & Hroot & Hseat)].
    - eexists. split; [by apply sbdf_to_path_root|].
      rewrite walk_single_hops by done.
      change [bdf_bus (bdf_of_match m) +:+ "_" +:+ bdf_device (bdf_of_match m)
                +:+ "." +:+ bdf_function (bdf_of_match m)]
        with (map flat_id [bdf_of_match m]).
      rewrite is_pci_path_path_text by (try done; by repeat constructor).
      by apply root_bus_listed.
    - eexists. split; [by eapply sbdf_to_path_chain|].
      destruct Hchain as (_ & _ & _ & _ & _ & _ & _ & _ & _ & _ & Hwalk).
      inversion Hwalk as [|? o' ? ? Hfirst _ _ Hread Hrest]; subst.
      unfold offset_below in Hseat. rewrite Hread in Hseat.
      destruct (seated_hops_flat _ _ _ _ Hrest Hseat) as (xs & Hxs & Hhops).
      cbn [encoded_hops]. unfold offset_below. rewrite Hread, Hhops.
      replace (hop_text (int16 (bdf_bus first) - 0) first)
        with (flat_id first).
      2:{ pose proof (walk_single_hops fs (segment_of_match m) first Hfirst)
            as H1.
          cbn [encoded_hops] in H1. by injection H1 as ->. }
      change (flat_id first :: map flat_id xs)
        with (map flat_id (first :: xs)).
      rewrite is_pci_path_path_text by (try done; by constructor).
      by apply root_bus_listed. }
  destruct Hpath as (p & Hto & Hp).
  destruct (is_pci_path fs port_id) eqn:Hid.
  - exists port_id. by rewrite load_extras_port_id_path.
  - exists p. split; [|split; [done|by apply load_extras_port_id_path]].
    unfold Vm.load_extras_port_id. rewrite Hid, Hto.
    destruct (String.eqb_spec port_id "*") as [->|_]; [discriminate Hm|].
    cbn [String.eqb Ascii.eqb andb negb].
    destruct (String.eqb_spec p EmptyString) as [->|_]; [|reflexivity].
    by rewrite is_pci_path_empty in Hp.
Qed.

Lemma migration_idempotent_witness :
  exists p,
    Vm.load_extras_port_id Samples.one_bridge "pci" "0000:02:00.0" = Ok p
    /\ is_pci_path Samples.one_bridge p = true
    /\ Vm.load_extras_port_id Samples.one_bridge "pci" p = Ok p.
Proof.
  apply (migration_idempotent Samples.one_bridge "0000:02:00.0"
           Samples.match_02_00_0).
  - exact one_bridge_root_names.
  - reflexivity.
  - right. exists Samples.bridge_00_03_0, [Samples.device_02_00_0].
    split; [exact one_bridge_behind|]. split; [reflexivity|].
    apply seated_cons; [reflexivity|]. apply seated_nil.
Defined.

Lemma sep_no_dash c :
  is_sep_uc c || is_sep_du c = true -> ascii_eqb c "-" = false.
Proof.
  unfold is_sep_uc, is_sep_du. intros H.
  repeat (apply orb_true_iff in H as [H|H]);
    apply ascii_eqb_eq in H; subst; reflexivity.
Qed.

Lemma match_bdf_no_dash seg s m :
  match_bdf seg s = Some m -> no_char "-" s = true.
Proof.
  unfold match_bdf.
  destruct s as [|b1 [|b2 [|s1 [|d1 [|d2 [|s2 [|f [|]]]]]]]]; try discriminate.
  destruct (is_hex b1) eqn:?, (is_hex b2) eqn:?, (is_sep_uc s1) eqn:H1,
    (is_hex d1) eqn:?, (is_hex d2) eqn:?, (is_sep_du s2) eqn:H2,
    (is_hex f) eqn:?; simpl; try discriminate.
  intros _. unfold no_char. cbn [all].
  rewrite (hex_differs b1 "-"), (hex_differs b2 "-"), (hex_differs d1 "-"),
    (hex_differs d2 "-"), (hex_differs f "-") by done.
  rewrite (sep_no_dash s1), (sep_no_dash s2); [done|..].
  - by rewrite H2, orb_true_r.
  - by rewrite H1.
Qed.

Lemma match_seg_bdf_no_dash s m :
  match_seg_bdf s = Some m -> no_char "-" s = true.
Proof.
  unfold match_seg_bdf.
  destruct s as [|g1 [|g2 [|g3 [|g4 [|s0 rest]]]]];
    try apply match_bdf_no_dash.
  destruct (is_hex g1 && is_hex g2 && is_hex g3 && is_hex g4 && is_sep_uc s0)
    eqn:Hg; [|apply match_bdf_no_dash].
  destruct (match_bdf (Some _) rest) as [m'|] eqn:Hm;
    [|apply match_bdf_no_dash].
  intros _. apply match_bdf_no_dash in Hm.
  rewrite !andb_true_iff in Hg. destruct Hg as [[[[? ?] ?] ?] H0].
  unfold no_char in *. cbn [all]. rewrite Hm.
  rewrite (hex_differs g1 "-"), (hex_differs g2 "-"), (hex_differs g3 "-"),
    (hex_differs g4 "-") by done.
  rewrite (sep_no_dash s0); [done|]. by rewrite H0.
Qed.

(** No text with a dash is an address for the device regex. *)
Lemma sbdf_regex_match_no_dash s m :
  sbdf_regex_match s = Some m -> no_char "-" s = true.
Proof.
  unfold sbdf_regex_match. destruct (startswith "pci_" s) eqn:Hpre.
  - destruct (match_seg_bdf (drop 4 s)) as [m'|] eqn:Hm.
    + intros _. apply match_seg_bdf_no_dash in Hm.
      rewrite (startswith_split _ _ Hpre). unfold no_char in *.
      rewrite all_app. change (len "pci_") with 4%nat. by rewrite Hm.
    + apply match_seg_bdf_no_dash.
  - apply match_seg_bdf_no_dash.
Qed.

(** X4: a stored path of two hops or more whose first hop is on no
    root bus of the machine is no path for [is_pci_path], so that the
    migration of [load_extras] hands it to [sbdf_to_path], which raises
    [ValueError] for it. *)
Theorem stale_path_fails_to_load (fs : sysfs) (segment : string)
    (x y : bdf) (ys : list bdf) :
  root_names_ok fs -> segment_ok segment = true ->
  Forall (fun z => bdf_ok z = true) (x :: y :: ys) ->
  in_list (segment +:+ "_" +:+ bdf_bus x) (root_buses_us fs) = false ->
  let path := path_text segment (map flat_id (x :: y :: ys)) in
  is_pci_path fs path = false
  /\ Vm.load_extras_port_id fs "pci" path = Raise (ValueError path).
Proof.
  intros Hroots Hs Hall Hroot path.
  assert (Hpath : is_pci_path fs path = false).
  { subst path. by rewrite is_pci_path_path_text. }
  split; [exact Hpath|].
  assert (Hdash : no_char "-" path = false).
  { subst path. unfold path_text. rewrite join_flat_ids. cbn [more_hops].
    unfold no_char.
    destruct (String.eqb segment "0000"); rewrite !all_app; strs; cbn [all];
      change (ascii_eqb "-" "-") with true; cbn [negb andb];
      by rewrite ?andb_false_r. }
  unfold Vm.load_extras_port_id. rewrite Hpath.
  destruct (String.eqb_spec path "*") as [E|_].
  { rewrite E in Hdash. discriminate Hdash. }
  cbn [String.eqb Ascii.eqb andb negb]. unfold sbdf_to_path.
  destruct (sbdf_regex_match path) as [m|] eqn:Hm; [|reflexivity].
  apply sbdf_regex_match_no_dash in Hm. congruence.
Qed.

Lemma stale_path_fails_to_load_witness :
  is_pci_path Samples.one_bridge "0001_00_03.0-00_00.0" = false
  /\ Vm.load_extras_port_id Samples.one_bridge "pci" "0001_00_03.0-00_00.0"
     = Raise (ValueError "0001_00_03.0-00_00.0").
Proof.
  exact (stale_path_fails_to_load Samples.one_bridge "0001"
           Samples.bridge_00_03_0 Samples.device_00_00_0 []
           one_bridge_root_names eq_refl ltac:(repeat constructor) eq_refl).
Defined.

End CodecMigration.

(** ** Names of domains *)

Section NameFacts.
Import Py Text UtilsMisc VmNames.

Lemma letter_is_name_char c : is_letter c = true -> is_name_char c = true.
Proof. unfold is_name_char. by intros ->. Qed.

Lemma letter_no_digit_or_mark c :
  is_letter c = true -> is_digit c || contains "_.-" c = false.
Proof.
  destruct c as [[] [] [] [] [] [] [] []]; intros H; try discriminate H;
    reflexivity.
Qed.

Lemma letter_not_at c : is_letter c = true -> ascii_eqb "@" c = false.
Proof.
  destruct c as [[] [] [] [] [] [] [] []]; intros H; try discriminate H;
    reflexivity.
Qed.

Lemma validate_name_first_letter holder prop value :
  validate_name holder prop value = None ->
  exists c r, value = String c r /\ is_letter c = true
              /\ all is_name_char r = true.
Proof.
  unfold validate_name.
  destruct (31 <? len value)%nat; [discriminate|].
  destruct (starts_with_digit_or_mark value); [discriminate|].
  destruct (name_regex_match value) eqn:Hre; [|discriminate].
  intros _. destruct value as [|c r]; [discriminate|]. cbn in Hre.
  apply andb_true_iff in Hre as [Hc Hr]. eauto.
Qed.

(** X7: [validate_name] returns, whatever holder and property it is
    given, exactly for the names of at most 31 characters that start
    with a letter, are made of letters, digits, [_], [.] and [-], are
    none of [Domain-0], [none] and [default], and do not end with
    [-dm]. *)
Theorem validate_name_accepts (holder : bool) (prop : option string)
    (value : string) :
  validate_name holder prop value = None
  <-> (len value <= 31)%nat
      /\ (exists c r, value = String c r /\ is_letter c = true)
      /\ all is_name_char value = true
      /\ value <> "Domain-0" /\ value <> "none" /\ value <> "default"
      /\ endswith "-dm" value = false.
Proof.
  unfold validate_name. split.
  - destruct (Nat.ltb_spec 31 (len value)) as [|Hlen]; [discriminate|].
    destruct (starts_with_digit_or_mark value); [discriminate|].
    destruct (name_regex_match value) eqn:Hre; [|discriminate].
    cbn [negb].
    destruct (String.eqb_spec value "Domain-0") as [|Hdom]; [discriminate|].
    destruct (String.eqb_spec value "none") as [|Hnone]; [discriminate|].
    destruct (String.eqb_spec value "default") as [|Hdef]; [discriminate|].
    cbn [orb]. destruct (endswith "-dm" value) eqn:Hdm; [discriminate|].
    intros _. repeat split; try done.
    + destruct value as [|c r]; [discriminate|]. cbn in Hre.
      apply andb_true_iff in Hre as [Hc _]. eauto.
    + destruct value as [|c r]; [discriminate|]. cbn in Hre.
      apply andb_true_iff in Hre as [Hc Hr]. cbn [all].
      by rewrite letter_is_name_char, Hr.
  - intros (Hlen & (c & r & -> & Hc) & Hall & Hdom & Hnone & Hdef & Hdm).
    destruct (Nat.ltb_spec 31 (len (String c r))) as [|_]; [lia|].
    cbn [starts_with_digit_or_mark name_regex_match].
    rewrite letter_no_digit_or_mark by done. cbn [andb].
    cbn [all] in Hall. apply andb_true_iff in Hall as [_ Hr].
    rewrite Hc, Hr. cbn [andb negb].
    destruct (String.eqb_spec (String c r) "Domain-0") as [|_]; [done|].
    destruct (String.eqb_spec (String c r) "none") as [|_]; [done|].
    destruct (String.eqb_spec (String c r) "default") as [|_]; [done|].
    cbn [orb]. by rewrite Hdm.
Qed.

(** X8: a name that [validate_name] accepts is never read as a
    [@tag:] or [@type:] selector: [match_vm_name_with_special] compares
    it with the name of the domain. *)
Theorem valid_name_is_no_selector (holder : bool) (prop : option string)
    (name : string) (vm : vm_view) :
  validate_name holder prop name = None ->
  match_vm_name_with_special vm name = String.eqb name (vm_name vm).
Proof.
  intros H. apply validate_name_first_letter in H as (c & r & -> & Hc & _).
  unfold match_vm_name_with_special. cbn [startswith].
  by rewrite letter_not_at.
Qed.

Lemma validate_name_same_verdict holder prop holder' prop' value :
  validate_name holder prop value = None ->
  validate_name holder' prop' value = None.
Proof.
  unfold validate_name.
  destruct (31 <? len value)%nat; [discriminate|].
  destruct (starts_with_digit_or_mark value); [discriminate|].
  destruct (negb (name_regex_match value)); [discriminate|]. done.
Qed.

Lemma name_char_ascii c : is_name_char c = true -> (code c <? 128) = true.
Proof.
  destruct c as [[] [] [] [] [] [] [] []]; intros H; try discriminate H;
    reflexivity.
Qed.

Lemma valid_name_ascii holder prop value :
  validate_name holder prop value = None -> is_ascii value = true.
Proof.
  intros (c & r & -> & Hc & Hr)%validate_name_first_letter.
  unfold is_ascii. cbn [all].
  rewrite (name_char_ascii c (letter_is_name_char c Hc)). cbn [andb].
  revert Hr. apply all_impl, name_char_ascii.
Qed.

(** X27: [VMProperty.sanitize] returns its argument exactly when it is
    the empty string or a name that [validate_name] accepts; it returns
    nothing but its argument, and what it raises is a
    [QubesValueError]. *)
Theorem sanitize_accepts_valid_names (prop value : string) :
  (sanitize prop value = inr value
   <-> value = EmptyString \/ validate_name false None value = None)
  /\ (forall name, sanitize prop value = inr name -> name = value)
  /\ (forall e, sanitize prop value = inl e ->
        exists msg, e = QubesValueError msg).
Proof.
  unfold sanitize. split; [split|split].
  - destruct (is_ascii value); cbn [negb]; [|discriminate].
    destruct (String.eqb_spec value EmptyString) as [|_]; [by left|].
    destruct (validate_name false (Some prop) value) eqn:Hv; [discriminate|].
    intros _. right. revert Hv. apply validate_name_same_verdict.
  - intros [->|Hv]; [done|].
    rewrite (valid_name_ascii _ _ _ Hv). cbn [negb].
    destruct (String.eqb value EmptyString); [done|].
    by rewrite (validate_name_same_verdict _ _ false (Some prop) _ Hv).
  - intros name. destruct (negb (is_ascii value)); [discriminate|].
    destruct (String.eqb value EmptyString); [congruence|].
    destruct (validate_name false (Some prop) value); congruence.
  - intros e. destruct (negb (is_ascii value)); [intros [= <-]; eauto|].
    destruct (String.eqb value EmptyString); [discriminate|].
    unfold validate_name.
    repeat match goal with
           | |- context [if ?b then _ else _] => destruct b
           end; intros [= <-]; eauto.
Qed.

Lemma valid_name_is_no_selector_witness :
  match_vm_name_with_special MoreSamples.work "work" = true.
Proof.
  apply (valid_name_is_no_selector false None "work" MoreSamples.work).
  reflexivity.
Defined.

End NameFacts.

(** ** Text for the log *)

Section LogFacts.
Import Py Text UtilsMisc.

(** The allowed bytes are the printable ASCII characters, space
    included. *)
Lemma allowed_printable c :
  contains allowed c = (32 <=? code c) && (code c <=? 126).
Proof. destruct c as [[] [] [] [] [] [] [] []]; vm_compute; reflexivity. Qed.

Lemma len_take_min n s : len (take n s) = Nat.min (len s) n.
Proof.
  revert s. induction n as [|n IH]; intros [|c s]; try reflexivity.
  cbn [take len]. rewrite IH. lia.
Qed.

Lemma take_all n s : (len s <= n)%nat -> take n s = s.
Proof.
  revert s. induction n as [|n IH]; intros [|c s] H; try reflexivity.
  - cbn [len] in H. lia.
  - cbn [take]. rewrite IH; [done|]. cbn [len] in H. lia.
Qed.

Lemma len_map_chars f s : len (Pci.map_chars f s) = len s.
Proof. induction s as [|c s IH]; [reflexivity|]. cbn. by rewrite IH. Qed.

Lemma all_map_chars p f s :
  (forall c, p (f c) = true) -> all p (Pci.map_chars f s) = true.
Proof.
  intros H. induction s as [|c s IH]; [reflexivity|].
  cbn [Pci.map_chars all]. by rewrite H, IH.
Qed.

Lemma map_chars_fixed f s :
  all (fun c => ascii_eqb (f c) c) s = true -> Pci.map_chars f s = s.
Proof.
  induction s as [|c s IH]; [reflexivity|]. cbn [all]. intros H.
  apply andb_true_iff in H as [Hc Hs]. apply ascii_eqb_eq in Hc.
  cbn [Pci.map_chars]. by rewrite Hc, IH.
Qed.

(** X9: the text that [sanitize_stderr_for_log] returns has the length
    of its input, 4096 at most, and holds printable ASCII characters
    (codes 32 to 126) only; an input of 4096 such characters or fewer is
    returned as it is, and sanitizing twice is sanitizing once. *)
Theorem sanitize_stderr_for_log_safe (untrusted_stderr : string) :
  let printable c := (32 <=? code c) && (code c <=? 126) in
  let out := sanitize_stderr_for_log untrusted_stderr in
  len out = Nat.min (len untrusted_stderr) 4096
  /\ all printable out = true
  /\ ((len untrusted_stderr <= 4096)%nat ->
      all printable untrusted_stderr = true -> out = untrusted_stderr)
  /\ sanitize_stderr_for_log out = out.
Proof.
  intros printable out.
  assert (Hlen : len out = Nat.min (len untrusted_stderr) 4096).
  { subst out. unfold sanitize_stderr_for_log.
    by rewrite len_map_chars, len_take_min. }
  assert (Hall : all printable out = true).
  { subst out. unfold sanitize_stderr_for_log. apply all_map_chars.
    intros c. rewrite allowed_printable. fold (printable c).
    by destruct (printable c) eqn:Hc. }
  assert (Hsame : forall s, (len s <= 4096)%nat -> all printable s = true ->
            sanitize_stderr_for_log s = s).
  { intros s Hs Hp. unfold sanitize_stderr_for_log.
    rewrite take_all by done. apply map_chars_fixed.
    revert Hp. apply all_impl. intros c Hc.
    rewrite allowed_printable. fold (printable c). rewrite Hc.
    apply ascii_eqb_eq. reflexivity. }
  repeat split; [done|done|apply Hsame|].
  apply Hsame; [|done]. rewrite Hlen. lia.
Qed.

End LogFacts.

(** ** Tags *)

Section TagsFacts.
Import Py Text Tags TagsSpec.

Implicit Types (w : world) (st : state) (elem : string).

Lemma same_alphabet c : contains safe_set c = contains allowed_chars c.
Proof. destruct c as [[] [] [] [] [] [] [] []]; vm_compute; reflexivity. Qed.

Lemma add_tags w elem st :
  tags (add w elem st).1 = tags st
  \/ (all (contains allowed_chars) elem = true
      /\ tags (add w elem st).1 = tags st ∪ {[elem]}).
Proof.
  unfold add. destruct (all (contains allowed_chars) elem); cbn [negb].
  - destruct (bool_decide (elem ∈ tags st)); [by left|by right].
  - by left.
Qed.

Lemma remove_tags w elem st : tags (remove w elem st).1 ⊆ tags st.
Proof.
  unfold remove. destruct (bool_decide (elem ∈ tags st)); cbn; set_solver.
Qed.

Lemma add_valid w elem st :
  (forall t, t ∈ tags st -> all (contains allowed_chars) t = true) ->
  forall t, t ∈ tags (add w elem st).1 ->
            all (contains allowed_chars) t = true.
Proof.
  intros Hst t. destruct (add_tags w elem st) as [->|[Hok ->]]; [by apply Hst|].
  intros [?| ->%elem_of_singleton]%elem_of_union; [by apply Hst|done].
Qed.

Lemma add_each_valid w other : forall st,
  (forall t, t ∈ tags st -> all (contains allowed_chars) t = true) ->
  forall t, t ∈ tags (add_each w other st).1 ->
            all (contains allowed_chars) t = true.
Proof.
  induction other as [|elem rest IH]; intros st Hst; [done|].
  cbn [add_each].
  pose proof (add_valid w elem st Hst) as Hadd.
  destruct (add w elem st) as [st' [[]|e]]; cbn [fst] in *; [|done].
  by apply IH.
Qed.

Lemma remove_each_subset w items : forall st,
  tags (remove_each w items st).1 ⊆ tags st.
Proof.
  induction items as [|item rest IH]; intros st; [done|].
  cbn [remove_each].
  pose proof (remove_tags w item st) as Hsub.
  destruct (remove w item st) as [st' [[]|e]]; cbn [fst] in *; [|done].
  etrans; [apply IH|done].
Qed.

(** X10: when every tag of the set is made of the allowed characters,
    this is still so after [add], [remove], [discard], [update] and
    [clear], whether they return or raise. *)
Theorem tags_stay_valid (w : world) (st : state) (elem : string)
    (others : list (list string)) :
  all_valid st ->
  all_valid (add w elem st).1 /\ all_valid (remove w elem st).1
  /\ all_valid (discard w elem st).1 /\ all_valid (update w others st).1
  /\ all_valid (clear w st).1.
Proof.
  intros Hst. repeat split; intros t.
  - by apply add_valid.
  - intros Ht. apply Hst. by apply (remove_tags w elem st).
  - unfold discard. destruct (bool_decide (elem ∈ tags st)); [|by apply Hst].
    intros Ht. apply Hst. by apply (remove_tags w elem st).
  - revert st Hst. induction others as [|other rest IH]; intros st Hst;
      [by apply Hst|].
    cbn [update].
    pose proof (add_each_valid w other st Hst) as Hother.
    destruct (add_each w other st) as [st' [[]|e]]; cbn [fst] in *;
      [by apply IH|by apply Hother].
  - intros Ht. apply Hst. unfold clear in Ht.
    by apply remove_each_subset in Ht.
Qed.

Lemma tagged_valid : all_valid MoreSamples.tagged.
Proof.
  intros t Ht. change (t ∈ ({["created-by-dom0"]} : gset string)) in Ht.
  apply elem_of_singleton in Ht as ->. reflexivity.
Qed.

Lemma tags_stay_valid_witness :
  all_valid (add MoreSamples.quiet_handlers "audio" MoreSamples.tagged).1
  /\ all_valid (remove MoreSamples.quiet_handlers "audio" MoreSamples.tagged).1
  /\ all_valid (discard MoreSamples.quiet_handlers "audio" MoreSamples.tagged).1
  /\ all_valid (update MoreSamples.quiet_handlers [["audio"; "no net"]]
                  MoreSamples.tagged).1
  /\ all_valid (clear MoreSamples.quiet_handlers MoreSamples.tagged).1.
Proof.
  apply (tags_stay_valid MoreSamples.quiet_handlers MoreSamples.tagged
           "audio" [["audio"; "no net"]]).
  exact tagged_valid.
Defined.

(** X11: [Tags.add] raises [ValueError] and changes nothing for a tag
    that [validate_tag] refuses; for any other tag the tag is in the set
    afterwards, and adding it again changes nothing and fires no
    event. *)
Theorem add_settles (w : world) (elem : string) (st : state) :
  match validate_tag elem with
  | Raise _ =>
      add w elem st = (st, Raise (ValueError "Invalid character in tag"))
  | Ok _ =>
      let st1 := (add w elem st).1 in
      elem ∈ tags st1 /\ add w elem st1 = (st1, Ok tt)
  end.
Proof.
  unfold validate_tag, add.
  replace (all (contains safe_set) elem)
    with (all (contains allowed_chars) elem).
  2:{ induction elem as [|c r IH]; [done|]. cbn [all].
      by rewrite IH, same_alphabet. }
  destruct (all (contains allowed_chars) elem); cbn [negb]; [|done].
  destruct (bool_decide (elem ∈ tags st)) eqn:Hin; cbn [fst tags].
  - apply bool_decide_eq_true in Hin. split; [done|].
    by rewrite bool_decide_eq_true_2.
  - split; [set_solver|]. rewrite bool_decide_eq_true_2; [done|set_solver].
Qed.

(** X12: adding a tag that is made of allowed characters and is not in
    the set, then removing it, gives back the set as it was and fires
    [domain-tag-add:TAG], then [domain-tag-delete:TAG]. *)
Theorem add_then_remove (w : world) (elem : string) (st : state) :
  all (contains allowed_chars) elem = true ->
  elem ∉ tags st ->
  let st1 := (add w elem st).1 in
  let st2 := (remove w elem st1).1 in
  tags st2 = tags st
  /\ fired st2 = fired st ++ [add_event elem; delete_event elem].
Proof.
  intros Hok Hnew st1 st2. subst st1 st2. unfold add. rewrite Hok.
  cbn [negb]. rewrite bool_decide_eq_false_2 by done. cbn [fst].
  unfold remove. cbn [tags fired].
  rewrite bool_decide_eq_true_2 by set_solver. cbn [fst tags fired].
  split; [set_solver|]. by rewrite <- app_assoc.
Qed.

Lemma add_then_remove_witness :
  let st1 := (add MoreSamples.quiet_handlers "audio" MoreSamples.tagged).1 in
  let st2 := (remove MoreSamples.quiet_handlers "audio" st1).1 in
  tags st2 = tags MoreSamples.tagged
  /\ fired st2
     = fired MoreSamples.tagged ++ [add_event "audio"; delete_event "audio"].
Proof.
  apply (add_then_remove MoreSamples.quiet_handlers "audio" MoreSamples.tagged).
  - reflexivity.
  - change ("audio" ∉ ({["created-by-dom0"]} : gset string)).
    intros [=]%elem_of_singleton.
Defined.

Lemma remove_each_progress w items : forall st,
  NoDup items -> (forall t, t ∈ items -> t ∈ tags st) ->
  exists gone left,
    items = gone ++ left
    /\ tags (remove_each w items st).1 = tags st ∖ list_to_set gone
    /\ fired (remove_each w items st).1
       = fired st ++ map delete_event gone
    /\ match (remove_each w items st).2 with
       | Ok _ => left = []
       | Raise e =>
           exists before item,
             gone = before ++ [item]
             /\ fire_event w (fired st ++ map delete_event before)
                  (delete_event item) = Raise e
       end.
Proof.
  induction items as [|item rest IH]; intros st Hnodup Hin.
  - exists [], []. cbn. rewrite app_nil_r. repeat split. set_solver.
  - apply NoDup_cons in Hnodup as [Hfresh Hnodup].
    cbn [remove_each]. unfold remove.
    rewrite bool_decide_eq_true_2 by (apply Hin; set_solver).
    fold (delete_event item).
    destruct (fire_event w (fired st) (delete_event item)) as [[]|e] eqn:Hfire.
    + destruct (IH {| tags := tags st ∖ {[item]};
                      fired := fired st ++ [delete_event item] |}
                  Hnodup)
        as (gone & left & -> & Htags & Hfired & Hout).
      { intros t Ht. cbn [tags]. apply elem_of_difference. split.
        - apply Hin. set_solver.
        - intros ->%elem_of_singleton. done. }
      exists (item :: gone), left. split; [done|].
      cbn [tags fired] in *. split; [rewrite Htags; set_solver|].
      split; [rewrite Hfired; cbn [map]; by rewrite <- app_assoc|].
      destruct (remove_each w (gone ++ left) _).2 as [[]|e]; [done|].
      destruct Hout as (before & it & -> & Hraise).
      exists (item :: before), it. split; [done|].
      cbn [map]. by rewrite <- app_assoc in Hraise.
    + exists [item], rest. cbn [fst snd tags fired map]. split; [done|].
      split; [set_solver|]. split; [done|].
      exists [], item. cbn [map]. by rewrite app_nil_r.
Qed.

(** X13: [Tags.clear] removes the tags in the order of iteration and
    fires one [domain-tag-delete] event for each.  When it returns the
    set is empty; when a handler raises, the tags up to the one whose
    event raised are gone, that one included, and the others are still
    in the set. *)
Theorem clear_progress (w : world) (st : state) :
  tuple_of w (tags st) ≡ₚ elements (tags st) ->
  exists gone left,
    tuple_of w (tags st) = gone ++ left
    /\ tags (clear w st).1 = list_to_set left
    /\ fired (clear w st).1 = fired st ++ map delete_event gone
    /\ match (clear w st).2 with
       | Ok _ => left = []
       | Raise e =>
           exists before item,
             gone = before ++ [item]
             /\ fire_event w (fired st ++ map delete_event before)
                  (delete_event item) = Raise e
       end.
Proof.
  intros Horder. unfold clear.
  assert (Hnodup : NoDup (tuple_of w (tags st))).
  { rewrite Horder. apply NoDup_elements. }
  assert (Hin : forall t, t ∈ tuple_of w (tags st) <-> t ∈ tags st).
  { intros t. rewrite Horder. apply elem_of_elements. }
  destruct (remove_each_progress w _ st Hnodup (fun t => proj1 (Hin t)))
    as (gone & left & E & Htags & Hfired & Hout).
  exists gone, left. repeat split; try done.
  rewrite Htags. rewrite E in Hin, Hnodup.
  apply NoDup_app in Hnodup as (_ & Hdisjoint & _).
  apply set_eq. intros t. rewrite elem_of_difference, !elem_of_list_to_set.
  rewrite <- Hin, elem_of_app. split.
  - intros [[?|?] ?]; done.
  - intros Ht. split; [by right|]. intros Hg. by apply (Hdisjoint t).
Qed.

Lemma clear_progress_witness :
  exists gone left,
    tuple_of MoreSamples.quiet_handlers (tags MoreSamples.tagged)
    = gone ++ left
    /\ tags (clear MoreSamples.quiet_handlers MoreSamples.tagged).1
       = list_to_set left
    /\ fired (clear MoreSamples.quiet_handlers MoreSamples.tagged).1
       = fired MoreSamples.tagged ++ map delete_event gone
    /\ match (clear MoreSamples.quiet_handlers MoreSamples.tagged).2 with
       | Ok _ => left = []
       | Raise e =>
           exists before item,
             gone = before ++ [item]
             /\ fire_event MoreSamples.quiet_handlers
                  (fired MoreSamples.tagged ++ map delete_event before)
                  (delete_event item) = Raise e
       end.
Proof.
  apply (clear_progress MoreSamples.quiet_handlers MoreSamples.tagged).
  reflexivity.
Defined.

Lemma add_each_quiet w other : forall st,
  quiet w -> Forall (fun t => all (contains allowed_chars) t = true) other ->
  tags (add_each w other st).1 = tags st ∪ list_to_set other
  /\ fired (add_each w other st).1
     = fired st ++ map add_event (fresh (tags st) other)
  /\ (add_each w other st).2 = Ok tt.
Proof.
  intros st Hquiet Hvalid. revert st.
  induction Hvalid as [|elem rest Helem _ IH]; intros st.
  - cbn. rewrite app_nil_r. split; [set_solver|done].
  - cbn [add_each fresh]. unfold add. rewrite Helem. cbn [negb].
    destruct (bool_decide (elem ∈ tags st)) eqn:Hin.
    + apply bool_decide_eq_true in Hin.
      destruct (IH st) as (Ht & Hf & Hr). split; [|done].
      rewrite Ht. set_solver.
    + fold (add_event elem). rewrite Hquiet.
      destruct (IH {| tags := tags st ∪ {[elem]};
                      fired := fired st ++ [add_event elem] |})
        as (Ht & Hf & Hr).
      cbn [tags fired] in *. split; [rewrite Ht; set_solver|].
      split; [|done]. rewrite Hf. cbn [map]. by rewrite <- app_assoc.
Qed.

Lemma fresh_app seen l1 l2 :
  fresh seen (l1 ++ l2) = fresh seen l1 ++ fresh (seen ∪ list_to_set l1) l2.
Proof.
  revert seen. induction l1 as [|x l1 IH]; intros seen.
  - cbn. f_equal. set_solver.
  - cbn [app fresh]. destruct (bool_decide (x ∈ seen)) eqn:Hin.
    + apply bool_decide_eq_true in Hin. rewrite IH. do 2 f_equal. set_solver.
    + rewrite IH. cbn [app]. do 3 f_equal. set_solver.
Qed.

(** X14: when no handler raises and the tags are made of allowed
    characters, [Tags.update] leaves the union of the set and of its
    arguments, and fires one [domain-tag-add] event for each tag that
    was not in the set, at its first occurrence, and none for the
    others. *)
Theorem update_adds_new (w : world) (others : list (list string))
    (st : state) :
  quiet w ->
  Forall (Forall (fun t => all (contains allowed_chars) t = true)) others ->
  tags (update w others st).1 = tags st ∪ list_to_set (concat others)
  /\ fired (update w others st).1
     = fired st ++ map add_event (fresh (tags st) (concat others))
  /\ (update w others st).2 = Ok tt.
Proof.
  intros Hquiet Hvalid. revert st.
  induction Hvalid as [|other rest Hother _ IH]; intros st.
  - cbn. rewrite app_nil_r. split; [set_solver|done].
  - cbn [update concat].
    destruct (add_each_quiet w other st Hquiet Hother) as (Ht & Hf & Hr).
    destruct (add_each w other st) as [st' r]. cbn [fst snd] in *. subst r.
    destruct (IH st') as (Ht' & Hf' & Hr'). split; [|split; [|done]].
    + rewrite Ht', Ht. set_solver.
    + rewrite Hf', Hf, Ht, fresh_app, map_app. by rewrite <- app_assoc.
Qed.

Lemma quiet_handlers_quiet : quiet MoreSamples.quiet_handlers.
Proof. intros history ev. reflexivity. Qed.

Lemma update_adds_new_witness :
  tags (update MoreSamples.quiet_handlers
          [["audio"; "created-by-dom0"]; ["audio"; "vpn"]]
          MoreSamples.tagged).1
  = tags MoreSamples.tagged
    ∪ list_to_set ["audio"; "created-by-dom0"; "audio"; "vpn"]
  /\ fired (update MoreSamples.quiet_handlers
              [["audio"; "created-by-dom0"]; ["audio"; "vpn"]]
              MoreSamples.tagged).1
     = [add_event "audio"; add_event "vpn"]
  /\ (update MoreSamples.quiet_handlers
        [["audio"; "created-by-dom0"]; ["audio"; "vpn"]]
        MoreSamples.tagged).2 = Ok tt.
Proof.
  apply (update_adds_new MoreSamples.quiet_handlers
           [["audio"; "created-by-dom0"]; ["audio"; "vpn"]]
           MoreSamples.tagged).
  - exact quiet_handlers_quiet.
  - repeat constructor.
Defined.

(** X15: the tag loop of [BaseVM.load_extras] stops at the first tag
    with a character that is not allowed: the tags before it are in the
    set, it raises [ValueError], and the tags after it are not looked
    at. *)
Theorem load_extras_tags_stops_at_bad_tag (w : world)
    (good : list string) (bad : string) (rest : list string) (st : state) :
  quiet w ->
  Forall (fun t => all (contains allowed_chars) t = true) good ->
  all (contains allowed_chars) bad = false ->
  tags (load_extras_tags w (good ++ bad :: rest) st).1
  = tags st ∪ list_to_set good
  /\ (load_extras_tags w (good ++ bad :: rest) st).2
     = Raise (ValueError "Invalid character in tag").
Proof.
  intros Hquiet Hgood Hbad. unfold load_extras_tags. revert st.
  induction Hgood as [|elem good Helem Hgood IH]; intros st.
  - cbn [app add_each]. unfold add. rewrite Hbad. cbn. split; [set_solver|done].
  - cbn [app add_each].
    destruct (add_each_quiet w [elem] st Hquiet ltac:(by constructor))
      as (Ht & _ & Hr).
    cbn [add_each] in Ht, Hr.
    destruct (add w elem st) as [st' [[]|e]]; cbn [fst snd] in *;
      [|discriminate Hr].
    destruct (IH st') as (Ht' & Hr'). split; [|done].
    rewrite Ht', Ht. set_solver.
Qed.

Lemma load_extras_tags_stops_at_bad_tag_witness :
  tags (load_extras_tags MoreSamples.quiet_handlers
          (["audio"] ++ "no net" :: ["vpn"]) MoreSamples.tagged).1
  = tags MoreSamples.tagged ∪ list_to_set ["audio"]
  /\ (load_extras_tags MoreSamples.quiet_handlers
        (["audio"] ++ "no net" :: ["vpn"]) MoreSamples.tagged).2
     = Raise (ValueError "Invalid character in tag").
Proof.
  apply (load_extras_tags_stops_at_bad_tag MoreSamples.quiet_handlers
           ["audio"] "no net" ["vpn"] MoreSamples.tagged).
  - exact quiet_handlers_quiet.
  - repeat constructor.
  - reflexivity.
Defined.

End TagsFacts.

(** ** Device objects and listings *)

Section DeviceFacts.
Import Py Pci PciMore PciSpec.

Lemma span_hex_inv s h t :
  span_hex s = (h, t) ->
  s = h +:+ t /\ all is_hex h = true
  /\ match t with String c _ => is_hex c = false | EmptyString => True end.
Proof.
  revert h t. induction s as [|c s IH]; intros h t.
  - intros [= <- <-]. done.
  - cbn [span_hex]. destruct (is_hex c) eqn:Hc.
    + destruct (span_hex s) as [h' t']. intros [= <- <-].
      destruct (IH h' t' eq_refl) as (-> & Hh & Ht).
      rewrite str_app_cons. cbn [all]. by rewrite Hc, Hh.
    + intros [= <- <-]. rewrite str_app_nil_l. done.
Qed.

(** What a match of three hex groups says about the text. *)
Lemma match_hex3_inv sep1 sep2 s B D F :
  match_hex3 sep1 sep2 s = Some (B, D, F) ->
  exists s1 s2,
    s = B +:+ String s1 (D +:+ String s2 F)
    /\ sep1 s1 = true /\ sep2 s2 = true
    /\ all is_hex B = true /\ B <> EmptyString
    /\ all is_hex D = true /\ D <> EmptyString
    /\ all is_hex F = true /\ F <> EmptyString.
Proof.
  unfold match_hex3.
  destruct (span_hex s) as [b t1] eqn:E1.
  destruct b as [|b0 b]; [discriminate|]. destruct t1 as [|s1 r1]; [discriminate|].
  destruct (sep1 s1) eqn:H1; [|discriminate].
  destruct (span_hex r1) as [d t2] eqn:E2.
  destruct d as [|d0 d]; [discriminate|]. destruct t2 as [|s2 r2]; [discriminate|].
  destruct (sep2 s2) eqn:H2; [|discriminate].
  destruct (span_hex r2) as [f t3] eqn:E3.
  destruct f as [|f0 f]; [discriminate|]. destruct t3; [|discriminate].
  intros [= <- <- <-].
  apply span_hex_inv in E1 as (-> & HB & _).
  apply span_hex_inv in E2 as (-> & HD & _).
  apply span_hex_inv in E3 as (-> & HF & _).
  exists s1, s2. rewrite str_app_nil_r. by repeat split.
Qed.

Lemma truthy_libvirt_name d : truthy (Some (libvirt_name d)) = true.
Proof. unfold libvirt_name. by strs. Qed.

(** X16: [PCIDevice.libvirt_name] and the parameter [libvirt_name] of
    the constructor undo each other: the device built from an
    identifier is built again from its libvirt name, and a device built
    from a libvirt name has that name and the identifier
    [BUS_DEVICE.FUNCTION]. *)
Theorem libvirt_name_round_trip (ident any name : string) (dev : PCIDevice) :
  (PCIDevice_init ident None = Ok dev ->
   PCIDevice_init any (Some (libvirt_name dev)) = Ok dev)
  /\ (truthy (Some name) = true ->
      PCIDevice_init any (Some name) = Ok dev ->
      libvirt_name dev = name
      /\ Pci.ident dev
         = bus dev +:+ "_" +:+ device dev +:+ "." +:+ function dev).
Proof.
  split.
  - unfold PCIDevice_init at 1. cbn [truthy].
    destruct (regex_match ident) as [[[b d] f]|] eqn:Hm; [|discriminate].
    intros [= <-]. unfold PCIDevice_init.
    rewrite truthy_libvirt_name. cbn [default from_option id].
    pose proof Hm as Hm'. unfold regex_match in Hm'.
    apply match_hex3_inv in Hm'
      as (s1 & s2 & -> & H1%ascii_eqb_eq & H2%ascii_eqb_eq
          & HB & HBn & HD & HDn & HF & HFn).
    subst s1 s2.
    unfold libvirt_name, libvirt_regex_match. cbn [bus device function].
    rewrite startswith_app. change 9%nat with (len "pci_0000_").
    rewrite drop_add.
    change (b +:+ "_" +:+ d +:+ "_" +:+ f)
      with (b +:+ String "_" (d +:+ String "_" f)).
    rewrite match_hex3_built by done.
    change (b +:+ "_" +:+ d +:+ "." +:+ f)
      with (b +:+ String "_" (d +:+ String "." f)).
    by rewrite Hm.
  - intros Htruthy. unfold PCIDevice_init. rewrite Htruthy. cbn [default from_option id].
    destruct (libvirt_regex_match name) as [[[b d] f]|] eqn:Hm; [|discriminate].
    unfold libvirt_regex_match in Hm.
    destruct (startswith "pci_0000_" name) eqn:Hpre; [|discriminate].
    apply match_hex3_inv in Hm
      as (s1 & s2 & Hname & H1%ascii_eqb_eq & H2%ascii_eqb_eq
          & HB & HBn & HD & HDn & HF & HFn).
    subst s1 s2.
    change (b +:+ "_" +:+ d +:+ "." +:+ f)
      with (b +:+ String "_" (d +:+ String "." f)).
    unfold regex_match. rewrite match_hex3_built by done.
    intros [= <-]. cbn [bus device function Pci.ident]. split; [|done].
    unfold libvirt_name. cbn [bus device function].
    rewrite (startswith_split _ _ Hpre).
    change (len "pci_0000_") with 9%nat. by rewrite Hname.
Qed.




Lemma bind_pci_to_pciback_bindable w d :
  bindable w d -> bind_pci_to_pciback w d = (bind_calls d, Ok tt).
Proof.
  intros [[xml Hlookup] Hdettach]. unfold bind_pci_to_pciback, bind_calls.
  rewrite Hlookup. by destruct Hdettach as [-> | ->].
Qed.

Lemma on_domain_pre_start_bindable w assigned devs :
  Forall2 (fun ident d => _cache_get ident = Ok d) assigned devs ->
  Forall (bindable w) devs ->
  forall rest,
    on_domain_pre_start w (assigned ++ rest)
    = let '(calls, r) := on_domain_pre_start w rest in
      (concat (map bind_calls devs) ++ calls, r).
Proof.
  induction 1 as [|ident d assigned devs Hget _ IH]; intros Hbind rest.
  - cbn. by destruct (on_domain_pre_start w rest).
  - apply Forall_cons in Hbind as [Hd Hbind].
    cbn [app on_domain_pre_start]. rewrite Hget. unfold lift.
    cbn [act_bind]. rewrite (bind_pci_to_pciback_bindable w d Hd).
    rewrite (IH Hbind rest). cbn [act_bind].
    destruct (on_domain_pre_start w rest) as [calls r].
    cbn [map concat]. unfold bind_calls at 2. cbn [app]. done.
Qed.

(** X18: [on_domain_pre_start] binds the assigned devices to pciback in
    order; at the first device that libvirt does not know it raises the
    [QubesException] that says that the device does not exist, and the
    devices after it are not touched.  (The identifier stands for
    [str(device)] in the message, as in [bind_pci_to_pciback].) *)
Theorem pre_start_stops_at_missing_device (w : world)
    (assigned : list string) (devs : list PCIDevice)
    (missing : string) (dev : PCIDevice) (rest : list string) :
  Forall2 (fun ident d => _cache_get ident = Ok d) assigned devs ->
  Forall (bindable w) devs ->
  _cache_get missing = Ok dev ->
  lookup_node w (libvirt_name dev)
  = Raise (libvirtError VIR_ERR_NO_NODE_DEVICE) ->
  on_domain_pre_start w assigned = (concat (map bind_calls devs), Ok tt)
  /\ on_domain_pre_start w (assigned ++ missing :: rest)
     = (concat (map bind_calls devs)
          ++ [NodeDeviceLookupByName (libvirt_name dev)],
        Raise (QubesException
                 ("PCI device " +:+ missing +:+ " does not exist"))).
Proof.
  intros Hget Hbind Hmissing Hlookup. split.
  - rewrite <- (app_nil_r assigned).
    rewrite (on_domain_pre_start_bindable w assigned devs Hget Hbind []).
    cbn. by rewrite app_nil_r.
  - rewrite (on_domain_pre_start_bindable w assigned devs Hget Hbind).
    cbn [on_domain_pre_start]. rewrite Hmissing. unfold lift. cbn [act_bind].
    unfold bind_pci_to_pciback. rewrite Hlookup. cbn.
    do 4 f_equal.
    unfold _cache_get, PCIDevice_init in Hmissing. cbn in Hmissing.
    destruct (regex_match missing) as [[[b d] f]|]; [|discriminate].
    by injection Hmissing as <-.
Qed.

Lemma pre_start_stops_at_missing_device_witness :
  on_domain_pre_start MoreSamples.one_device_known ["02_00.0"]
  = ([NodeDeviceLookupByName "pci_0000_02_00_0";
      NodeDettach "pci_0000_02_00_0"], Ok tt)
  /\ on_domain_pre_start MoreSamples.one_device_known
       (["02_00.0"] ++ "03_00.0" :: ["02_00.0"])
     = ([NodeDeviceLookupByName "pci_0000_02_00_0";
         NodeDettach "pci_0000_02_00_0";
         NodeDeviceLookupByName "pci_0000_03_00_0"],
        Raise (QubesException "PCI device 03_00.0 does not exist")).
Proof.
  apply (pre_start_stops_at_missing_device MoreSamples.one_device_known
           ["02_00.0"] [Samples.fresh_device] "03_00.0"
           MoreSamples.absent_device ["02_00.0"]).
  - repeat constructor.
  - repeat constructor. by exists Samples.nic_xml.
  - reflexivity.
  - reflexivity.
Defined.

(** X19: [on_device_pre_detached_pci] asks libvirt to detach a device
    only for a running domain, after the output of [xl pci-list] held a
    line for the device, from which the search took the slot, and after
    the service [qubes.DetachPciDevice] succeeded in the guest for that
    slot; after the libvirt call it does nothing but call
    [vm.log.exception], once, when that call raised. *)
Theorem detach_needs_guest_service (w : world) (vm : qubesvm)
    (ident xml : string) :
  In (DetachDevice xml) (on_device_pre_detached_pci w vm ident).1 ->
  exists result vmdev tail,
    is_running vm = true
    /\ xl_pci_list w (xid vm) = Ok result
    /\ xl_search (replace "_" ":" ident) true result = Some vmdev
    /\ run_service w "qubes.DetachPciDevice" "root" ("00:" +:+ vmdev) = Ok tt
    /\ (on_device_pre_detached_pci w vm ident).1
       = [Popen ["xl"; "pci-list"; str_of_Z (xid vm)];
          RunService "qubes.DetachPciDevice" "root" ("00:" +:+ vmdev);
          DetachDevice xml] ++ tail
    /\ (tail = []
        \/ exists e,
             detach_device w xml = Raise e
             /\ tail = [LogException (detach_failed_msg ident) e]).
Proof.
  unfold on_device_pre_detached_pci.
  destruct (is_running vm); cbn [negb]; [|intros []].
  destruct (_cache_get ident) as [device|e] eqn:Hdev; [|intros []].
  unfold _cache_get, PCIDevice_init in Hdev. cbn in Hdev.
  destruct (regex_match ident) as [[[b d] f]|]; [|discriminate].
  injection Hdev as <-. cbn [Pci.ident lift act_bind call].
  destruct (xl_pci_list w (xid vm)) as [result|e]; cbn [app fst];
    [|intros [[=]|[]]].
  destruct (xl_search _ true result) as [vmdev|] eqn:Hsearch;
    [|cbn; intros [[=]|[[=]|[]]]].
  unfold try_except, act_bind, call, lift.
  destruct (run_service w _ _ _) as [[]|e] eqn:Hsvc.
  2:{ destruct (is_CalledProcessError e || is_libvirtError e); cbn;
        intuition discriminate. }
  destruct (render_pci_xml w ident None) as [xml'|e].
  2:{ destruct (is_CalledProcessError e || is_libvirtError e); cbn;
        intuition discriminate. }
  intros Hin. exists result, vmdev.
  assert (xml' = xml) as ->.
  { destruct (detach_device w xml') as [[]|e]; cbn in Hin.
    - destruct Hin as [[=]|[[=]|[[=]|[]]]]. done.
    - destruct (is_CalledProcessError e || is_libvirtError e); cbn in Hin;
        intuition congruence. }
  destruct (detach_device w xml) as [[]|e]; cbn.
  - exists []. auto 10.
  - destruct (is_CalledProcessError e || is_libvirtError e); cbn.
    + eexists. do 5 (split; [done|]). right. by exists e.
    + exists []. auto 10.
Qed.

Lemma detach_needs_guest_service_witness :
  exists result vmdev tail,
    is_running Samples.running_hvm = true
    /\ xl_pci_list Samples.refusing (xid Samples.running_hvm) = Ok result
    /\ xl_search (replace "_" ":" "02_00.0") true result = Some vmdev
    /\ run_service Samples.refusing "qubes.DetachPciDevice" "root"
         ("00:" +:+ vmdev) = Ok tt
    /\ (on_device_pre_detached_pci Samples.refusing Samples.running_hvm
          "02_00.0").1
       = [Popen ["xl"; "pci-list"; str_of_Z (xid Samples.running_hvm)];
          RunService "qubes.DetachPciDevice" "root" ("00:" +:+ vmdev);
          DetachDevice "<hostdev 02_00.0/>"] ++ tail
    /\ (tail = []
        \/ exists e,
             detach_device Samples.refusing "<hostdev 02_00.0/>" = Raise e
             /\ tail = [LogException (detach_failed_msg "02_00.0") e]).
Proof.
  apply (detach_needs_guest_service Samples.refusing Samples.running_hvm
           "02_00.0" "<hostdev 02_00.0/>").
  vm_compute. do 2 right. left. reflexivity.
Defined.

Lemma bind_pci_to_pciback_cases w d :
  (bindable w d /\ bind_pci_to_pciback w d = (bind_calls d, Ok tt))
  \/ exists calls e, bind_pci_to_pciback w d = (calls, Raise e)
                     /\ forall xml, ~ In (AttachDevice xml) calls.
Proof.
  unfold bind_pci_to_pciback, bindable, bind_calls.
  destruct (lookup_node w (libvirt_name d)) as [xml|e] eqn:Hlookup.
  - destruct (dettach_node w (libvirt_name d)) as [[]|e] eqn:Hdettach.
    + left. eauto.
    + destruct e as [| | | | | | | |[| |code]|];
        try (right; eexists _, _; split; [reflexivity|];
             cbn; intros ? H; intuition discriminate).
      left. eauto.
  - right. destruct e as [| | | | | | | |[| |code]|];
      eexists _, _; (split; [reflexivity|]);
      cbn; intros ? H; intuition discriminate.
Qed.

(** X20: [on_device_pre_attached_pci] asks libvirt to attach a device
    only after libvirt found it and took it from its driver, or found
    it taken already; after the libvirt call it does nothing but call
    [vm.log.exception] for a failure, once. *)
Theorem attach_needs_pciback (fs : sysfs) (w : world) (vm : qubesvm)
    (ident : string) (options : gmap string string) (xml : string) :
  In (AttachDevice xml) (on_device_pre_attached_pci fs w vm ident options).1 ->
  exists dev tail,
    _cache_get ident = Ok dev /\ bindable w dev
    /\ (on_device_pre_attached_pci fs w vm ident options).1
       = bind_calls dev ++ [AttachDevice xml] ++ tail
    /\ (tail = []
        \/ exists e, tail = [LogException (attach_failed_msg ident) e]).
Proof.
  unfold on_device_pre_attached_pci.
  destruct (path_exists fs _); cbn [negb]; [|intros []].
  destruct (is_adminvm vm); [intros []|].
  destruct (String.eqb (virt_mode vm) "pvh"); [intros []|].
  destruct (is_running vm); cbn [negb]; [|intros []].
  destruct (_cache_get ident) as [device|e] eqn:Hdev.
  2:{ cbn. destruct (is_CalledProcessError e); cbn; intuition discriminate. }
  pose proof Hdev as Hident.
  unfold _cache_get, PCIDevice_init in Hident. cbn in Hident.
  destruct (regex_match ident) as [[[b d] f]|]; [|discriminate].
  injection Hident as Hident.
  assert (Pci.ident device = ident) as Eid by by subst device.
  unfold lift. cbn [act_bind].
  destruct (bind_pci_to_pciback_cases w device)
    as [[Hbind ->]|(calls & e & -> & Hnone)].
  2:{ cbn. destruct (is_CalledProcessError e); cbn; rewrite ?in_app_iff; cbn;
        intros Hin; exfalso; intuition (try discriminate; eauto). }
  rewrite Eid.
  destruct (render_pci_xml w ident (Some options)) as [xml'|e].
  2:{ cbn. destruct (is_CalledProcessError e); cbn; intuition discriminate. }
  intros Hin. exists device.
  assert (xml' = xml) as ->.
  { destruct (attach_device w xml') as [[]|e]; cbn in Hin.
    - intuition congruence.
    - destruct (is_CalledProcessError e); cbn in Hin; intuition congruence. }
  destruct (attach_device w xml) as [[]|e]; cbn.
  - exists []. auto.
  - destruct (is_CalledProcessError e); cbn.
    + eexists. split; [done|]. split; [done|]. split; [reflexivity|].
      right. by exists e.
    + exists []. auto.
Qed.

Lemma attach_needs_pciback_witness :
  exists dev tail,
    _cache_get "02_00.0" = Ok dev /\ bindable Samples.refusing dev
    /\ (on_device_pre_attached_pci Samples.one_bridge Samples.refusing
          Samples.running_hvm "02_00.0" ∅).1
       = bind_calls dev ++ [AttachDevice "<hostdev 02_00.0/>"] ++ tail
    /\ (tail = []
        \/ exists e, tail = [LogException (attach_failed_msg "02_00.0") e]).
Proof.
  apply (attach_needs_pciback Samples.one_bridge Samples.refusing
           Samples.running_hvm "02_00.0" ∅ "<hostdev 02_00.0/>").
  vm_compute. do 2 right. left. reflexivity.
Defined.

Lemma ident_no_percent ident device :
  _cache_get ident = Ok device -> no_char "%" ident = true.
Proof.
  unfold _cache_get, PCIDevice_init. cbn [truthy]. cbv iota.
  unfold regex_match.
  destruct (match_hex3 _ _ ident) as [[[B D] F]|] eqn:E; [|discriminate].
  intros _.
  apply match_hex3_inv
    in E as (s1 & s2 & -> & H1 & H2 & HB & _ & HD & _ & HF & _).
  apply ascii_eqb_eq in H1, H2. subst s1 s2.
  assert (Hhex : forall h, all is_hex h = true -> no_char "%" h = true).
  { intros h. unfold no_char. apply all_impl. intros c Hc.
    by rewrite (hex_differs c "%"). }
  unfold no_char in *. rewrite all_app. cbn [all]. rewrite all_app.
  cbn [all]. by rewrite !Hhex.
Qed.

(** X29: when the detach service of the guest or the detach call of
    libvirt raises a [CalledProcessError] or a [libvirtError],
    [on_device_pre_detached_pci] calls [vm.log.exception] with the
    message of the failure and the exception itself, as its last
    action, and raises the same exception again.  The message has no
    [%] for the exception, so that [logging] drops the record: the
    failure reaches the caller but not the log. *)
Theorem pre_detach_failure_raised_again (w : world) (vm : qubesvm)
    (ident : string) (device : PCIDevice) (result vmdev xml : string)
    (e : exn) :
  is_running vm = true ->
  _cache_get ident = Ok device ->
  xl_pci_list w (xid vm) = Ok result ->
  xl_search (replace "_" ":" ident) true result = Some vmdev ->
  is_CalledProcessError e || is_libvirtError e = true ->
  (run_service w "qubes.DetachPciDevice" "root" ("00:" +:+ vmdev) = Raise e
   \/ (run_service w "qubes.DetachPciDevice" "root" ("00:" +:+ vmdev) = Ok tt
       /\ render_pci_xml w ident None = Ok xml
       /\ detach_device w xml = Raise e)) ->
  exists calls,
    on_device_pre_detached_pci w vm ident
    = (calls ++ [LogException (detach_failed_msg ident) e], Raise e)
    /\ no_placeholder (LogException (detach_failed_msg ident) e) = true.
Proof.
  intros Hrun Hdev Hlist Hsearch Hclass Hfail.
  assert (Hdrop : no_placeholder (LogException (detach_failed_msg ident) e)
                  = true).
  { cbn [no_placeholder]. unfold detach_failed_msg, no_char.
    rewrite !all_app. fold (no_char "%" ident).
    by rewrite (ident_no_percent _ _ Hdev). }
  unfold on_device_pre_detached_pci.
  rewrite Hrun. simpl negb. cbv iota.
  rewrite Hdev. unfold lift, call. simpl act_bind.
  rewrite Hlist, (cache_get_ident _ _ Hdev), Hsearch.
  destruct Hfail as [Hsvc|(Hsvc & Hxml & Hdetach)].
  - rewrite Hsvc. simpl. rewrite Hclass. simpl.
    eexists [_; _]. split; [reflexivity|exact Hdrop].
  - rewrite Hsvc. simpl. rewrite Hxml. simpl. rewrite Hdetach. simpl.
    rewrite Hclass. simpl. eexists [_; _; _]. split; [reflexivity|exact Hdrop].
Qed.

Lemma pre_detach_failure_raised_again_witness :
  exists calls,
    on_device_pre_detached_pci Samples.refusing Samples.running_hvm "02_00.0"
    = (calls ++ [LogException (detach_failed_msg "02_00.0")
                   (libvirtError (VIR_ERR_other 55))],
       Raise (libvirtError (VIR_ERR_other 55)))
    /\ no_placeholder (LogException (detach_failed_msg "02_00.0")
                         (libvirtError (VIR_ERR_other 55))) = true.
Proof.
  apply (pre_detach_failure_raised_again Samples.refusing
           Samples.running_hvm "02_00.0" Samples.fresh_device
           ("Vdev Device" +:+ Samples.nl +:+ "05.0 0000:02:00.0"
              +:+ Samples.nl)
           "05.0" "<hostdev 02_00.0/>" (libvirtError (VIR_ERR_other 55)));
    try reflexivity.
  right. repeat split; reflexivity.
Defined.

End DeviceFacts.

(** ** Volumes of an AppVM *)

Section VolumeFacts.
Import AppVm.

Lemma add_template_volumes_union items : forall volume_config,
  add_template_volumes items volume_config
  = volume_config ∪ (delete "vid" <$> list_to_map items).
Proof.
  induction items as [|[name conf] rest IH]; intros volume_config.
  - cbn. by rewrite fmap_empty, (right_id_L ∅ (∪)).
  - cbn [add_template_volumes list_to_map foldr]. rewrite IH.
    change (foldr _ ∅ rest) with (list_to_map rest : gmap string config).
    cbn [fst snd]. rewrite fmap_insert. apply map_eq. intros k.
    destruct (volume_config !! name) as [c|] eqn:Hname.
    + rewrite bool_decide_eq_false_2 by done.
      rewrite !lookup_union.
      destruct (decide (k = name)) as [->|Hk].
      * rewrite Hname, lookup_insert_eq.
        destruct ((delete "vid" <$> list_to_map rest) !! name); reflexivity.
      * by rewrite lookup_insert_ne.
    + rewrite bool_decide_eq_true_2 by done.
      rewrite !lookup_union.
      destruct (decide (k = name)) as [->|Hk].
      * rewrite Hname, !lookup_insert_eq. cbn.
        by destruct ((delete "vid" <$> list_to_map rest) !! name).
      * by rewrite !lookup_insert_ne.
Qed.

(** X21: in [AppVM.__init__], a volume of the template is added only
    under a name that [default_volume_config] does not have: [root],
    [private], [volatile] and [kernel] keep their own configuration,
    and every added configuration comes without [vid]. *)
Theorem template_volumes_never_override (private_img_size root_img_size : value)
    (items : list (string * config)) :
  let own : gmap string config :=
    list_to_map (default_volume_config private_img_size root_img_size) in
  let volume_config :=
    init_volume_config private_img_size root_img_size (Some items) in
  volume_config = own ∪ (delete "vid" <$> list_to_map items)
  /\ (forall name, name ∈ ["root"; "private"; "volatile"; "kernel"] ->
        volume_config !! name = own !! name /\ is_Some (own !! name))
  /\ (forall name conf, own !! name = None ->
        volume_config !! name = Some conf -> conf !! "vid" = None).
Proof.
  intros own volume_config.
  assert (E : volume_config = own ∪ (delete "vid" <$> list_to_map items)).
  { subst volume_config own. unfold init_volume_config.
    apply add_template_volumes_union. }
  split; [exact E|]. split.
  - intros name Hname.
    assert (Hown : is_Some (own !! name)).
    { subst own. rewrite !elem_of_cons in Hname.
      destruct Hname as [->|[->|[->|[->|Hname]]]];
        [by eexists..|by apply elem_of_nil in Hname]. }
    split; [|done]. rewrite E, lookup_union.
    destruct Hown as [c ->]. by destruct (_ !! name).
  - intros name conf Hnone. rewrite E, lookup_union, Hnone.
    rewrite (left_id None _), lookup_fmap.
    destruct (list_to_map items !! name) as [c|]; [|done].
    intros [= <-]. apply lookup_delete_eq.
Qed.

Lemma update_storage_untouched init_volume defaults name :
  Forall (fun item => item.1 = name ->
            truthy (default (VBool false) (item.2 !! "snap_on_start")) = false
            \/ default VNone (item.2 !! "source") <> VNone) defaults ->
  forall volume_config,
    (template_changed_update_storage init_volume defaults volume_config).1.1
      !! name = volume_config !! name
    /\ Forall (fun call => call.1 <> name)
         (template_changed_update_storage init_volume defaults
            volume_config).1.2.
Proof.
  induction 1 as [|[volume_name conf] rest Hitem _ IH]; intros volume_config;
    [done|].
  cbn [template_changed_update_storage].
  destruct (truthy _ && _) eqn:Hcond; [|apply IH].
  assert (volume_name <> name) as Hne.
  { intros ->. cbn [fst snd] in Hitem.
    apply andb_true_iff in Hcond as [Hsnap Hsource].
    destruct (Hitem eq_refl) as [Hno|Hno]; [congruence|].
    by destruct (default VNone (conf !! "source")). }
  destruct (init_volume volume_name conf) as [[]|e].
  - specialize (IH (<[volume_name := conf]> volume_config)).
    destruct (template_changed_update_storage _ rest _) as [[vc calls] r].
    cbn [fst snd] in *. destruct IH as [-> Hcalls].
    split; [by rewrite lookup_insert_ne|]. by constructor.
  - cbn [fst snd]. split; [by rewrite lookup_insert_ne|].
    by repeat constructor.
Qed.

(** X22: for an AppVM, [template_changed_update_storage] gives the
    root volume the configuration of [AppVM.default_volume_config]
    again and calls [init_volume] for it, once; the configuration of
    every other volume stays as it was. *)
Theorem template_change_resets_root_only
    (init_volume : string -> config -> outcome unit)
    (private_img_size root_img_size : value)
    (volume_config : gmap string config) :
  let defaults := default_volume_config private_img_size root_img_size in
  exists root,
    defaults !! 0%nat = Some ("root", root)
    /\ template_changed_update_storage init_volume defaults volume_config
       = (<["root" := root]> volume_config, [("root", root)],
          init_volume "root" root)
    /\ forall name, name <> "root" ->
         (template_changed_update_storage init_volume defaults
            volume_config).1.1 !! name = volume_config !! name.
Proof.
  intros defaults. eexists. split; [reflexivity|]. split.
  - subst defaults. unfold default_volume_config.
    cbn [template_changed_update_storage].
    repeat match goal with
           | |- context [truthy ?v && ?s] =>
               let b := eval vm_compute in (truthy v && s) in
               change (truthy v && s) with b; cbv iota
           end.
    by destruct (init_volume "root" _) as [[]|e].
  - intros name Hname. apply update_storage_untouched.
    subst defaults. unfold default_volume_config.
    repeat constructor; cbn [fst snd]; intros; try done;
      left; vm_compute; reflexivity.
Qed.

End VolumeFacts.

(** ** Reading the class part of [pci.ids] *)

Section ClassLines.
Import Py Pci PciMore PciIds Topology.

Lemma splitn_piece sep k p rest :
  no_char sep p = true ->
  splitn sep (S k) (p +:+ String sep rest) = p :: splitn sep k rest.
Proof.
  unfold no_char. induction p as [|c p IH]; intros Hp.
  - rewrite str_app_nil_l. cbn [splitn]. unfold ascii_eqb.
    by rewrite Ascii.eqb_refl.
  - cbn [all] in Hp. apply andb_true_iff in Hp as [Hc Hp].
    apply negb_true_iff in Hc.
    rewrite str_app_cons. cbn [splitn]. rewrite Hc. by rewrite IH.
Qed.

Lemma splitn_zero sep s : splitn sep 0 s = [s].
Proof. by destruct s. Qed.

Lemma name_ok_last s :
  name_ok s = true ->
  exists front last, s = front +:+ String last EmptyString
                     /\ is_space last = false
                     /\ (code last <? 128) = true.
Proof.
  unfold name_ok. intros H.
  apply andb_true_iff in H as [[Hascii _]%andb_true_iff H].
  destruct (String.rev s) as [|c r] eqn:E; [discriminate|].
  apply negb_true_iff in H.
  assert (Es : s = String.rev r +:+ String c EmptyString).
  { by rewrite <- (rev_involutive s), E, rev_cons. }
  exists (String.rev r), c. split; [done|]. split; [done|].
  unfold is_ascii in Hascii. rewrite Es, all_app in Hascii.
  apply andb_true_iff in Hascii as [_ Hc]. cbn [all] in Hc.
  by rewrite andb_true_r in Hc.
Qed.

(** A byte below 128 is none of the bytes of a character beyond
    ASCII. *)
Lemma low_not_in_range c lo hi :
  (code c <? 128) = true -> (128 <=? code lo) = true ->
  in_range lo hi c = false.
Proof.
  intros Hc Hlo. unfold in_range. apply andb_false_iff. left.
  apply Z.leb_gt. apply Z.ltb_lt in Hc. apply Z.leb_le in Hlo. lia.
Qed.

Lemma low_not_high c x :
  (code c <? 128) = true -> (128 <=? code x) = true ->
  ascii_eqb c x = false.
Proof.
  intros Hc Hx. destruct (ascii_eqb c x) eqn:E; [|done].
  apply ascii_eqb_eq in E. subst x.
  apply Z.ltb_lt in Hc. apply Z.leb_le in Hx. lia.
Qed.

Lemma low_no_space_2 b c : (code c <? 128) = true -> is_space_2 b c = false.
Proof.
  intros Hc. unfold is_space_2.
  rewrite !(low_not_high c) by done. by rewrite andb_false_r.
Qed.

Lemma low_no_space_3 a b c :
  (code c <? 128) = true -> is_space_3 a b c = false.
Proof.
  intros Hc. unfold is_space_3.
  rewrite !(low_not_high c), !(low_not_in_range c) by done.
  by rewrite !andb_false_r.
Qed.

(** Text that ends with an ASCII character that is no white space is
    left as it is. *)
Lemma rstrip_utf8_last s c :
  (code c <? 128) = true -> is_space c = false ->
  rstrip_utf8 (s +:+ String c EmptyString) = s +:+ String c EmptyString.
Proof.
  intros Hc Hspace. unfold rstrip_utf8. rewrite rev_app.
  change (String.rev (String c EmptyString)) with (String c EmptyString).
  rewrite str_app_cons, str_app_nil_l.
  assert (E : lstrip_rev_utf8 (String c (String.rev s))
              = String c (String.rev s)).
  { cbn [lstrip_rev_utf8]. rewrite Hspace.
    destruct (String.rev s) as [|c1 [|c2 r]]; [done|..].
    - by rewrite low_no_space_2.
    - by rewrite low_no_space_2, low_no_space_3. }
  by rewrite E, rev_cons, rev_involutive.
Qed.

Lemma rstrip_built prefix name :
  name_ok name = true -> rstrip_utf8 (prefix +:+ name) = prefix +:+ name.
Proof.
  intros (front & last & -> & Hlast & Hlow)%name_ok_last.
  rewrite <- str_app_assoc. by apply rstrip_utf8_last.
Qed.

Lemma id_ok_inv s :
  id_ok s = true ->
  exists a b, s = String a (String b EmptyString)
              /\ is_hex a = true /\ is_hex b = true.
Proof. apply hex_of_len_2. Qed.

Lemma id_no_space s : id_ok s = true -> no_char " " s = true.
Proof.
  intros (a & b & -> & Ha & Hb)%id_ok_inv. unfold no_char. cbn [all].
  by rewrite (hex_differs a " "), (hex_differs b " ").
Qed.

Lemma id_truthy s : id_ok s = true -> truthy (Some s) = true.
Proof. by intros (a & b & -> & _)%id_ok_inv. Qed.

(** The three kinds of lines, one turn of the loop each. *)
Lemma class_line_step c rest cid sid result :
  id_ok (class_id c) = true -> name_ok (class_name c) = true ->
  load_pci_classes_loop (class_line c :: rest) cid sid result
  = load_pci_classes_loop rest (Some (class_id c)) None
      (<[class_id c +:+ "00" := class_name c]>
         (<[class_id c +:+ "0000" := class_name c]> result)).
Proof.
  intros Hid Hname. cbn [load_pci_classes_loop].
  unfold class_line.
  rewrite <- !str_app_assoc, (rstrip_built _ _ Hname), !str_app_assoc.
  change ("C " +:+ class_id c +:+ "  " +:+ class_name c)
    with (String "C" (String " " (class_id c +:+ "  " +:+ class_name c))).
  cbn [startswith]. change (ascii_eqb tab "C") with false.
  change (ascii_eqb "C" "C") with true. change (ascii_eqb " " " ") with true.
  cbn [andb].
  assert (E : String "C" (String " " (class_id c +:+ "  " +:+ class_name c))
              = "C" +:+ String " " (class_id c +:+ String " " (EmptyString
                  +:+ String " " (class_name c)))) by reflexivity.
  rewrite E. rewrite splitn_piece by reflexivity.
  rewrite splitn_piece by by apply id_no_space.
  rewrite splitn_piece by reflexivity.
  by rewrite splitn_zero.
Qed.

Lemma subclass_line_step cc s rest sid result :
  id_ok cc = true -> id_ok (sub_id s) = true -> name_ok (sub_name s) = true ->
  load_pci_classes_loop (subclass_line s :: rest) (Some cc) sid result
  = load_pci_classes_loop rest (Some cc) (Some (sub_id s))
      (<[cc +:+ sub_id s := sub_name s]>
         (<[cc +:+ sub_id s +:+ "00" := sub_name s]> result)).
Proof.
  intros Hcc Hid Hname. cbn [load_pci_classes_loop].
  unfold subclass_line.
  assert (E : String tab (sub_id s +:+ "  " +:+ sub_name s)
              = String tab (sub_id s +:+ "  ") +:+ sub_name s).
  { by rewrite (str_app_cons tab (sub_id s +:+ "  ") (sub_name s)),
      str_app_assoc. }
  rewrite E, (rstrip_built _ _ Hname), <- E.
  rewrite (id_truthy cc Hcc). cbn [default from_option id].
  pose proof Hid as (a & b & Es & Ha & Hb)%id_ok_inv.
  rewrite Es at 1 2 3. rewrite !str_app_cons. cbn [startswith drop].
  change (ascii_eqb tab tab) with true.
  rewrite (hex_differs' a tab) by done. cbn [andb].
  rewrite <- !str_app_cons, <- Es.
  assert (E' : sub_id s +:+ "  " +:+ sub_name s
               = sub_id s +:+ String " " (EmptyString
                   +:+ String " " (sub_name s))) by reflexivity.
  rewrite E'. rewrite splitn_piece by by apply id_no_space.
  rewrite splitn_piece by reflexivity.
  by rewrite splitn_zero.
Qed.

Lemma prog_if_line_step cc ss p rest result :
  id_ok cc = true -> id_ok ss = true ->
  id_ok p.1 = true -> name_ok p.2 = true ->
  load_pci_classes_loop (prog_if_line p :: rest) (Some cc) (Some ss) result
  = load_pci_classes_loop rest (Some cc) (Some ss)
      (<[cc +:+ ss +:+ p.1 := p.2]> result).
Proof.
  intros Hcc Hss Hid Hname. cbn [load_pci_classes_loop].
  unfold prog_if_line.
  assert (E : String tab (String tab (p.1 +:+ "  " +:+ p.2))
              = String tab (String tab (p.1 +:+ "  ")) +:+ p.2).
  { by rewrite !(str_app_cons tab), str_app_assoc. }
  rewrite E, (rstrip_built _ _ Hname), <- E.
  rewrite (id_truthy cc Hcc), (id_truthy ss Hss).
  cbn [default from_option id startswith drop andb].
  change (ascii_eqb tab tab) with true. cbn [andb].
  assert (E' : p.1 +:+ "  " +:+ p.2
               = p.1 +:+ String " " (EmptyString +:+ String " " p.2))
    by reflexivity.
  rewrite E'. rewrite splitn_piece by by apply id_no_space.
  rewrite splitn_piece by reflexivity.
  by rewrite splitn_zero.
Qed.

Lemma no_class_line_step l rest sid result :
  no_class_line l = true ->
  load_pci_classes_loop (l :: rest) None sid result
  = load_pci_classes_loop rest None sid result.
Proof.
  unfold no_class_line. intros [_ H%negb_true_iff]%andb_true_iff.
  cbn [load_pci_classes_loop truthy]. by rewrite !andb_false_r, H.
Qed.

Lemma passed_over_step l rest cid sid result :
  passed_over l = true ->
  load_pci_classes_loop (l :: rest) cid sid result
  = load_pci_classes_loop rest cid sid result.
Proof.
  unfold passed_over.
  intros [[_ Htab%negb_true_iff]%andb_true_iff HC%negb_true_iff]%andb_true_iff.
  cbn [load_pci_classes_loop]. rewrite Htab, HC.
  destruct (rstrip_utf8 l) as [|a r]; [done|].
  cbn [startswith] in *. rewrite andb_true_r in Htab. by rewrite Htab.
Qed.

(** The lines of a subclass, of a class and of a list of classes, read
    by the loop: it goes on with the table that holds their entries. *)
Lemma lines_of_subclass_read cc s :
  id_ok cc = true -> subclass_ok s = true ->
  forall rest sid result,
    load_pci_classes_loop (lines_of_subclass s ++ rest) (Some cc) sid result
    = load_pci_classes_loop rest (Some cc) (Some (sub_id s))
        (sub_table cc s result).
Proof.
  intros Hcc Hs rest sid result. unfold subclass_ok in Hs.
  apply andb_true_iff in Hs as [[Hid Hname]%andb_true_iff Hprog].
  unfold lines_of_subclass, sub_table. cbn [app].
  rewrite subclass_line_step by done.
  generalize (<[cc +:+ sub_id s := sub_name s]>
                (<[cc +:+ sub_id s +:+ "00" := sub_name s]> result)).
  induction (prog_ifs s) as [|p ps IH]; intros r; [done|].
  cbn [forallb] in Hprog.
  apply andb_true_iff in Hprog as [[Hp1 Hp2]%andb_true_iff Hps].
  cbn [map app foldl]. rewrite prog_if_line_step by done. by apply IH.
Qed.

Lemma lines_of_subclasses_read cc subs :
  id_ok cc = true -> forallb subclass_ok subs = true ->
  forall sid result, exists sid',
    forall rest,
      load_pci_classes_loop (concat (map lines_of_subclass subs) ++ rest)
        (Some cc) sid result
      = load_pci_classes_loop rest (Some cc) sid'
          (foldl (fun r s => sub_table cc s r) result subs).
Proof.
  intros Hcc. induction subs as [|s subs IH]; intros Hsubs sid result.
  - by exists sid.
  - cbn [forallb] in Hsubs. apply andb_true_iff in Hsubs as [Hs Hsubs].
    destruct (IH Hsubs (Some (sub_id s)) (sub_table cc s result))
      as [sid' Hrest].
    exists sid'. intros rest. cbn [map concat foldl].
    rewrite <- app_assoc, lines_of_subclass_read by done. apply Hrest.
Qed.

Lemma lines_of_class_read c :
  class_ok c = true ->
  forall cid sid result, exists sid',
    forall rest,
      load_pci_classes_loop (lines_of_class c ++ rest) cid sid result
      = load_pci_classes_loop rest (Some (class_id c)) sid'
          (class_table c result).
Proof.
  intros Hc cid sid result. unfold class_ok in Hc.
  apply andb_true_iff in Hc as [[Hid Hname]%andb_true_iff Hsubs].
  destruct (lines_of_subclasses_read (class_id c) (subclasses c) Hid Hsubs
              None
              (<[class_id c +:+ "00" := class_name c]>
                 (<[class_id c +:+ "0000" := class_name c]> result)))
    as [sid' Hrest].
  exists sid'. intros rest. unfold lines_of_class, class_table. cbn [app].
  rewrite class_line_step by done. apply Hrest.
Qed.

Lemma lines_of_read classes :
  Forall (fun c => class_ok c = true) classes ->
  forall cid sid result, exists cid' sid',
    forall rest,
      load_pci_classes_loop (lines_of classes ++ rest) cid sid result
      = load_pci_classes_loop rest cid' sid'
          (foldl (fun r c => class_table c r) result classes).
Proof.
  induction 1 as [|c classes Hc _ IH]; intros cid sid result.
  - by exists cid, sid.
  - destruct (lines_of_class_read c Hc cid sid result) as [sid1 Hclass].
    destruct (IH (Some (class_id c)) sid1 (class_table c result))
      as (cid' & sid' & Hrest).
    exists cid', sid'. intros rest. unfold lines_of in *.
    cbn [map concat foldl]. rewrite <- app_assoc, Hclass. apply Hrest.
Qed.

(** *** Looking up a subclass *)

Lemma len_id s : id_ok s = true -> len s = 2%nat.
Proof. by intros (a & b & -> & _)%id_ok_inv. Qed.

Lemma len_differs a b : len a <> len b -> a <> b.
Proof. by intros H ->. Qed.

Lemma prog_ifs_keep_short_keys cc ss ps k : forall r : gmap string string,
  id_ok cc = true -> id_ok ss = true ->
  forallb (fun p => id_ok p.1 && name_ok p.2) ps = true ->
  len k = 4%nat ->
  foldl (fun r p => <[cc +:+ ss +:+ p.1 := p.2]> r) r ps !! k = r !! k.
Proof.
  induction ps as [|p ps IH]; intros r Hcc Hss Hps Hk; [done|].
  cbn [forallb] in Hps.
  apply andb_true_iff in Hps as [[Hp _]%andb_true_iff Hps].
  cbn [foldl]. rewrite IH by done. apply lookup_insert_ne, len_differs.
  rewrite !len_app, (len_id cc), (len_id ss), (len_id p.1), Hk by done. lia.
Qed.

Lemma sub_table_lookup cc s r k :
  id_ok cc = true -> subclass_ok s = true -> len k = 4%nat ->
  sub_table cc s r !! k
  = if decide (cc +:+ sub_id s = k) then Some (sub_name s) else r !! k.
Proof.
  intros Hcc Hs Hk. unfold subclass_ok in Hs.
  apply andb_true_iff in Hs as [[Hid Hname]%andb_true_iff Hprog].
  unfold sub_table. rewrite prog_ifs_keep_short_keys by done.
  rewrite lookup_insert. destruct (decide _); [done|].
  apply lookup_insert_ne, len_differs.
  rewrite !len_app, (len_id cc), (len_id (sub_id s)), Hk by done.
  cbn [len]. lia.
Qed.

Lemma key_same cc ss cc' ss' :
  id_ok cc = true -> id_ok cc' = true ->
  cc +:+ ss = cc' +:+ ss' -> cc = cc' /\ ss = ss'.
Proof.
  intros Hcc Hcc'. apply app_inv_len. by rewrite !len_id.
Qed.

Lemma sub_tables_other cc subs cc' ss' : forall r,
  id_ok cc = true -> id_ok cc' = true -> id_ok ss' = true ->
  forallb subclass_ok subs = true -> cc <> cc' ->
  foldl (fun r s => sub_table cc s r) r subs !! (cc' +:+ ss')
  = r !! (cc' +:+ ss').
Proof.
  induction subs as [|s subs IH]; intros r Hcc Hcc' Hss' Hsubs Hne; [done|].
  cbn [forallb] in Hsubs. apply andb_true_iff in Hsubs as [Hs Hsubs].
  cbn [foldl]. rewrite IH by done. rewrite sub_table_lookup; try done.
  - destruct (decide _) as [E|]; [|done].
    by apply key_same in E as [? _].
  - by rewrite len_app, !len_id.
Qed.

Lemma class_table_other c r cc' ss' :
  class_ok c = true -> id_ok cc' = true -> id_ok ss' = true ->
  class_id c <> cc' ->
  class_table c r !! (cc' +:+ ss') = r !! (cc' +:+ ss').
Proof.
  intros Hc Hcc' Hss' Hne. unfold class_ok in Hc.
  apply andb_true_iff in Hc as [[Hid Hname]%andb_true_iff Hsubs].
  unfold class_table. rewrite sub_tables_other by done.
  rewrite !lookup_insert_ne; [done|..].
  - apply len_differs.
    rewrite !len_app, (len_id (class_id c)), (len_id cc'), (len_id ss') by done.
    cbn [len]. lia.
  - intros E. by apply key_same in E as [? _].
Qed.

Lemma sub_tables_sub cc subs s : forall r,
  id_ok cc = true -> forallb subclass_ok subs = true ->
  NoDup (map sub_id subs) -> In s subs ->
  foldl (fun r s => sub_table cc s r) r subs !! (cc +:+ sub_id s)
  = Some (sub_name s).
Proof.
  induction subs as [|s' subs IH] using rev_ind; intros r Hcc Hsubs Hnodup Hin;
    [done|].
  rewrite forallb_app in Hsubs. cbn [forallb] in Hsubs.
  apply andb_true_iff in Hsubs as [Hsubs [Hs' _]%andb_true_iff].
  rewrite map_app in Hnodup. apply NoDup_app in Hnodup as (Hnodup & Hfresh & _).
  rewrite foldl_snoc.
  assert (Hids : id_ok (sub_id s) = true).
  { assert (Hall : forallb subclass_ok (subs ++ [s']) = true).
    { rewrite forallb_app. cbn. by rewrite Hsubs, Hs'. }
    rewrite forallb_forall in Hall. specialize (Hall s Hin).
    unfold subclass_ok in Hall.
    by apply andb_true_iff in Hall as [[? _]%andb_true_iff _]. }
  rewrite sub_table_lookup; [|done|done|by rewrite len_app, !len_id].
  destruct (decide _) as [E|Hne].
  - apply key_same in E as [_ E]; [|done|done].
    apply in_app_or in Hin as [Hin|[->|[]]]; [|done].
    exfalso. apply (Hfresh (sub_id s)).
    + apply list_elem_of_In, in_map, Hin.
    + rewrite <- E. cbn. by left.
  - apply in_app_or in Hin as [Hin|[->|[]]]; [by apply IH|done].
Qed.

Lemma class_table_sub c r s :
  class_ok c = true -> NoDup (map sub_id (subclasses c)) ->
  In s (subclasses c) ->
  class_table c r !! (class_id c +:+ sub_id s) = Some (sub_name s).
Proof.
  intros Hc Hnodup Hin. unfold class_ok in Hc.
  apply andb_true_iff in Hc as [[Hid Hname]%andb_true_iff Hsubs].
  unfold class_table. by apply sub_tables_sub.
Qed.

(** The table that the lines of the classes give maps class and
    subclass, four hex digits, to the name of the subclass. *)
Lemma table_of_sub classes c s :
  Forall (fun c => class_ok c = true) classes ->
  NoDup (map class_id classes) ->
  Forall (fun c => NoDup (map sub_id (subclasses c))) classes ->
  In c classes -> In s (subclasses c) ->
  table_of classes !! (class_id c +:+ sub_id s) = Some (sub_name s).
Proof.
  unfold table_of.
  induction classes as [|c' classes IH] using rev_ind;
    intros Hok Hnodup Hsubs Hc Hs; [done|].
  apply Forall_app in Hok as [Hok [Hc' _]%Forall_cons].
  apply Forall_app in Hsubs as [Hsubs [Hsubs' _]%Forall_cons].
  rewrite map_app in Hnodup. apply NoDup_app in Hnodup as (Hnodup & Hfresh & _).
  rewrite foldl_snoc.
  apply in_app_or in Hc as [Hc|[->|[]]]; [|by apply class_table_sub].
  assert (Hcok : class_ok c = true).
  { rewrite Forall_forall in Hok. apply Hok. by apply list_elem_of_In. }
  assert (Hne : class_id c' <> class_id c).
  { intros E. apply (Hfresh (class_id c)).
    - apply list_elem_of_In, in_map, Hc.
    - rewrite <- E. cbn. by left. }
  pose proof Hcok as Hcok'. unfold class_ok in Hcok'.
  apply andb_true_iff in Hcok' as [[Hid _]%andb_true_iff Hall].
  rewrite forallb_forall in Hall. specialize (Hall s Hs).
  unfold subclass_ok in Hall.
  apply andb_true_iff in Hall as [[Hsid _]%andb_true_iff _].
  rewrite class_table_other by done. by apply IH.
Qed.

(** *** From the file to the name *)

Lemma universal_newlines_fixed s :
  no_char carriage_return s = true -> universal_newlines s = s.
Proof.
  unfold no_char. induction s as [|c s IH]; [done|]. cbn [all]. intros H.
  apply andb_true_iff in H as [Hc Hs]. apply negb_true_iff in Hc.
  cbn [universal_newlines]. by rewrite Hc, IH.
Qed.

Lemma no_char_join sep k lines :
  ascii_eqb k sep = false ->
  Forall (fun l => no_char sep l = true) lines ->
  no_char sep (join (String k EmptyString) lines) = true.
Proof.
  intros Hk. induction 1 as [|l lines Hl _ IH]; [done|].
  destruct lines as [|l' lines]; [done|].
  change (join (String k EmptyString) (l :: l' :: lines))
    with (l +:+ String k EmptyString
            +:+ join (String k EmptyString) (l' :: lines)).
  unfold no_char in *. rewrite !all_app, Hl, IH. cbn [all].
  by rewrite Hk.
Qed.

Lemma id_one_line s : id_ok s = true -> one_line s = true.
Proof.
  intros (a & b & -> & Ha & Hb)%id_ok_inv. unfold one_line, no_char.
  cbn [all].
  by rewrite (hex_differs a newline), (hex_differs b newline),
    (hex_differs a carriage_return), (hex_differs b carriage_return).
Qed.

Lemma name_one_line s : name_ok s = true -> one_line s = true.
Proof.
  unfold name_ok. by intros [[_ ?]%andb_true_iff _]%andb_true_iff.
Qed.

Lemma one_line_app a b :
  one_line (a +:+ b) = one_line a && one_line b.
Proof.
  unfold one_line, no_char. rewrite !all_app.
  by destruct (all _ a), (all _ b), (all _ a), (all _ b).
Qed.

Lemma lines_of_one_line classes :
  Forall (fun c => class_ok c = true) classes ->
  Forall (fun l => one_line l = true) (lines_of classes).
Proof.
  unfold lines_of. induction 1 as [|c classes Hc _ IH]; [constructor|].
  cbn [map concat]. apply Forall_app. split; [|done].
  unfold class_ok in Hc.
  apply andb_true_iff in Hc as [[Hid Hname]%andb_true_iff Hsubs].
  unfold lines_of_class. constructor.
  { unfold class_line. rewrite !one_line_app.
    by rewrite (id_one_line _ Hid), (name_one_line _ Hname). }
  induction (subclasses c) as [|s subs IHs]; [constructor|].
  cbn [forallb] in Hsubs. apply andb_true_iff in Hsubs as [Hs Hsubs].
  cbn [map concat]. apply Forall_app. split; [|by apply IHs].
  unfold subclass_ok in Hs.
  apply andb_true_iff in Hs as [[Hsid Hsname]%andb_true_iff Hprog].
  unfold lines_of_subclass. constructor.
  { unfold subclass_line.
    change (String tab (sub_id s +:+ "  " +:+ sub_name s))
      with (String tab EmptyString +:+ sub_id s +:+ "  " +:+ sub_name s).
    rewrite !one_line_app.
    by rewrite (id_one_line _ Hsid), (name_one_line _ Hsname). }
  induction (prog_ifs s) as [|p ps IHp]; [constructor|].
  cbn [forallb] in Hprog.
  apply andb_true_iff in Hprog as [[Hp1 Hp2]%andb_true_iff Hps].
  cbn [map]. constructor; [|by apply IHp].
  unfold prog_if_line.
  change (String tab (String tab (p.1 +:+ "  " +:+ p.2)))
    with (String tab (String tab EmptyString) +:+ p.1 +:+ "  " +:+ p.2).
  rewrite !one_line_app.
  by rewrite (id_one_line _ Hp1), (name_one_line _ Hp2).
Qed.

Lemma no_class_lines_read before : forall rest result,
  Forall (fun l => no_class_line l = true) before ->
  load_pci_classes_loop (before ++ rest) None None result
  = load_pci_classes_loop rest None None result.
Proof.
  induction before as [|l before IH]; intros rest result Hb; [done|].
  apply Forall_cons in Hb as [Hl Hb]. cbn [app].
  rewrite no_class_line_step by done. by apply IH.
Qed.

Lemma passed_over_read after : forall cid sid result,
  Forall (fun l => passed_over l = true) after ->
  load_pci_classes_loop after cid sid result = Ok result.
Proof.
  induction after as [|l after IH]; intros cid sid result Ha; [done|].
  apply Forall_cons in Ha as [Hl Ha].
  rewrite passed_over_step by done. by apply IH.
Qed.

(** A file that holds anything but class lines, then the lines of the
    classes, then lines that are passed over, gives the table of the
    classes. *)
Lemma load_pci_classes_table fs bytes before classes after :
  Forall (fun l => no_class_line l = true) before ->
  Forall (fun l => passed_over l = true) after ->
  Forall (fun c => class_ok c = true) classes ->
  classes <> [] ->
  read_text fs pci_ids = Some bytes ->
  decode_utf8_ignore bytes
  = join (String newline EmptyString) (before ++ lines_of classes ++ after) ->
  load_pci_classes fs = Ok (table_of classes).
Proof.
  intros Hb Ha Hc Hne Hbytes Htext. unfold load_pci_classes.
  rewrite Hbytes, Htext.
  assert (Hlines : Forall (fun l => one_line l = true)
                     (before ++ lines_of classes ++ after)).
  { rewrite !Forall_app. repeat split.
    - eapply Forall_impl; [exact Hb|]. unfold no_class_line.
      by intros l [? _]%andb_true_iff.
    - by apply lines_of_one_line.
    - eapply Forall_impl; [exact Ha|]. unfold passed_over.
      by intros l [[? _]%andb_true_iff _]%andb_true_iff. }
  unfold readlines. rewrite universal_newlines_fixed.
  2:{ apply no_char_join; [done|]. eapply Forall_impl; [exact Hlines|].
      unfold one_line. by intros l [_ ?]%andb_true_iff. }
  rewrite split_join.
  2:{ eapply Forall_impl; [exact Hlines|]. unfold one_line.
      by intros l [? _]%andb_true_iff. }
  2:{ destruct classes as [|c classes]; [done|].
      intros E. apply (f_equal length) in E.
      rewrite !length_app in E. unfold lines_of, lines_of_class in E.
      cbn in E. lia. }
  rewrite no_class_lines_read by done.
  destruct (lines_of_read classes Hc None None ∅) as (cid & sid & Hread).
  rewrite Hread. by apply passed_over_read.
Qed.

Lemma hex_is_ascii c : is_hex c = true -> (code c <? 128) = true.
Proof.
  intros H. apply hex_cases in H. simpl in H.
  repeat (destruct H as [<-|H]; [reflexivity|]). contradiction.
Qed.

Lemma hex_not_space c : is_hex c = true -> is_space c = false.
Proof.
  intros H. apply hex_cases in H. simpl in H.
  repeat (destruct H as [<-|H]; [reflexivity|]). contradiction.
Qed.

(** The [class] attribute of a device to its six hex digits. *)
Lemma class_attribute_read cc ss pp :
  id_ok cc = true -> id_ok ss = true -> id_ok pp = true ->
  let text := "0x" +:+ cc +:+ ss +:+ pp +:+ String newline EmptyString in
  is_ascii text = true
  /\ strip (universal_newlines text) = "0x" +:+ cc +:+ ss +:+ pp
  /\ take 4 (cc +:+ ss +:+ pp) = cc +:+ ss.
Proof.
  intros (c1 & c2 & -> & ? & ?)%id_ok_inv (s1 & s2 & -> & ? & ?)%id_ok_inv
    (p1 & p2 & -> & ? & Hp2)%id_ok_inv text.
  subst text. split; [|split; [|reflexivity]].
  - unfold is_ascii. strs. cbn [all].
    by rewrite (hex_is_ascii c1), (hex_is_ascii c2), (hex_is_ascii s1),
      (hex_is_ascii s2), (hex_is_ascii p1), (hex_is_ascii p2).
  - rewrite universal_newlines_fixed.
    2:{ unfold no_char. strs. cbn [all].
        by rewrite (hex_differs c1 carriage_return),
          (hex_differs c2 carriage_return), (hex_differs s1 carriage_return),
          (hex_differs s2 carriage_return), (hex_differs p1 carriage_return),
          (hex_differs p2 carriage_return). }
    unfold strip. strs. rewrite lstrip_by_first by reflexivity.
    assert (E : String "0" (String "x" (String c1 (String c2 (String s1
                  (String s2 (String p1 (String p2
                     (String newline EmptyString))))))))
                = (String "0" (String "x" (String c1 (String c2 (String s1
                     (String s2 (String p1 EmptyString))))))
                   +:+ String p2 EmptyString)
                  +:+ String newline EmptyString) by reflexivity.
    rewrite E, rstrip_by_pad by reflexivity.
    rewrite rstrip_by_last by by apply hex_not_space.
    reflexivity.
Qed.

(** X23: with a [pci.ids] whose text, decoded as the code decodes it,
    has lines that are no class lines, then the lines of well-formed
    classes with distinct ids, then lines that the loop passes over,
    [pcidev_class] returns, for a class attribute [0xCCSSPP], the name
    of subclass [SS] of class [CC], whatever the programming interface
    [PP] is; [pcidev_interface] returns [CCSSPP] and [_device_desc] the
    text [NAME: VENDOR PRODUCT]. *)
Theorem pcidev_class_names_subclass (fs : sysfs) (bytes : string)
    (before after : list string) (classes : list class)
    (c : class) (s : subclass) (prog_if : string)
    (ch : ascii) (p : string) (vendor product : option string) :
  Forall (fun l => no_class_line l = true) before ->
  Forall (fun l => passed_over l = true) after ->
  Forall (fun c => class_ok c = true) classes ->
  NoDup (map class_id classes) ->
  Forall (fun c => NoDup (map sub_id (subclasses c))) classes ->
  In c classes -> In s (subclasses c) -> id_ok prog_if = true ->
  read_text fs pci_ids = Some bytes ->
  decode_utf8_ignore bytes
  = join (String newline EmptyString) (before ++ lines_of classes ++ after) ->
  let sysfs_path := String ch p in
  read_text fs (sysfs_path +:+ "/class")
  = Some ("0x" +:+ class_id c +:+ sub_id s +:+ prog_if
            +:+ String newline EmptyString) ->
  pcidev_class fs (Some sysfs_path) None
  = (Some (table_of classes), Ok (sub_name s))
  /\ pcidev_interface fs (Some sysfs_path)
     = Ok (class_id c +:+ sub_id s +:+ prog_if)
  /\ _device_desc fs (Some sysfs_path) vendor product None
     = (Some (table_of classes),
        Ok (sub_name s +:+ ": " +:+ format_value vendor +:+ " "
              +:+ format_value product)).
Proof.
  intros Hb Ha Hok Hnodup Hsubs Hc Hs Hpp Hbytes Hids sysfs_path Hclass.
  assert (Hcok : class_ok c = true).
  { rewrite Forall_forall in Hok. apply Hok. by apply list_elem_of_In. }
  pose proof Hcok as Hcok'. unfold class_ok in Hcok'.
  apply andb_true_iff in Hcok' as [[Hcid _]%andb_true_iff Hall].
  rewrite forallb_forall in Hall. specialize (Hall s Hs).
  unfold subclass_ok in Hall.
  apply andb_true_iff in Hall as [[Hsid _]%andb_true_iff _].
  destruct (class_attribute_read _ _ _ Hcid Hsid Hpp)
    as (Hascii & Hstrip & Htake).
  assert (Hload : load_pci_classes fs = Ok (table_of classes)).
  { apply (load_pci_classes_table fs bytes before classes after); try done.
    by destruct classes. }
  assert (Hname : pcidev_class fs (Some sysfs_path) None
                  = (Some (table_of classes), Ok (sub_name s))).
  { unfold pcidev_class. subst sysfs_path. cbv beta iota.
    rewrite Hclass, Hascii, Hstrip. cbn [negb cache_empty]. rewrite Hload.
    rewrite startswith_app.
    rewrite (drop_add "0x" (class_id c +:+ sub_id s +:+ prog_if)
             : drop 2 _ = _), Htake.
    by rewrite (table_of_sub classes c s). }
  split; [exact Hname|]. split.
  - unfold pcidev_interface. subst sysfs_path. cbv beta iota.
    rewrite Hclass, Hascii, Hstrip. cbn [negb].
    rewrite startswith_app.
    by rewrite (drop_add "0x" (class_id c +:+ sub_id s +:+ prog_if)
                : drop 2 _ = _).
  - unfold _device_desc. by rewrite Hname.
Qed.

Lemma pcidev_class_names_subclass_witness :
  pcidev_class Samples.one_bridge_hwdata
    (Some "/sys/devices/pci0000:00/0000:00:03.0") None
  = (Some (table_of
             [{| class_id := "06"; class_name := "Bridge";
                 subclasses :=
                   [{| sub_id := "00"; sub_name := "Host bridge";
                       prog_ifs := [] |};
                    {| sub_id := "04"; sub_name := "PCI bridge";
                       prog_ifs := [("00", "Normal decode");
                                    ("01", "Subtractive decode")] |}] |}]),
     Ok "PCI bridge")
  /\ pcidev_interface Samples.one_bridge_hwdata
       (Some "/sys/devices/pci0000:00/0000:00:03.0") = Ok "060400"
  /\ _device_desc Samples.one_bridge_hwdata
       (Some "/sys/devices/pci0000:00/0000:00:03.0")
       (Some "Intel Corporation") None None
     = (Some (table_of
                [{| class_id := "06"; class_name := "Bridge";
                    subclasses :=
                      [{| sub_id := "00"; sub_name := "Host bridge";
                          prog_ifs := [] |};
                       {| sub_id := "04"; sub_name := "PCI bridge";
                          prog_ifs := [("00", "Normal decode");
                                       ("01", "Subtractive decode")] |}] |}]),
        Ok "PCI bridge: Intel Corporation None").
Proof.
  apply (pcidev_class_names_subclass Samples.one_bridge_hwdata
           Samples.pci_ids_text
           ["# List of PCI ID's"; "8086  Intel Corporation";
            String tab "1533  I210 Gigabit Network Connection"]
           [EmptyString]
           [{| class_id := "06"; class_name := "Bridge";
               subclasses :=
                 [{| sub_id := "00"; sub_name := "Host bridge";
                     prog_ifs := [] |};
                  {| sub_id := "04"; sub_name := "PCI bridge";
                     prog_ifs := [("00", "Normal decode");
                                  ("01", "Subtractive decode")] |}] |}]
           {| class_id := "06"; class_name := "Bridge";
              subclasses :=
                [{| sub_id := "00"; sub_name := "Host bridge";
                    prog_ifs := [] |};
                 {| sub_id := "04"; sub_name := "PCI bridge";
                    prog_ifs := [("00", "Normal decode");
                                 ("01", "Subtractive decode")] |}] |}
           {| sub_id := "04"; sub_name := "PCI bridge";
              prog_ifs := [("00", "Normal decode");
                           ("01", "Subtractive decode")] |}
           "00" "/" "sys/devices/pci0000:00/0000:00:03.0"
           (Some "Intel Corporation") None).
  - repeat constructor.
  - repeat constructor.
  - repeat constructor.
  - apply (bool_decide_unpack _). vm_compute. reflexivity.
  - constructor; [|constructor].
    apply (bool_decide_unpack _). vm_compute. reflexivity.
  - simpl. tauto.
  - simpl. tauto.
  - reflexivity.
  - reflexivity.
  - vm_compute. reflexivity.
  - reflexivity.
Defined.

End ClassLines.

(** ** The slot that the guest is asked to give up *)

Section SlotFacts.
Import Py Pci.

(** A run of characters of the class, up to a character outside it:
    when the rest matches after the whole run, that is the match. *)
Lemma re_plus_run {A} p run rest (k : string -> option A) x :
  all p run = true -> run <> EmptyString ->
  match rest with String c _ => p c = false | EmptyString => True end ->
  k rest = Some x ->
  re_plus p (run +:+ rest) k = Some x.
Proof.
  intros Hrun Hne Hrest Hk. induction run as [|c run IH]; [done|].
  cbn [all] in Hrun. apply andb_true_iff in Hrun as [Hc Hrun].
  rewrite str_app_cons. cbn [re_plus]. rewrite Hc.
  destruct run as [|c' run].
  - rewrite str_app_nil_l.
    replace (re_plus p rest k) with (@None A); [done|].
    destruct rest as [|c' r]; [done|]. cbn [re_plus]. by rewrite Hrest.
  - by rewrite IH.
Qed.

Lemma re_ident_self pattern tail :
  re_ident pattern (pattern +:+ tail) = Some tail.
Proof.
  induction pattern as [|c pattern IH]; [done|].
  rewrite str_app_cons. cbn [re_ident].
  destruct (ascii_eqb c ".") eqn:Hdot.
  - apply ascii_eqb_eq in Hdot as ->. exact IH.
  - unfold ascii_eqb. by rewrite Ascii.eqb_refl.
Qed.

Lemma xl_search_header pattern header rest : forall at_bol,
  all (fun c => negb (is_digit c)) header = true ->
  xl_search pattern at_bol (header +:+ String newline rest)
  = xl_search pattern true rest.
Proof.
  induction header as [|c header IH]; intros at_bol Hheader.
  - rewrite str_app_nil_l. cbn [xl_search]. unfold xl_match_here.
    cbn [re_plus]. change (is_digit newline) with false.
    by destruct at_bol.
  - cbn [all] in Hheader. apply andb_true_iff in Hheader as [Hc Hheader].
    apply negb_true_iff in Hc.
    rewrite str_app_cons. cbn [xl_search]. unfold xl_match_here at 1.
    cbn [re_plus]. rewrite Hc. destruct at_bol; by apply IH.
Qed.

Lemma first_not_in_class p q s :
  (forall c, q c = true -> p c = false) -> all q s = true ->
  match s with String c _ => p c = false | EmptyString => True end.
Proof.
  intros Hpq. destruct s as [|c s]; [done|]. cbn [all].
  intros [Hc _]%andb_true_iff. by apply Hpq.
Qed.

(** The line of the listing that names the device gives its slot. *)
Lemma xl_match_here_line pattern slot_a x slot_b pad tail :
  all is_digit slot_a = true -> slot_a <> EmptyString ->
  is_digit x = false -> not_newline x = true ->
  all is_digit slot_b = true -> slot_b <> EmptyString ->
  all is_space pad = true -> pad <> EmptyString ->
  at_eol tail = true ->
  xl_match_here pattern
    (slot_a +:+ String x (slot_b +:+ pad +:+ "0000:" +:+ pattern +:+ tail))
  = Some (slot_a +:+ String x slot_b).
Proof.
  intros Ha Hane Hx Hxn Hb Hbne Hpad Hpadne Htail. unfold xl_match_here.
  apply re_plus_run; [done|done|done|]. rewrite Hxn.
  apply re_plus_run; [done|done|..].
  { destruct pad as [|c pad]; [done|]. rewrite str_app_cons.
    cbn [all] in Hpad. apply andb_true_iff in Hpad as [Hc _].
    destruct (is_digit c) eqn:Hd; [|done].
    by rewrite digit_not_space in Hc. }
  apply re_plus_run; [done|done|by strs|].
  rewrite <- str_app_assoc, re_ident_self, Htail. f_equal.
  set (rest := pad +:+ ("0000:" +:+ pattern) +:+ tail).
  assert (E : slot_a +:+ String x (slot_b +:+ rest)
              = (slot_a +:+ String x slot_b) +:+ rest).
  { by rewrite str_app_assoc, str_app_cons. }
  rewrite E. apply take_app_sub.
Qed.

Lemma xl_search_here pattern s vmdev :
  xl_match_here pattern s = Some vmdev ->
  xl_search pattern true s = Some vmdev.
Proof. intros H. destruct s; cbn [xl_search]; by rewrite H. Qed.

(** X24: when [xl pci-list] writes the slot of the device in decimal
    digits, [on_device_pre_detached_pci] asks the guest to give up that
    slot.  For a listing that has, after a header without digits, the
    line [SLOT 0000:BB:DD.F], where [SLOT] is one or more decimal
    digits, one character that is neither a digit nor a newline, and
    one or more decimal digits, the service [qubes.DetachPciDevice] is
    called with [00:SLOT]. *)
Theorem pre_detach_asks_for_listed_slot (w : world) (vm : qubesvm)
    (ident : string) (device : PCIDevice)
    (header slot_a slot_b pad tail : string) (x : ascii) :
  is_running vm = true ->
  _cache_get ident = Ok device ->
  all (fun c => negb (is_digit c)) header = true ->
  all is_digit slot_a = true -> slot_a <> EmptyString ->
  is_digit x = false -> not_newline x = true ->
  all is_digit slot_b = true -> slot_b <> EmptyString ->
  all is_space pad = true -> pad <> EmptyString ->
  at_eol tail = true ->
  xl_pci_list w (xid vm)
  = Ok (header +:+ String newline
          (slot_a +:+ String x (slot_b +:+ pad +:+ "0000:"
             +:+ replace "_" ":" ident +:+ tail))) ->
  exists calls r,
    on_device_pre_detached_pci w vm ident
    = (Popen ["xl"; "pci-list"; str_of_Z (xid vm)]
         :: RunService "qubes.DetachPciDevice" "root"
              ("00:" +:+ slot_a +:+ String x slot_b)
         :: calls, r).
Proof.
  intros Hrun Hdev Hheader Ha Hane Hx Hxn Hb Hbne Hpad Hpadne Htail Hlist.
  unfold on_device_pre_detached_pci.
  rewrite Hrun. simpl negb. cbv iota.
  rewrite Hdev. unfold lift, call. simpl act_bind.
  rewrite Hlist, (cache_get_ident _ _ Hdev).
  rewrite xl_search_header by done.
  rewrite (xl_search_here _ _ _ (xl_match_here_line _ _ _ _ _ _
             Ha Hane Hx Hxn Hb Hbne Hpad Hpadne Htail)).
  unfold try_except.
  destruct (run_service w _ _ _) as [[]|e]; cycle 1.
  { simpl. destruct (is_CalledProcessError e || is_libvirtError e);
      simpl; do 2 eexists; reflexivity. }
  simpl.
  destruct (render_pci_xml w ident None) as [xml|e]; cycle 1.
  { simpl. destruct (is_CalledProcessError e || is_libvirtError e);
      simpl; do 2 eexists; reflexivity. }
  simpl.
  destruct (detach_device w xml) as [[]|e]; simpl;
    try destruct (is_CalledProcessError e || is_libvirtError e);
    simpl; do 2 eexists; reflexivity.
Qed.

Lemma pre_detach_asks_for_listed_slot_witness :
  exists calls r,
    on_device_pre_detached_pci Samples.refusing Samples.running_hvm "02_00.0"
    = (Popen ["xl"; "pci-list"; "12"]
         :: RunService "qubes.DetachPciDevice" "root" "00:05.0" :: calls, r).
Proof.
  eapply (pre_detach_asks_for_listed_slot Samples.refusing Samples.running_hvm
           "02_00.0" _ "Vdev Device" "05" "0" " " (String newline EmptyString) ".");
    vm_compute; (reflexivity || discriminate).
Defined.

(** A run of characters of the class: when the rest matches after no
    part of the run, and not after the text behind it, there is no
    match. *)
Lemma re_plus_none {A} p run rest (k : string -> option A) :
  all p run = true ->
  (forall front back, run = front +:+ back -> front <> EmptyString ->
                      k (back +:+ rest) = None) ->
  re_plus p rest k = None ->
  re_plus p (run +:+ rest) k = None.
Proof.
  intros Hrun Hk Hrest. induction run as [|c run IH].
  - by rewrite str_app_nil_l.
  - cbn [all] in Hrun. apply andb_true_iff in Hrun as [Hc Hrun].
    rewrite str_app_cons. cbn [re_plus]. rewrite Hc, IH.
    + apply (Hk (String c EmptyString) run); [by strs|done].
    + done.
    + intros front back -> Hfront.
      apply (Hk (String c front) back); [by strs|done].
Qed.

Lemma re_plus_first {A} p c r (k : string -> option A) :
  p c = false -> re_plus p (String c r) k = None.
Proof. intros H. cbn [re_plus]. by rewrite H. Qed.

(** A line that starts with digits and then has two characters that
    are no digits, the first of them no white space, matches nothing. *)
Lemma xl_match_here_two_marks pattern slot_a h x rest :
  all is_digit slot_a = true ->
  is_digit h = false -> is_space h = false -> is_digit x = false ->
  xl_match_here pattern (slot_a +:+ String h (String x rest)) = None.
Proof.
  intros Ha Hh Hhs Hx. unfold xl_match_here.
  apply re_plus_none; [done| |by apply re_plus_first].
  intros front back -> Hfront.
  rewrite all_app in Ha. apply andb_true_iff in Ha as [_ Hback].
  destruct back as [|c back].
  - rewrite str_app_nil_l. destruct (not_newline h); [|done].
    by apply re_plus_first.
  - rewrite str_app_cons. destruct (not_newline c); [|done].
    cbn [all] in Hback. apply andb_true_iff in Hback as [_ Hback].
    apply re_plus_none; [done| |by apply re_plus_first].
    intros front' back' -> _.
    rewrite all_app in Hback. apply andb_true_iff in Hback as [_ Hback'].
    destruct back' as [|d back'].
    + rewrite str_app_nil_l. by apply re_plus_first.
    + rewrite str_app_cons. apply re_plus_first.
      cbn [all] in Hback'. apply andb_true_iff in Hback' as [Hd _].
      by apply digit_not_space.
Qed.

(** Within a line, after its start, nothing is found. *)
Lemma xl_search_within_line pattern s :
  no_char newline s = true ->
  xl_search pattern false s = None
  /\ xl_search pattern false (s +:+ String newline EmptyString) = None.
Proof.
  unfold no_char. induction s as [|c s IH]; [done|].
  cbn [all]. intros [Hc Hs]%andb_true_iff. apply negb_true_iff in Hc.
  rewrite str_app_cons. cbn [xl_search]. rewrite Hc. by apply IH.
Qed.

Lemma not_space_not_newline c :
  is_space c = false -> ascii_eqb c newline = false.
Proof.
  intros H. destruct (ascii_eqb c newline) eqn:E; [|done].
  apply ascii_eqb_eq in E. by subst c.
Qed.

Lemma digits_no_newline s : all is_digit s = true -> no_char newline s = true.
Proof.
  unfold no_char. apply all_impl. intros c Hc.
  by rewrite (not_space_not_newline c (digit_not_space c Hc)).
Qed.

(** X30: a slot that [xl pci-list] writes with a letter is not found.
    For a listing that has, after a header without digits, one line
    that starts with decimal digits followed by two characters that are
    no digits, the first of them no white space, such as the line
    [0a.0 0000:BB:DD.F] of the device itself, the search of
    [on_device_pre_detached_pci] finds nothing: the handler logs that
    the device is already detached and returns, and asks nothing of the
    guest or of libvirt. *)
Theorem pre_detach_misses_marked_slot (w : world) (vm : qubesvm)
    (ident : string) (device : PCIDevice)
    (header slot_a rest : string) (h x : ascii) (last_line : bool) :
  is_running vm = true ->
  _cache_get ident = Ok device ->
  all (fun c => negb (is_digit c)) header = true ->
  all is_digit slot_a = true -> slot_a <> EmptyString ->
  is_digit h = false -> is_space h = false ->
  is_digit x = false -> not_newline x = true ->
  no_char newline rest = true ->
  xl_pci_list w (xid vm)
  = Ok (header +:+ String newline
          (slot_a +:+ String h (String x rest)
             +:+ (if last_line then EmptyString
                  else String newline EmptyString))) ->
  on_device_pre_detached_pci w vm ident
  = ([Popen ["xl"; "pci-list"; str_of_Z (xid vm)];
      LogError ("Device " +:+ ident +:+ " already detached")], Ok tt).
Proof.
  intros Hrun Hdev Hheader Ha Hane Hh Hhs Hx Hxn Hrest Hlist.
  set (tail := if last_line then EmptyString else String newline EmptyString)
    in *.
  assert (Hnone : forall pattern,
            xl_search pattern true
              (slot_a +:+ String h (String x rest) +:+ tail) = None).
  { intros pattern.
    destruct slot_a as [|c slot_a]; [done|].
    pose proof (xl_match_here_two_marks pattern (String c slot_a) h x
                  (rest +:+ tail) Ha Hh Hhs Hx) as Hhere.
    cbn [all] in Ha. apply andb_true_iff in Ha as [Hc Ha].
    assert (Hline : no_char newline (slot_a +:+ String h (String x rest))
                    = true).
    { unfold no_char in *. rewrite all_app. cbn [all].
      fold (no_char newline slot_a). rewrite (digits_no_newline _ Ha).
      fold (not_newline x). rewrite Hxn, Hrest.
      by rewrite (not_space_not_newline h Hhs). }
    destruct (xl_search_within_line pattern _ Hline) as [Hin Hin'].
    assert (E : String c slot_a +:+ String h (String x rest) +:+ tail
                = String c ((slot_a +:+ String h (String x rest)) +:+ tail)).
    { by rewrite str_app_assoc, !str_app_cons. }
    assert (E' : String c slot_a +:+ String h (String x (rest +:+ tail))
                 = String c ((slot_a +:+ String h (String x rest)) +:+ tail)).
    { by rewrite !str_app_assoc, !str_app_cons. }
    rewrite E' in Hhere. rewrite E. cbn [xl_search]. rewrite Hhere.
    rewrite (not_space_not_newline c (digit_not_space c Hc)).
    subst tail. destruct last_line; [by rewrite str_app_nil_r|done]. }
  unfold on_device_pre_detached_pci.
  rewrite Hrun. simpl negb. cbv iota.
  rewrite Hdev. unfold lift, call. simpl act_bind.
  rewrite Hlist, (cache_get_ident _ _ Hdev).
  rewrite xl_search_header by done. rewrite Hnone. reflexivity.
Qed.

Lemma pre_detach_misses_marked_slot_witness :
  on_device_pre_detached_pci MoreSamples.hex_slot_listed Samples.running_hvm "02_00.0"
  = ([Popen ["xl"; "pci-list"; "12"];
      LogError "Device 02_00.0 already detached"], Ok tt).
Proof.
  apply (pre_detach_misses_marked_slot MoreSamples.hex_slot_listed Samples.running_hvm
           "02_00.0" Samples.fresh_device "Vdev Device" "0"
           "0 0000:02:00.0" "a" "." false);
    vm_compute; (reflexivity || discriminate).
Defined.

End SlotFacts.

(** ** Durable file operations *)

Section FileFacts.
Import Py Files FilesSpec.

Lemma open_after_app h t : forall fds,
  open_after (h ++ t) fds = open_after t (open_after h fds).
Proof.
  induction h as [|[c r] h IH]; intros fds; [done|].
  cbn [app open_after]. destruct c; try apply IH.
  destruct r; apply IH.
Qed.

Lemma keeps_ret {A} (a : A) : keeps_descriptors (io_ret a).
Proof. intros h. exists []. by rewrite app_nil_r. Qed.

Lemma keeps_bind {A B} (m : io A) (k : A -> io B) :
  keeps_descriptors m -> (forall a, keeps_descriptors (k a)) ->
  keeps_descriptors (io_bind m k).
Proof.
  intros Hm Hk h. destruct (Hm h) as (t & Eh & Ht). unfold io_bind.
  destruct (m h) as [h' [a|e]]; cbn [fst] in Eh; subst h'.
  - destruct (Hk a (h ++ t)) as (t' & Eh' & Ht'). exists (t ++ t').
    rewrite Eh', <- app_assoc. split; [done|]. intros fds.
    by rewrite open_after_app, Ht, Ht'.
  - by exists t.
Qed.

Lemma keeps_log format args : keeps_descriptors (log format args).
Proof. intros h. by exists [(Log format args, Ok 0)]. Qed.

Lemma keeps_sys o c :
  match c with Open _ | Close _ => False | _ => True end ->
  keeps_descriptors (sys o c).
Proof.
  intros Hc h. exists [(c, answer o h c)]. split; [done|].
  intros fds. by destruct c.
Qed.

Lemma remove_one_head fd fds : remove_one fd (fd :: fds) = fds.
Proof. cbn [remove_one]. by rewrite Z.eqb_refl. Qed.

Lemma keeps_fsync_path o path : keeps_descriptors (fsync_path o path).
Proof.
  intros h. unfold fsync_path, io_bind, try_finally, sys.
  destruct (answer o h (Open path)) as [fd|e] eqn:Hopen.
  - set (h1 := h ++ [(Open path, Ok fd)]).
    set (h2 := h1 ++ [(Fsync fd, answer o h1 (Fsync fd))]).
    exists [(Open path, Ok fd); (Fsync fd, answer o h1 (Fsync fd));
            (Close fd, answer o h2 (Close fd))].
    split.
    + destruct (answer o h2 (Close fd)); cbn [fst]; unfold h2, h1;
        by rewrite <- !app_assoc.
    + intros fds. cbn [open_after]. by rewrite remove_one_head.
  - by exists [(Open path, Raise e)].
Qed.

Lemma keeps_with_suppress {A} (body after : io A) :
  keeps_descriptors body -> keeps_descriptors after ->
  keeps_descriptors (with_suppress body after).
Proof.
  intros Hb Ha h. destruct (Hb h) as (t & Eh & Ht). unfold with_suppress.
  destruct (body h) as [h' [a|e]]; cbn [fst] in Eh; subst h'.
  - by exists t.
  - assert (Hafter : exists t', fst (after (h ++ t)) = h ++ t'
                       /\ forall fds, open_after t' fds = fds).
    { destruct (Ha (h ++ t)) as (t' & Eh' & Ht'). exists (t ++ t').
      rewrite Eh', <- app_assoc. split; [done|]. intros fds.
      by rewrite open_after_app, Ht, Ht'. }
    destruct e; try by exists t. exact Hafter.
Qed.

(** X25: [fsync_path], [remove_file] and [rename_file] close every
    descriptor that they open, also when [os.fsync] or another call
    raises: the descriptors that are open after the call are those that
    were open before it. *)
Theorem no_descriptor_left_open (o : os) (h : history) (fds : list Z) :
  (forall path,
     open_after (fst (fsync_path o path h)) fds = open_after h fds)
  /\ (forall path,
        open_after (fst (remove_file o path h)) fds = open_after h fds)
  /\ (forall src dst,
        open_after (fst (rename_file o src dst h)) fds = open_after h fds).
Proof.
  assert (Hkeep : forall A (m : io A), keeps_descriptors m ->
            open_after (fst (m h)) fds = open_after h fds).
  { intros A m Hm. destruct (Hm h) as (t & -> & Ht).
    by rewrite open_after_app, Ht. }
  split; [|split]; intros; apply Hkeep.
  - apply keeps_fsync_path.
  - unfold remove_file. apply keeps_with_suppress; [|apply keeps_ret].
    apply keeps_bind; [by apply keeps_sys|]. intros _.
    apply keeps_bind; [apply keeps_fsync_path|]. intros _.
    apply keeps_bind; [apply keeps_log|]. intros _. apply keeps_ret.
  - unfold rename_file.
    apply keeps_bind; [by apply keeps_sys|]. intros _.
    apply keeps_bind; [apply keeps_fsync_path|]. intros _.
    apply keeps_bind; [|intros _; apply keeps_log].
    destruct (negb _); [apply keeps_fsync_path|apply keeps_ret].
Qed.

Lemma rfind_end_no_slash p : no_char "/" p = true -> rfind_end "/" p = 0%nat.
Proof.
  unfold no_char. induction p as [|a p IH]; [done|].
  cbn [all rfind_end]. intros [Ha Hp]%andb_true_iff.
  rewrite (IH Hp). apply negb_true_iff in Ha. by rewrite Ha.
Qed.

Lemma dirname_no_slash p : no_char "/" p = true -> dirname p = EmptyString.
Proof.
  intros Hp. unfold dirname. rewrite (rfind_end_no_slash _ Hp).
  by destruct p.
Qed.

(** X26: for a path without a directory part, when [os.remove]
    succeeds and the empty directory name cannot be opened,
    [remove_file] returns [False] although the file was removed, and
    logs nothing. *)
Theorem remove_file_false_after_removal (o : os) (h : history)
    (path missing : string) (v : Z) :
  no_char "/" path = true ->
  answer o h (Remove path) = Ok v ->
  answer o (h ++ [(Remove path, Ok v)]) (Open EmptyString)
  = Raise (FileNotFoundError missing) ->
  remove_file o path h
  = (h ++ [(Remove path, Ok v);
           (Open EmptyString, Raise (FileNotFoundError missing))],
     Ok false).
Proof.
  intros Hp Hremove Hopen.
  unfold remove_file, with_suppress, io_bind, sys, fsync_path, io_bind, sys.
  rewrite Hremove, (dirname_no_slash _ Hp), Hopen.
  unfold io_ret. by rewrite <- app_assoc.
Qed.

Lemma remove_file_false_after_removal_witness :
  remove_file MoreSamples.no_empty_path "qubes.xml.tmp" []
  = ([(Remove "qubes.xml.tmp", Ok 3);
      (Open EmptyString, Raise (FileNotFoundError EmptyString))],
     Ok false).
Proof.
  apply (remove_file_false_after_removal MoreSamples.no_empty_path []
           "qubes.xml.tmp" EmptyString 3); reflexivity.
Defined.

End FileFacts.

Section BadLines.
Import Py Pci PciIds.

Lemma length_splitn sep s : forall n,
  (length (splitn sep n s) <= S (count_char sep s))%nat.
Proof.
  induction s as [|c s IH]; intros n; [cbn; lia|].
  cbn [splitn count_char]. destruct n as [|n]; [cbn; lia|].
  destruct (ascii_eqb c sep).
  - cbn [length]. specialize (IH n). lia.
  - specialize (IH (S n)). destruct (splitn sep (S n) s); cbn [length] in *; lia.
Qed.

(** X28: a line of [pci.ids] that starts with [C ] and has fewer than
    three spaces, such as a class line with one space between id and
    name, or without a name, stops [load_pci_classes] with
    [ValueError]. *)
Theorem class_line_needs_two_spaces (line : string) (rest : list string)
    (class_id subclass_id : option string) (result : gmap string string) :
  startswith "C " (rstrip_utf8 line) = true ->
  (count_char " " (rstrip_utf8 line) < 3)%nat ->
  load_pci_classes_loop (line :: rest) class_id subclass_id result
  = Raise (ValueError (rstrip_utf8 line)).
Proof.
  intros Hc Hcount. cbn [load_pci_classes_loop]. cbv zeta.
  pose proof (length_splitn " " (rstrip_utf8 line) 3) as Hlen.
  destruct (rstrip_utf8 line) as [|a [|b r]] eqn:Hline; try discriminate.
  { cbn in Hc. by rewrite andb_false_r in Hc. }
  cbn [startswith] in Hc.
  apply andb_true_iff in Hc as [Ha [Hb _]%andb_true_iff].
  apply ascii_eqb_eq in Ha, Hb. subst a b.
  change (startswith (String tab (String tab EmptyString))
            (String "C" (String " " r))) with false.
  change (startswith (String tab EmptyString) (String "C" (String " " r)))
    with false.
  change (startswith "C " (String "C" (String " " r))) with true.
  cbn [andb]. cbv iota.
  destruct (splitn " " 3 (String "C" (String " " r))) as [|p1 [|p2 [|p3 [|p4 [|p5 l]]]]];
    try done.
  cbn [length] in Hlen. lia.
Qed.

Lemma class_line_needs_two_spaces_witness :
  load_pci_classes_loop ["C 06 Bridge"; "C 0c  Serial bus controller"]
    None None ∅
  = Raise (ValueError "C 06 Bridge").
Proof.
  apply (class_line_needs_two_spaces "C 06 Bridge"); vm_compute;
    [reflexivity|lia].
Defined.

End BadLines.
